(** * Scraper_Uploader: scheduler engine and filter pipeline

    A shallow embedding of [src/scheduler.py], of [Jsons.write_json] and the
    clock helpers of [src/common.py], and of [src/wp_upload/filters.py],
    followed by the properties of the specification that concern them.

    Conventions of the embedding.
    - A naive [datetime] is a number of seconds on the proleptic Gregorian
      time line, counted from 1970-01-01 00:00:00; a date is a day number on
      the same line.  Every timestamp the scheduler stores has whole-second
      resolution, and the clock is read once per call ([now]).
    - Python values that may be [None] or a string are [pyval]; a [dict] is an
      insertion-ordered association list with unique keys.  A [str] is held
      as its UTF-8 bytes.
    - Code that may raise returns a [result]. *)

From Stdlib Require Import ZArith List String Ascii Bool Lia Sorted.
Import ListNotations.

Local Open Scope string_scope.
Local Open Scope list_scope.
Local Open Scope Z_scope.

(** ** Exceptions and results *)

Inductive exn : Type :=
| ValueError (msg : string)
| ScheduleError (msg : string)
| IntervalError (msg : string)
| UnboundLocalError (name : string)
| ImportError (module name : string)
| AttributeError (msg : string)
| FileNotFoundError (path : string)
| IOError (msg : string)
| TypeError (msg : string)
| ActionError (msg : string).

Inductive result (A : Type) : Type :=
| Ok (a : A)
| Raise (e : exn).

Arguments Ok {A} a.
Arguments Raise {A} e.

Definition bind {A B : Type} (r : result A) (k : A -> result B) : result B :=
  match r with
  | Ok a => k a
  | Raise e => Raise e
  end.

Notation "x <- r ;; k" := (bind r (fun x => k))
  (at level 61, r at next level, right associativity).

Definition is_ok {A : Type} (r : result A) : bool :=
  match r with Ok _ => true | Raise _ => false end.

(** ** Python strings

    A Python [str] is a sequence of code points.  The embedding holds it as
    the [string] of its UTF-8 bytes, and the library calls that look at
    characters ([\s], [\d] and [\w] of [re], [str.strip]) see the code
    points. *)

Module Unicode.

Definition byte (c : ascii) : Z := Z.of_nat (nat_of_ascii c).
Definition chr (b : Z) : ascii := ascii_of_nat (Z.to_nat b).

(** A continuation byte, [10xxxxxx]. *)
Definition is_cont (b : Z) : bool := (128 <=? b) && (b <=? 191).

(** A byte that begins no well-formed sequence is kept, as the code point
    U+DC00 + byte, so that [encode] gives it back (the [surrogateescape]
    handler of [bytes.decode]). *)
Definition escape (b : Z) : Z := 56320 + b.

Definition is_surrogate (c : Z) : bool := (55296 <=? c) && (c <=? 57343).

(** The code points of a string: sequences of one to four bytes, the
    shortest form only, no surrogate and nothing above U+10FFFF. *)
Fixpoint decode (s : string) : list Z :=
  match s with
  | EmptyString => []
  | String a r =>
      let x := byte a in
      if x <? 128 then x :: decode r
      else
        match r with
        | EmptyString => [escape x]
        | String b r1 =>
            let y := byte b in
            if (194 <=? x) && (x <=? 223) && is_cont y
            then ((x - 192) * 64 + (y - 128)) :: decode r1
            else
              match r1 with
              | EmptyString => escape x :: decode r
              | String c r2 =>
                  let z := byte c in
                  let p3 := (x - 224) * 4096 + (y - 128) * 64 + (z - 128) in
                  if (224 <=? x) && (x <=? 239) && is_cont y && is_cont z
                     && (2048 <=? p3) && negb (is_surrogate p3)
                  then p3 :: decode r2
                  else
                    match r2 with
                    | EmptyString => escape x :: decode r
                    | String d r3 =>
                        let w := byte d in
                        let p4 := (x - 240) * 262144 + (y - 128) * 4096
                                  + (z - 128) * 64 + (w - 128) in
                        if (240 <=? x) && (x <=? 244) && is_cont y
                           && is_cont z && is_cont w
                           && (65536 <=? p4) && (p4 <=? 1114111)
                        then p4 :: decode r3
                        else escape x :: decode r
                    end
              end
        end
  end.

Definition encode_point (c : Z) : string :=
  if c <? 128 then String (chr c) EmptyString
  else if c <? 2048 then
    String (chr (192 + c / 64)) (String (chr (128 + c mod 64)) EmptyString)
  else if (56448 <=? c) && (c <=? 56575) then
    String (chr (c - 56320)) EmptyString
  else if c <? 65536 then
    String (chr (224 + c / 4096))
      (String (chr (128 + c / 64 mod 64))
         (String (chr (128 + c mod 64)) EmptyString))
  else
    String (chr (240 + c / 262144))
      (String (chr (128 + c / 4096 mod 64))
         (String (chr (128 + c / 64 mod 64))
            (String (chr (128 + c mod 64)) EmptyString))).

Fixpoint encode (l : list Z) : string :=
  match l with
  | [] => EmptyString
  | c :: r => encode_point c ++ encode r
  end.

(** A code point a [str] read from JSON text holds; a string all of whose
    code points are such is the UTF-8 form of a [str]. *)
Definition scalar (c : Z) : bool :=
  (0 <=? c) && (c <=? 1114111) && negb (is_surrogate c).

Definition well_formed (s : string) : bool := forallb scalar (decode s).

Definition in_ranges (t : list (Z * Z)) (c : Z) : bool :=
  existsb (fun r => (fst r <=? c) && (c <=? snd r)) t.

(** The tables below are those of the Unicode character database,
    version 14.0, which CPython 3.11 carries; each lists the code points
    above U+007F only. *)

(** White space: what [str.isspace], [str.strip] and [\s] take. *)
Definition space_ranges : list (Z * Z) :=
  [(133, 133); (160, 160); (5760, 5760); (8192, 8202); (8232, 8233);
   (8239, 8239); (8287, 8287); (12288, 12288)].

Definition is_space (c : Z) : bool :=
  ((9 <=? c) && (c <=? 13)) || ((28 <=? c) && (c <=? 32))
  || in_ranges space_ranges c.

(** Decimal digits (category Nd), in runs of ten from the digit zero. *)
Definition digit_ranges : list (Z * Z) :=
  [(1632, 1641); (1776, 1785); (1984, 1993); (2406, 2415);
   (2534, 2543); (2662, 2671); (2790, 2799); (2918, 2927);
   (3046, 3055); (3174, 3183); (3302, 3311); (3430, 3439);
   (3558, 3567); (3664, 3673); (3792, 3801); (3872, 3881);
   (4160, 4169); (4240, 4249); (6112, 6121); (6160, 6169);
   (6470, 6479); (6608, 6617); (6784, 6793); (6800, 6809);
   (6992, 7001); (7088, 7097); (7232, 7241); (7248, 7257);
   (42528, 42537); (43216, 43225); (43264, 43273); (43472, 43481);
   (43504, 43513); (43600, 43609); (44016, 44025); (65296, 65305);
   (66720, 66729); (68912, 68921); (69734, 69743); (69872, 69881);
   (69942, 69951); (70096, 70105); (70384, 70393); (70736, 70745);
   (70864, 70873); (71248, 71257); (71360, 71369); (71472, 71481);
   (71904, 71913); (72016, 72025); (72784, 72793); (73040, 73049);
   (73120, 73129); (92768, 92777); (92864, 92873); (93008, 93017);
   (120782, 120831); (123200, 123209); (123632, 123641); (125264, 125273);
   (130032, 130041)].

(** [\d], with the value [int] gives the digit. *)
Definition decimal (c : Z) : option Z :=
  if (48 <=? c) && (c <=? 57) then Some (c - 48)
  else match find (fun r => (fst r <=? c) && (c <=? snd r)) digit_ranges with
       | Some r => Some ((c - fst r) mod 10)
       | None => None
       end.

(** Letters and numbers: what [str.isalnum] takes. *)
Definition word_ranges : list (Z * Z) :=
  [(170, 170); (178, 179); (181, 181); (185, 186);
   (188, 190); (192, 214); (216, 246); (248, 705);
   (710, 721); (736, 740); (748, 748); (750, 750);
   (880, 884); (886, 887); (890, 893); (895, 895);
   (902, 902); (904, 906); (908, 908); (910, 929);
   (931, 1013); (1015, 1153); (1162, 1327); (1329, 1366);
   (1369, 1369); (1376, 1416); (1488, 1514); (1519, 1522);
   (1568, 1610); (1632, 1641); (1646, 1647); (1649, 1747);
   (1749, 1749); (1765, 1766); (1774, 1788); (1791, 1791);
   (1808, 1808); (1810, 1839); (1869, 1957); (1969, 1969);
   (1984, 2026); (2036, 2037); (2042, 2042); (2048, 2069);
   (2074, 2074); (2084, 2084); (2088, 2088); (2112, 2136);
   (2144, 2154); (2160, 2183); (2185, 2190); (2208, 2249);
   (2308, 2361); (2365, 2365); (2384, 2384); (2392, 2401);
   (2406, 2415); (2417, 2432); (2437, 2444); (2447, 2448);
   (2451, 2472); (2474, 2480); (2482, 2482); (2486, 2489);
   (2493, 2493); (2510, 2510); (2524, 2525); (2527, 2529);
   (2534, 2545); (2548, 2553); (2556, 2556); (2565, 2570);
   (2575, 2576); (2579, 2600); (2602, 2608); (2610, 2611);
   (2613, 2614); (2616, 2617); (2649, 2652); (2654, 2654);
   (2662, 2671); (2674, 2676); (2693, 2701); (2703, 2705);
   (2707, 2728); (2730, 2736); (2738, 2739); (2741, 2745);
   (2749, 2749); (2768, 2768); (2784, 2785); (2790, 2799);
   (2809, 2809); (2821, 2828); (2831, 2832); (2835, 2856);
   (2858, 2864); (2866, 2867); (2869, 2873); (2877, 2877);
   (2908, 2909); (2911, 2913); (2918, 2927); (2929, 2935);
   (2947, 2947); (2949, 2954); (2958, 2960); (2962, 2965);
   (2969, 2970); (2972, 2972); (2974, 2975); (2979, 2980);
   (2984, 2986); (2990, 3001); (3024, 3024); (3046, 3058);
   (3077, 3084); (3086, 3088); (3090, 3112); (3114, 3129);
   (3133, 3133); (3160, 3162); (3165, 3165); (3168, 3169);
   (3174, 3183); (3192, 3198); (3200, 3200); (3205, 3212);
   (3214, 3216); (3218, 3240); (3242, 3251); (3253, 3257);
   (3261, 3261); (3293, 3294); (3296, 3297); (3302, 3311);
   (3313, 3314); (3332, 3340); (3342, 3344); (3346, 3386);
   (3389, 3389); (3406, 3406); (3412, 3414); (3416, 3425);
   (3430, 3448); (3450, 3455); (3461, 3478); (3482, 3505);
   (3507, 3515); (3517, 3517); (3520, 3526); (3558, 3567);
   (3585, 3632); (3634, 3635); (3648, 3654); (3664, 3673);
   (3713, 3714); (3716, 3716); (3718, 3722); (3724, 3747);
   (3749, 3749); (3751, 3760); (3762, 3763); (3773, 3773);
   (3776, 3780); (3782, 3782); (3792, 3801); (3804, 3807);
   (3840, 3840); (3872, 3891); (3904, 3911); (3913, 3948);
   (3976, 3980); (4096, 4138); (4159, 4169); (4176, 4181);
   (4186, 4189); (4193, 4193); (4197, 4198); (4206, 4208);
   (4213, 4225); (4238, 4238); (4240, 4249); (4256, 4293);
   (4295, 4295); (4301, 4301); (4304, 4346); (4348, 4680);
   (4682, 4685); (4688, 4694); (4696, 4696); (4698, 4701);
   (4704, 4744); (4746, 4749); (4752, 4784); (4786, 4789);
   (4792, 4798); (4800, 4800); (4802, 4805); (4808, 4822);
   (4824, 4880); (4882, 4885); (4888, 4954); (4969, 4988);
   (4992, 5007); (5024, 5109); (5112, 5117); (5121, 5740);
   (5743, 5759); (5761, 5786); (5792, 5866); (5870, 5880);
   (5888, 5905); (5919, 5937); (5952, 5969); (5984, 5996);
   (5998, 6000); (6016, 6067); (6103, 6103); (6108, 6108);
   (6112, 6121); (6128, 6137); (6160, 6169); (6176, 6264);
   (6272, 6276); (6279, 6312); (6314, 6314); (6320, 6389);
   (6400, 6430); (6470, 6509); (6512, 6516); (6528, 6571);
   (6576, 6601); (6608, 6618); (6656, 6678); (6688, 6740);
   (6784, 6793); (6800, 6809); (6823, 6823); (6917, 6963);
   (6981, 6988); (6992, 7001); (7043, 7072); (7086, 7141);
   (7168, 7203); (7232, 7241); (7245, 7293); (7296, 7304);
   (7312, 7354); (7357, 7359); (7401, 7404); (7406, 7411);
   (7413, 7414); (7418, 7418); (7424, 7615); (7680, 7957);
   (7960, 7965); (7968, 8005); (8008, 8013); (8016, 8023);
   (8025, 8025); (8027, 8027); (8029, 8029); (8031, 8061);
   (8064, 8116); (8118, 8124); (8126, 8126); (8130, 8132);
   (8134, 8140); (8144, 8147); (8150, 8155); (8160, 8172);
   (8178, 8180); (8182, 8188); (8304, 8305); (8308, 8313);
   (8319, 8329); (8336, 8348); (8450, 8450); (8455, 8455);
   (8458, 8467); (8469, 8469); (8473, 8477); (8484, 8484);
   (8486, 8486); (8488, 8488); (8490, 8493); (8495, 8505);
   (8508, 8511); (8517, 8521); (8526, 8526); (8528, 8585);
   (9312, 9371); (9450, 9471); (10102, 10131); (11264, 11492);
   (11499, 11502); (11506, 11507); (11517, 11517); (11520, 11557);
   (11559, 11559); (11565, 11565); (11568, 11623); (11631, 11631);
   (11648, 11670); (11680, 11686); (11688, 11694); (11696, 11702);
   (11704, 11710); (11712, 11718); (11720, 11726); (11728, 11734);
   (11736, 11742); (11823, 11823); (12293, 12295); (12321, 12329);
   (12337, 12341); (12344, 12348); (12353, 12438); (12445, 12447);
   (12449, 12538); (12540, 12543); (12549, 12591); (12593, 12686);
   (12690, 12693); (12704, 12735); (12784, 12799); (12832, 12841);
   (12872, 12879); (12881, 12895); (12928, 12937); (12977, 12991);
   (13312, 19903); (19968, 42124); (42192, 42237); (42240, 42508);
   (42512, 42539); (42560, 42606); (42623, 42653); (42656, 42735);
   (42775, 42783); (42786, 42888); (42891, 42954); (42960, 42961);
   (42963, 42963); (42965, 42969); (42994, 43009); (43011, 43013);
   (43015, 43018); (43020, 43042); (43056, 43061); (43072, 43123);
   (43138, 43187); (43216, 43225); (43250, 43255); (43259, 43259);
   (43261, 43262); (43264, 43301); (43312, 43334); (43360, 43388);
   (43396, 43442); (43471, 43481); (43488, 43492); (43494, 43518);
   (43520, 43560); (43584, 43586); (43588, 43595); (43600, 43609);
   (43616, 43638); (43642, 43642); (43646, 43695); (43697, 43697);
   (43701, 43702); (43705, 43709); (43712, 43712); (43714, 43714);
   (43739, 43741); (43744, 43754); (43762, 43764); (43777, 43782);
   (43785, 43790); (43793, 43798); (43808, 43814); (43816, 43822);
   (43824, 43866); (43868, 43881); (43888, 44002); (44016, 44025);
   (44032, 55203); (55216, 55238); (55243, 55291); (63744, 64109);
   (64112, 64217); (64256, 64262); (64275, 64279); (64285, 64285);
   (64287, 64296); (64298, 64310); (64312, 64316); (64318, 64318);
   (64320, 64321); (64323, 64324); (64326, 64433); (64467, 64829);
   (64848, 64911); (64914, 64967); (65008, 65019); (65136, 65140);
   (65142, 65276); (65296, 65305); (65313, 65338); (65345, 65370);
   (65382, 65470); (65474, 65479); (65482, 65487); (65490, 65495);
   (65498, 65500); (65536, 65547); (65549, 65574); (65576, 65594);
   (65596, 65597); (65599, 65613); (65616, 65629); (65664, 65786);
   (65799, 65843); (65856, 65912); (65930, 65931); (66176, 66204);
   (66208, 66256); (66273, 66299); (66304, 66339); (66349, 66378);
   (66384, 66421); (66432, 66461); (66464, 66499); (66504, 66511);
   (66513, 66517); (66560, 66717); (66720, 66729); (66736, 66771);
   (66776, 66811); (66816, 66855); (66864, 66915); (66928, 66938);
   (66940, 66954); (66956, 66962); (66964, 66965); (66967, 66977);
   (66979, 66993); (66995, 67001); (67003, 67004); (67072, 67382);
   (67392, 67413); (67424, 67431); (67456, 67461); (67463, 67504);
   (67506, 67514); (67584, 67589); (67592, 67592); (67594, 67637);
   (67639, 67640); (67644, 67644); (67647, 67669); (67672, 67702);
   (67705, 67742); (67751, 67759); (67808, 67826); (67828, 67829);
   (67835, 67867); (67872, 67897); (67968, 68023); (68028, 68047);
   (68050, 68096); (68112, 68115); (68117, 68119); (68121, 68149);
   (68160, 68168); (68192, 68222); (68224, 68255); (68288, 68295);
   (68297, 68324); (68331, 68335); (68352, 68405); (68416, 68437);
   (68440, 68466); (68472, 68497); (68521, 68527); (68608, 68680);
   (68736, 68786); (68800, 68850); (68858, 68899); (68912, 68921);
   (69216, 69246); (69248, 69289); (69296, 69297); (69376, 69415);
   (69424, 69445); (69457, 69460); (69488, 69505); (69552, 69579);
   (69600, 69622); (69635, 69687); (69714, 69743); (69745, 69746);
   (69749, 69749); (69763, 69807); (69840, 69864); (69872, 69881);
   (69891, 69926); (69942, 69951); (69956, 69956); (69959, 69959);
   (69968, 70002); (70006, 70006); (70019, 70066); (70081, 70084);
   (70096, 70106); (70108, 70108); (70113, 70132); (70144, 70161);
   (70163, 70187); (70272, 70278); (70280, 70280); (70282, 70285);
   (70287, 70301); (70303, 70312); (70320, 70366); (70384, 70393);
   (70405, 70412); (70415, 70416); (70419, 70440); (70442, 70448);
   (70450, 70451); (70453, 70457); (70461, 70461); (70480, 70480);
   (70493, 70497); (70656, 70708); (70727, 70730); (70736, 70745);
   (70751, 70753); (70784, 70831); (70852, 70853); (70855, 70855);
   (70864, 70873); (71040, 71086); (71128, 71131); (71168, 71215);
   (71236, 71236); (71248, 71257); (71296, 71338); (71352, 71352);
   (71360, 71369); (71424, 71450); (71472, 71483); (71488, 71494);
   (71680, 71723); (71840, 71922); (71935, 71942); (71945, 71945);
   (71948, 71955); (71957, 71958); (71960, 71983); (71999, 71999);
   (72001, 72001); (72016, 72025); (72096, 72103); (72106, 72144);
   (72161, 72161); (72163, 72163); (72192, 72192); (72203, 72242);
   (72250, 72250); (72272, 72272); (72284, 72329); (72349, 72349);
   (72368, 72440); (72704, 72712); (72714, 72750); (72768, 72768);
   (72784, 72812); (72818, 72847); (72960, 72966); (72968, 72969);
   (72971, 73008); (73030, 73030); (73040, 73049); (73056, 73061);
   (73063, 73064); (73066, 73097); (73112, 73112); (73120, 73129);
   (73440, 73458); (73648, 73648); (73664, 73684); (73728, 74649);
   (74752, 74862); (74880, 75075); (77712, 77808); (77824, 78894);
   (82944, 83526); (92160, 92728); (92736, 92766); (92768, 92777);
   (92784, 92862); (92864, 92873); (92880, 92909); (92928, 92975);
   (92992, 92995); (93008, 93017); (93019, 93025); (93027, 93047);
   (93053, 93071); (93760, 93846); (93952, 94026); (94032, 94032);
   (94099, 94111); (94176, 94177); (94179, 94179); (94208, 100343);
   (100352, 101589); (101632, 101640); (110576, 110579); (110581, 110587);
   (110589, 110590); (110592, 110882); (110928, 110930); (110948, 110951);
   (110960, 111355); (113664, 113770); (113776, 113788); (113792, 113800);
   (113808, 113817); (119520, 119539); (119648, 119672); (119808, 119892);
   (119894, 119964); (119966, 119967); (119970, 119970); (119973, 119974);
   (119977, 119980); (119982, 119993); (119995, 119995); (119997, 120003);
   (120005, 120069); (120071, 120074); (120077, 120084); (120086, 120092);
   (120094, 120121); (120123, 120126); (120128, 120132); (120134, 120134);
   (120138, 120144); (120146, 120485); (120488, 120512); (120514, 120538);
   (120540, 120570); (120572, 120596); (120598, 120628); (120630, 120654);
   (120656, 120686); (120688, 120712); (120714, 120744); (120746, 120770);
   (120772, 120779); (120782, 120831); (122624, 122654); (123136, 123180);
   (123191, 123197); (123200, 123209); (123214, 123214); (123536, 123565);
   (123584, 123627); (123632, 123641); (124896, 124902); (124904, 124907);
   (124909, 124910); (124912, 124926); (124928, 125124); (125127, 125135);
   (125184, 125251); (125259, 125259); (125264, 125273); (126065, 126123);
   (126125, 126127); (126129, 126132); (126209, 126253); (126255, 126269);
   (126464, 126467); (126469, 126495); (126497, 126498); (126500, 126500);
   (126503, 126503); (126505, 126514); (126516, 126519); (126521, 126521);
   (126523, 126523); (126530, 126530); (126535, 126535); (126537, 126537);
   (126539, 126539); (126541, 126543); (126545, 126546); (126548, 126548);
   (126551, 126551); (126553, 126553); (126555, 126555); (126557, 126557);
   (126559, 126559); (126561, 126562); (126564, 126564); (126567, 126570);
   (126572, 126578); (126580, 126583); (126585, 126588); (126590, 126590);
   (126592, 126601); (126603, 126619); (126625, 126627); (126629, 126633);
   (126635, 126651); (127232, 127244); (130032, 130041); (131072, 173791);
   (173824, 177976); (177984, 178205); (178208, 183969); (183984, 191456);
   (194560, 195101); (196608, 201546)].

(** [\w]: a letter, a number or the underscore. *)
Definition is_word (c : Z) : bool :=
  ((48 <=? c) && (c <=? 57)) || ((65 <=? c) && (c <=? 90))
  || ((97 <=? c) && (c <=? 122)) || (c =? 95)
  || in_ranges word_ranges c.

End Unicode.

(** ** The calls into Python's [datetime] that the repository makes *)

Module PyTime.

Definition day_seconds : Z := 86400.
Definition hour_seconds : Z := 3600.

(** [t.date()], as a day number, and [t.time()], as seconds after midnight. *)
Definition date_of (t : Z) : Z := t / day_seconds.
Definition time_of (t : Z) : Z := t mod day_seconds.

(** [datetime.combine(date, time)]. *)
Definition combine (d tod : Z) : Z := d * day_seconds + tod.

(** [t.weekday()], Monday being 0: day 0 (1970-01-01) is a Thursday. *)
Definition weekday (t : Z) : Z := (date_of t + 3) mod 7.

Definition digit_char (k : Z) : ascii := ascii_of_nat (Z.to_nat (48 + k)).

Definition digit_of (c : ascii) : option Z :=
  let n := Z.of_nat (nat_of_ascii c) in
  if (48 <=? n) && (n <=? 57) then Some (n - 48) else None.

Definition two_digits (k : Z) : string :=
  String (digit_char (k / 10)) (String (digit_char (k mod 10)) EmptyString).

(** [strftime("%H:%M:%S")] of a time of day. *)
Definition strftime_HMS (tod : Z) : string :=
  two_digits (tod / 3600) ++ ":" ++ two_digits (tod / 60 mod 60)
    ++ ":" ++ two_digits (tod mod 60).

(** A numeric directive of [strptime] ([%H], [%M], [%S]), on the digits of
    ASCII, which are those of the times the scheduler prints and is given:
    the regular expression tries two digits forming a value of at most [hi]
    first and one digit otherwise.  Every directive is followed by a fixed
    non-digit character or by the end of the pattern, so the first
    alternative that matches is the one the whole match uses. *)
Definition field2 (hi : Z) (s : string) : option (Z * string) :=
  match s with
  | EmptyString => None
  | String a r =>
      match digit_of a with
      | None => None
      | Some x =>
          match r with
          | EmptyString => Some (x, r)
          | String b r' =>
              match digit_of b with
              | Some y => if 10 * x + y <=? hi then Some (10 * x + y, r')
                          else Some (x, r)
              | None => Some (x, r)
              end
          end
      end
  end.

Definition expect (c : ascii) (s : string) : option string :=
  match s with
  | String a r => if Ascii.eqb a c then Some r else None
  | EmptyString => None
  end.

(** [datetime.strptime(s, "%H:%M").time()]; [None] stands for the
    [ValueError] raised when [s] does not match or text remains. *)
Definition strptime_HM (s : string) : option Z :=
  match field2 23 s with
  | Some (h, r) =>
      match expect ":" r with
      | Some r1 =>
          match field2 59 r1 with
          | Some (m, EmptyString) => Some (h * 3600 + m * 60)
          | _ => None
          end
      | None => None
      end
  | None => None
  end.

(** [datetime.strptime(s, "%H:%M:%S").time()]. *)
Definition strptime_HMS (s : string) : option Z :=
  match field2 23 s with
  | Some (h, r) =>
      match expect ":" r with
      | Some r1 =>
          match field2 59 r1 with
          | Some (m, r2) =>
              match expect ":" r2 with
              | Some r3 =>
                  match field2 61 r3 with
                  | Some (sec, EmptyString) => Some (h * 3600 + m * 60 + sec)
                  | _ => None
                  end
              | None => None
              end
          | None => None
          end
      | None => None
      end
  | None => None
  end.

(** [str.lower()] on ASCII letters. *)
Definition lower_char (c : ascii) : ascii :=
  let n := nat_of_ascii c in
  if ((65 <=? n) && (n <=? 90))%nat then ascii_of_nat (n + 32) else c.

Fixpoint lower (s : string) : string :=
  match s with
  | EmptyString => EmptyString
  | String c r => String (lower_char c) (lower r)
  end.

(** [\s] of the [re] module on a [str]: the white space of Unicode. *)
Fixpoint skip_spaces (l : list Z) : list Z :=
  match l with
  | c :: r => if Unicode.is_space c then skip_spaces r else l
  | [] => l
  end.

(** [\s+]: at least one white-space character. *)
Definition spaces1 (l : list Z) : option (list Z) :=
  match l with
  | c :: r => if Unicode.is_space c then Some (skip_spaces r) else None
  | [] => None
  end.

Definition month_names : list string :=
  ["jan"; "feb"; "mar"; "apr"; "may"; "jun";
   "jul"; "aug"; "sep"; "oct"; "nov"; "dec"].

Fixpoint index_of (x : string) (l : list string) : option Z :=
  match l with
  | [] => None
  | y :: r => if String.eqb x y then Some 0
              else option_map Z.succ (index_of x r)
  end.

(** [%b], matched without regard to case.  The match is looked up in
    the month names with [str.lower], so that only the letters of ASCII
    give a month. *)
Definition month_field (l : list Z) : option (Z * list Z) :=
  match l with
  | a :: b :: c :: r =>
      if (a <? 128) && (b <? 128) && (c <? 128) then
        match index_of (lower (Unicode.encode [a; b; c])) month_names with
        | Some k => Some (k + 1, r)
        | None => None
        end
      else None
  | _ => None
  end.

(** [[0-9]]: a digit of ASCII. *)
Definition ascii_digit (c : Z) : option Z :=
  if (48 <=? c) && (c <=? 57) then Some (c - 48) else None.

(** [%d]: [3[0-1]|[1-2]\d|0[1-9]|[1-9]| [1-9]], a value between 1 and 31.
    Only the second digit after a [1] or a [2] may be any decimal digit of
    Unicode.  The comma that follows is no digit, so the first alternative
    that matches is the one the whole match uses; the last alternative
    needs a blank, which the [\s+] before the directive has taken. *)
Definition day_field (l : list Z) : option (Z * list Z) :=
  match l with
  | a :: r =>
      match ascii_digit a with
      | Some x =>
          let one_digit := if 1 <=? x then Some (x, r) else None in
          match r with
          | b :: r' =>
              if x =? 3 then
                match ascii_digit b with
                | Some y => if y <=? 1 then Some (30 + y, r') else one_digit
                | None => one_digit
                end
              else if (x =? 1) || (x =? 2) then
                match Unicode.decimal b with
                | Some y => Some (10 * x + y, r')
                | None => one_digit
                end
              else if x =? 0 then
                match ascii_digit b with
                | Some y => if 1 <=? y then Some (y, r') else None
                | None => None
                end
              else one_digit
          | [] => one_digit
          end
      | None => None
      end
  | [] => None
  end.

(** [%Y]: [\d\d\d\d], four decimal digits. *)
Definition year_field (l : list Z) : option (Z * list Z) :=
  match l with
  | a :: b :: c :: d :: r =>
      match Unicode.decimal a, Unicode.decimal b,
            Unicode.decimal c, Unicode.decimal d with
      | Some x, Some y, Some z, Some w =>
          Some (1000 * x + 100 * y + 10 * z + w, r)
      | _, _, _, _ => None
      end
  | _ => None
  end.

(** A character of the format that stands for itself. *)
Definition literal (c : Z) (l : list Z) : option (list Z) :=
  match l with
  | a :: r => if a =? c then Some r else None
  | [] => None
  end.

Definition is_leap (y : Z) : bool :=
  ((y mod 4 =? 0) && negb (y mod 100 =? 0)) || (y mod 400 =? 0).

Definition days_in_month (y m : Z) : Z :=
  if m =? 2 then (if is_leap y then 29 else 28)
  else if (m =? 4) || (m =? 6) || (m =? 9) || (m =? 11) then 30
  else 31.

(** Day number of the civil date [y]-[m]-[d]. *)
Definition days_from_civil (y m d : Z) : Z :=
  let y' := if m <=? 2 then y - 1 else y in
  let era := y' / 400 in
  let yoe := y' - era * 400 in
  let mp := if m <=? 2 then m + 9 else m - 3 in
  let doy := (153 * mp + 2) / 5 + d - 1 in
  let doe := yoe * 365 + yoe / 4 - yoe / 100 + doy in
  era * 146097 + doe - 719468.

(** [datetime.strptime(s, "%b %d, %Y")], as a day number; [None] stands for
    the [ValueError] of a string that does not match
    [(?P<b>jan|...|dec)\s+(?P<d>...),\s+(?P<Y>\d\d\d\d)], leaves text over,
    or names a year or a day that [datetime] does not have. *)
Definition strptime_date (s : string) : option Z :=
  match month_field (Unicode.decode s) with
  | Some (m, r) =>
      match spaces1 r with
      | Some r1 =>
          match day_field r1 with
          | Some (d, r2) =>
              match literal 44 r2 with
              | Some r3 =>
                  match spaces1 r3 with
                  | Some r4 =>
                      match year_field r4 with
                      | Some (y, []) =>
                          if (1 <=? y) && (d <=? days_in_month y m)
                          then Some (days_from_civil y m d) else None
                      | _ => None
                      end
                  | None => None
                  end
              | None => None
              end
          | None => None
          end
      | None => None
      end
  | None => None
  end.

End PyTime.

Import PyTime.

(** ** Python values *)

Inductive pyval : Type :=
| PNone
| PStr (s : string).

Definition pyval_eqb (a b : pyval) : bool :=
  match a, b with
  | PNone, PNone => true
  | PStr x, PStr y => String.eqb x y
  | _, _ => false
  end.

(** Truth value of [None] or a string. *)
Definition truthy (v : pyval) : bool :=
  match v with
  | PNone => false
  | PStr s => negb (String.eqb s "")
  end.

(** [str(v)]. *)
Definition py_str (v : pyval) : string :=
  match v with
  | PNone => "None"
  | PStr s => s
  end.

(** ** Insertion-ordered dictionaries *)

Module PyDict.
Section Dict.
Context {K V : Type}.
Variable eqb : K -> K -> bool.

Definition dict : Type := list (K * V).

Fixpoint get (k : K) (d : dict) : option V :=
  match d with
  | [] => None
  | (k', v) :: r => if eqb k' k then Some v else get k r
  end.

Definition mem (k : K) (d : dict) : bool :=
  match get k d with Some _ => true | None => false end.

(** [d[k] = v]: an existing key keeps its position, a new one goes last. *)
Fixpoint set (k : K) (v : V) (d : dict) : dict :=
  match d with
  | [] => [(k, v)]
  | (k', v') :: r => if eqb k' k then (k', v) :: r
                     else (k', v') :: set k v r
  end.

(** [for k, v in items: d[k] = v]. *)
Definition update (items : list (K * V)) (d : dict) : dict :=
  fold_left (fun acc kv => set (fst kv) (snd kv) acc) items d.

(** A dictionary comprehension [{k: v for ...}]. *)
Definition of_items (items : list (K * V)) : dict := update items [].

Definition values (d : dict) : list V := map snd d.
Definition keys (d : dict) : list K := map fst d.
End Dict.
End PyDict.

(** ** [src/scheduler.py] *)

Module Sched.

(** [Job.job_id]: the constructor stores the builtin class [str];
    [with_id] stores whatever it is given. *)
Inductive id_val : Type :=
| StrClass
| IdStr (s : string)
| IdInt (n : Z).

Definition id_eqb (a b : id_val) : bool :=
  match a, b with
  | StrClass, StrClass => true
  | IdStr x, IdStr y => String.eqb x y
  | IdInt x, IdInt y => Z.eqb x y
  | _, _ => false
  end.

(** [isinstance(job_id, str)]. *)
Definition is_str (i : id_val) : bool :=
  match i with IdStr _ => true | _ => false end.

(** [Job.unit]: the constructor stores the builtin class [int]; the unit
    properties store a name. *)
Inductive unit_val : Type :=
| IntClass
| UnitName (s : string).

Inductive dow_val : Type :=
| DowInt (d : Z)
| DowName (s : string).

(** A [functools.partial]: the function, known by module and name, with
    its bound arguments. *)
Record action : Type := mkAction {
  act_module : string;
  act_name : string;
  act_args : list pyval;
  act_kwargs : list (string * pyval)
}.

Record Job : Type := mkJob {
  job_id : id_val;
  interval : Z;
  job_unit : unit_val;
  job_func : option action;
  at_time : option string;
  day_of_week : option dow_val;
  last_run : option Z;
  next_run : option Z;
  has_scheduler : bool
}.

(** One entry of the ["jobs"] list of the state file, as [to_dict]
    writes it. *)
Record JobData : Type := mkJobData {
  d_id : id_val;
  d_interval : Z;
  d_unit : unit_val;
  d_at_time : option string;
  d_day_of_week : option dow_val;
  d_last_run : option Z;
  d_next_run : option Z;
  d_action_module : string;
  d_action_name : string;
  d_args : list pyval;
  d_kwargs : list (string * pyval)
}.

(** [scheduler_data.json]: absent, empty or not JSON, or a document
    [{"jobs": [...]}]. *)
Inductive state_file : Type :=
| Missing
| Unreadable
| StateDoc (jobs : list JobData).

(** What one turn of the write loop of [save_data] meets. *)
Inductive attempt : Type :=
| SpaceLow        (* check_disk_space is False *)
| WriteOk         (* the dump succeeds *)
| WriteNoSpace    (* IOError with errno 28 *)
| WriteIOError.   (* any other IOError *)

(** The turns after which the loop goes round again. *)
Definition retried (a : attempt) : Prop :=
  a = SpaceLow \/ a = WriteNoSpace.

Record world : Type := mkWorld {
  file : state_file;
  io : list attempt
}.

(** The environment of the scheduler: which [module.name] can be imported,
    and whether calling an action raises. *)
Record env : Type := mkEnv {
  importable : string -> string -> bool;
  call : action -> option exn
}.

(** *** Field updates *)

Definition set_job_id (i : id_val) (j : Job) : Job :=
  mkJob i (interval j) (job_unit j) (job_func j) (at_time j)
        (day_of_week j) (last_run j) (next_run j) (has_scheduler j).
Definition set_unit (u : unit_val) (j : Job) : Job :=
  mkJob (job_id j) (interval j) u (job_func j) (at_time j)
        (day_of_week j) (last_run j) (next_run j) (has_scheduler j).
Definition set_job_func (f : option action) (j : Job) : Job :=
  mkJob (job_id j) (interval j) (job_unit j) f (at_time j)
        (day_of_week j) (last_run j) (next_run j) (has_scheduler j).
Definition set_at_time (t : option string) (j : Job) : Job :=
  mkJob (job_id j) (interval j) (job_unit j) (job_func j) t
        (day_of_week j) (last_run j) (next_run j) (has_scheduler j).
Definition set_day_of_week (d : option dow_val) (j : Job) : Job :=
  mkJob (job_id j) (interval j) (job_unit j) (job_func j) (at_time j)
        d (last_run j) (next_run j) (has_scheduler j).
Definition set_last_run (t : option Z) (j : Job) : Job :=
  mkJob (job_id j) (interval j) (job_unit j) (job_func j) (at_time j)
        (day_of_week j) t (next_run j) (has_scheduler j).
Definition set_next_run (t : option Z) (j : Job) : Job :=
  mkJob (job_id j) (interval j) (job_unit j) (job_func j) (at_time j)
        (day_of_week j) (last_run j) t (has_scheduler j).

(** *** The clock helpers of [Utils] *)

(** [Utils.get_current_time()]: ["%H:%M:%S"]. *)
Definition get_current_time (now : Z) : string :=
  strftime_HMS (time_of now).

(** [datetime.strptime(Utils.get_current_datetime(), "%Y-%m-%d %H-%M-%S")]:
    the same format both ways gives the clock reading back. *)
Definition current_datetime (now : Z) : Z := now.

(** [datetime.strptime(Utils.get_current_date(), "%b %d, %Y")]: the same
    format both ways gives today's date back. *)
Definition current_date (now : Z) : Z := date_of now.

(** *** [Job.__init__] and the builder chain *)

(** [Job(interval, scheduler)]: [self.job_id = str if str else ...]. *)
Definition Job_init (interval : Z) (scheduler : bool) : Job :=
  mkJob StrClass interval IntClass None None None None None scheduler.

(** [Scheduler.every]. *)
Definition every (interval : Z) : Job := Job_init interval true.

Definition seconds (j : Job) : Job := set_unit (UnitName "seconds") j.
Definition minutes (j : Job) : Job := set_unit (UnitName "minutes") j.
Definition hours (j : Job) : Job := set_unit (UnitName "hours") j.
Definition days (j : Job) : Job := set_unit (UnitName "days") j.
Definition weeks (j : Job) : Job := set_unit (UnitName "weeks") j.

Definition singular (plural : Job -> Job) (msg : string) (j : Job)
  : result Job :=
  if interval j =? 1 then Ok (plural j) else Raise (IntervalError msg).

Definition second := singular seconds "Use seconds instead of second".
Definition minute := singular minutes "Use minutes instead of minute".
Definition hour := singular hours "Use hours instead of hour".
Definition day := singular days "Use days instead of day".
Definition week := singular weeks "Use weeks instead of week".

Definition at_ (time_str : string) (j : Job) : Job :=
  set_at_time (Some time_str) j.
Definition on (d : dow_val) (j : Job) : Job := set_day_of_week (Some d) j.
Definition with_id (i : id_val) (j : Job) : Job := set_job_id i j.

(** The calls of a builder chain, between [every] and [do]. *)
Inductive builder_call : Type :=
| CSecond | CSeconds | CMinute | CMinutes | CHour | CHours
| CDay | CDays | CWeek | CWeeks
| CAt (time_str : string)
| COn (d : dow_val)
| CWithId (i : id_val).

Definition apply_call (c : builder_call) (j : Job) : result Job :=
  match c with
  | CSecond => second j
  | CSeconds => Ok (seconds j)
  | CMinute => minute j
  | CMinutes => Ok (minutes j)
  | CHour => hour j
  | CHours => Ok (hours j)
  | CDay => day j
  | CDays => Ok (days j)
  | CWeek => week j
  | CWeeks => Ok (weeks j)
  | CAt time_str => Ok (at_ time_str j)
  | COn d => Ok (on d j)
  | CWithId i => Ok (with_id i j)
  end.

Fixpoint chain (calls : list builder_call) (j : Job) : result Job :=
  match calls with
  | [] => Ok j
  | c :: rest => j' <- apply_call c j ;; chain rest j'
  end.

Definition is_with_id (c : builder_call) : bool :=
  match c with CWithId _ => true | _ => false end.

(** *** [Job.calculate_next_run] *)

Definition weekdays : list string :=
  ["monday"; "tuesday"; "wednesday"; "thursday"; "friday"; "saturday";
   "sunday"].

Definition str_truthy (o : option string) : bool :=
  match o with
  | Some s => negb (String.eqb s "")
  | None => false
  end.

Definition parse_time (s : string) : result Z :=
  match strptime_HM s with
  | Some t => Ok t
  | None => Raise (ValueError "time data does not match format '%H:%M'")
  end.

Definition resolve_day_of_week (d : option dow_val) : result Z :=
  match d with
  | None => Raise (ValueError "day_of_week must be set for weekly scheduling")
  | Some (DowInt k) => Ok k
  | Some (DowName s) =>
      match index_of (lower s) weekdays with
      | Some k => Ok k
      | None => Raise (ValueError "Invalid day_of_week")
      end
  end.

Definition next_run_days (now : Z) (j : Job) : result Z :=
  run_time <- (match at_time j with
               | Some s => if negb (String.eqb s "") then parse_time s
                           else parse_time (get_current_time now)
               | None => parse_time (get_current_time now)
               end) ;;
  let next_run := combine (current_date now) run_time in
  Ok (match last_run j with
      | None => next_run
      | Some _ => if current_datetime now >? next_run
                  then next_run + interval j * day_seconds
                  else next_run
      end).

Definition next_run_weeks (now : Z) (j : Job) : result Z :=
  dow <- resolve_day_of_week (day_of_week j) ;;
  let next_run :=
    current_datetime now
    + ((dow - weekday (current_datetime now)) mod 7) * day_seconds in
  Ok (if current_datetime now >? next_run
      then next_run + interval j * (7 * day_seconds)
      else next_run).

Definition next_run_hours (now : Z) (j : Job) : result Z :=
  next_run <- (match last_run j with
               | None =>
                   match strptime_HMS (get_current_time now) with
                   | Some tod => Ok (combine (date_of now) tod
                                     + interval j * hour_seconds)
                   | None => Raise (ValueError
                       "time data does not match format '%H:%M:%S'")
                   end
               | Some lr =>
                   let last_run_datetime :=
                     combine (date_of lr) (time_of lr) in
                   Ok (last_run_datetime + interval j * hour_seconds)
               end) ;;
  Ok (if next_run <=? now then next_run + day_seconds else next_run).

Definition calculate_next_run (now : Z) (j : Job) : result Job :=
  match job_unit j with
  | UnitName u =>
      if String.eqb u "days" then
        t <- next_run_days now j ;; Ok (set_next_run (Some t) j)
      else if String.eqb u "weeks" then
        t <- next_run_weeks now j ;; Ok (set_next_run (Some t) j)
      else if String.eqb u "hours" then
        t <- next_run_hours now j ;; Ok (set_next_run (Some t) j)
      else Raise (ValueError "Unsupported unit")
  | IntClass => Raise (ValueError "Unsupported unit")
  end.

(** *** [Job.to_dict], [Job.from_dict], [Job.load_job_data] *)

(** Without a [job_func] neither branch binds [action_module], and
    building the dictionary raises. *)
Definition to_dict (j : Job) : result JobData :=
  match job_func j with
  | None => Raise (UnboundLocalError "action_module")
  | Some f =>
      Ok (mkJobData (job_id j) (interval j) (job_unit j)
            (if str_truthy (at_time j) then at_time j else None)
            (day_of_week j) (last_run j) (next_run j)
            (act_module f) (act_name f) (act_args f) (act_kwargs f))
  end.

Definition from_dict (e : env) (now : Z) (data : JobData) : result Job :=
  if negb (importable e (d_action_module data) (d_action_name data))
  then Raise (ImportError (d_action_module data) (d_action_name data))
  else
    let job := Job_init (d_interval data) false in
    let job := set_job_id (d_id data) job in
    let job := set_unit (d_unit data) job in
    let job := set_at_time (d_at_time data) job in
    let job := set_day_of_week (d_day_of_week data) job in
    let job := match d_last_run data with
               | Some t => set_last_run (Some t) job
               | None => job
               end in
    job <- (match d_next_run data with
            | Some t => Ok (set_next_run (Some t) job)
            | None => calculate_next_run now job
            end) ;;
    Ok (set_job_func
          (Some (mkAction (d_action_module data) (d_action_name data)
                          (d_args data) (d_kwargs data))) job).

Definition load_job_data (jid : string) (f : state_file) : option JobData :=
  match f with
  | Missing => None
  | Unreadable => None
  | StateDoc jobs_data =>
      find (fun job_data => id_eqb (d_id job_data) (IdStr jid)) jobs_data
  end.

(** *** [Job.do]

    The result is the job list of the scheduler after the call. *)
Definition do (e : env) (now : Z) (f : state_file) (jobs : list Job)
    (self : Job) (job_func : action) : result (list Job) :=
  let self := set_job_func (Some job_func) self in
  self <- calculate_next_run now self ;;
  if negb (has_scheduler self) then
    Raise (ScheduleError
      "Unable to add job to schedule. Job is not associated with a scheduler")
  else
    match job_id self with
    | IdStr jid =>
        match load_job_data jid f with
        | Some job_data =>
            job <- from_dict e now job_data ;;
            Ok (jobs ++ [job])
        | None => Ok (jobs ++ [self])
        end
    | _ => Raise (ValueError "job_id must be a string")
    end.

(** *** [Job.run] *)

(** The job as the call leaves it, and the exception that leaves the call,
    if any. *)
Definition run (e : env) (now : Z) (j : Job) : Job * option exn :=
  match job_func j with
  | None =>
      (j, Some (ValueError "Cannot run job because job_func is None"))
  | Some f =>
      match call e f with
      | Some err => (j, Some err)
      | None =>
          let j1 := set_last_run (Some (current_datetime now)) j in
          match calculate_next_run now j1 with
          | Ok j2 => (j2, None)
          | Raise err => (j1, Some err)
          end
      end
  end.

(** *** [Scheduler.save_data] *)

Inductive save_result : Type :=
| Saved (w : world)
| SaveRaised (e : exn) (w : world)
| SaveWaiting.   (* still asking the operator for disk space *)

(** The [while True] loop.  A failed write has opened the file for
    writing, so what it leaves is not a document. *)
Fixpoint write_loop (updated_job_list : list JobData) (f : state_file)
    (attempts : list attempt) : save_result :=
  match attempts with
  | [] => SaveWaiting
  | SpaceLow :: rest => write_loop updated_job_list f rest
  | WriteOk :: rest => Saved (mkWorld (StateDoc updated_job_list) rest)
  | WriteNoSpace :: rest => write_loop updated_job_list Unreadable rest
  | WriteIOError :: rest =>
      SaveRaised (IOError "unexpected I/O error") (mkWorld Unreadable rest)
  end.

Fixpoint to_dicts (jobs : list Job) : result (list JobData) :=
  match jobs with
  | [] => Ok []
  | j :: rest =>
      d <- to_dict j ;; ds <- to_dicts rest ;; Ok (d :: ds)
  end.

Definition by_id (ds : list JobData) : list (id_val * JobData) :=
  map (fun job_data => (d_id job_data, job_data)) ds.

(** The entries read from the file: none when it is absent or when
    loading it fails. *)
Definition existing_jobs (f : state_file) : list JobData :=
  match f with
  | StateDoc jobs_on_disk => jobs_on_disk
  | Missing => []
  | Unreadable => []
  end.

Definition existing_jobs_dict (f : state_file)
  : PyDict.dict (K := id_val) (V := JobData) :=
  PyDict.of_items id_eqb (by_id (existing_jobs f)).

(** The list [save_data] dumps under ["jobs"]. *)
Definition merged_jobs (f : state_file) (ds : list JobData)
  : list JobData :=
  let updated_jobs_dict := PyDict.of_items id_eqb (by_id ds) in
  PyDict.values (PyDict.update id_eqb updated_jobs_dict
                               (existing_jobs_dict f)).

Definition save_data (jobs : list Job) (w : world) : save_result :=
  match to_dicts jobs with
  | Raise e => SaveRaised e w
  | Ok ds => write_loop (merged_jobs (file w) ds) (file w) (io w)
  end.

(** *** [Scheduler.run_pending] *)

Record sched_state : Type := mkState {
  jobs : list Job;
  disk : world;
  ran : list id_val   (* the jobs whose action was called, in order *)
}.

Inductive sweep_result : Type :=
| Swept (s : sched_state)
| Aborted (e : exn) (s : sched_state)
| Stuck.

(** [job.next_run and job.next_run <= current_time]. *)
Definition due (now : Z) (j : Job) : bool :=
  match next_run j with
  | Some t => t <=? current_datetime now
  | None => false
  end.

(** The [for job in self.jobs] loop: [done] are the jobs already visited,
    [todo] the ones still to visit, [later] jobs of the list that this
    part of the sweep does not reach. *)
Fixpoint sweep (e : env) (now : Z) (done todo later : list Job)
    (w : world) (tr : list id_val) : sweep_result :=
  match todo with
  | [] => Swept (mkState (done ++ later) w tr)
  | job :: rest =>
      if due now job then
        let tr' := tr ++ [job_id job] in
        match run e now job with
        | (job', Some err) =>
            Aborted err (mkState (done ++ job' :: rest ++ later) w tr')
        | (job', None) =>
            match save_data (done ++ job' :: rest ++ later) w with
            | Saved w' => sweep e now (done ++ [job']) rest later w' tr'
            | SaveRaised err w' =>
                Aborted err
                  (mkState (done ++ job' :: rest ++ later) w' tr')
            | SaveWaiting => Stuck
            end
        end
      else sweep e now (done ++ [job]) rest later w tr
  end.

Definition run_pending (e : env) (now : Z) (s : sched_state)
  : sweep_result :=
  sweep e now [] (jobs s) [] (disk s) (ran s).

End Sched.

(** ** Records and [Jsons.write_json] ([src/common.py]) *)

Module Store.

(** A scraped record: a dictionary from field names to values. *)
Definition record : Type := PyDict.dict (K := string) (V := pyval).

(** [record.get(k)] and [record.get(k, '')]. *)
Definition rget (k : string) (r : record) : pyval :=
  match PyDict.get String.eqb k r with
  | Some v => v
  | None => PNone
  end.

Definition rget_or_empty (k : string) (r : record) : pyval :=
  match PyDict.get String.eqb k r with
  | Some v => v
  | None => PStr ""
  end.

(** [record[k] = v]. *)
Definition rset (k : string) (v : pyval) (r : record) : record :=
  PyDict.set String.eqb k v r.

Definition link_key : string := "Link for video".

(** The test of the inner loop of [write_json]: a stored record with a
    link is compared by link, one without by title. *)
Definition same_key (stored new_record : record) : bool :=
  if truthy (rget link_key stored)
  then pyval_eqb (rget link_key stored) (rget link_key new_record)
  else pyval_eqb (rget "Title" stored) (rget "Title" new_record).

(** The inner loop: the first stored record with the key of [new_record]
    is overwritten; [None] when the loop ends with [updated] false. *)
Fixpoint update_first (new_record : record) (data : list record)
  : option (list record) :=
  match data with
  | [] => None
  | stored :: rest =>
      if same_key stored new_record then Some (new_record :: rest)
      else option_map (cons stored) (update_first new_record rest)
  end.

Definition upsert (data : list record) (new_record : record)
  : list record :=
  match update_first new_record data with
  | Some data' => data'
  | None => new_record :: data       (* data.insert(0, new_record) *)
  end.

(** The argument of [write_json]: one dictionary or a list of them. *)
Inductive new_data_arg : Type :=
| OneRecord (r : record)
| Records (l : list record).

Definition as_list (a : new_data_arg) : list record :=
  match a with
  | OneRecord r => [r]
  | Records l => l
  end.

(** [write_json(new_data, file_path)]: from the content read to the
    content written. *)
Definition write_json (new_data : new_data_arg) (data : list record)
  : list record :=
  fold_left upsert (as_list new_data) data.

(** The links of the stored records, the records that have a non-empty
    one, and the stored records that the loop passes over. *)
Definition links (data : list record) : list pyval :=
  map (rget link_key) data.

Definition has_link (r : record) : Prop := truthy (rget link_key r) = true.

Definition no_match (new_record : record) (data : list record) : Prop :=
  Forall (fun stored => same_key stored new_record = false) data.

End Store.

Import Store.

(** ** The [str] methods and [re] searches the filters use *)

Module PyStr.

Fixpoint strip_prefix (p s : string) : option string :=
  match p, s with
  | EmptyString, _ => Some s
  | String a p', String b s' =>
      if Ascii.eqb a b then strip_prefix p' s' else None
  | String _ _, EmptyString => None
  end.

(** [sub in s]. *)
Fixpoint contains (sub s : string) : bool :=
  match strip_prefix sub s with
  | Some _ => true
  | None =>
      match s with
      | EmptyString => false
      | String _ r => contains sub r
      end
  end.

Fixpoint interleave (new s : string) : string :=
  (new ++ match s with
          | EmptyString => EmptyString
          | String c r => String c (interleave new r)
          end)%string.

(** Left-to-right replacement of the occurrences of [old] that do not
    overlap; [skip] counts the characters of an occurrence still to pass. *)
Fixpoint replace_from (old new : string) (skip : nat) (s : string)
  : string :=
  match s with
  | EmptyString => EmptyString
  | String c r =>
      match skip with
      | S k => replace_from old new k r
      | O =>
          match strip_prefix old s with
          | Some _ =>
              (new ++ replace_from old new (String.length old - 1) r)%string
          | None => String c (replace_from old new 0 r)
          end
      end
  end.

(** [s.replace(old, new)]. *)
Definition replace (old new s : string) : string :=
  if String.eqb old "" then interleave new s
  else replace_from old new 0 s.

(** [s.split(sep)] for a separator that is not empty. *)
Fixpoint split_from (sep : string) (skip : nat) (cur s : string)
  : list string :=
  match s with
  | EmptyString => [cur]
  | String c r =>
      match skip with
      | S k => split_from sep k cur r
      | O =>
          match strip_prefix sep s with
          | Some _ =>
              cur :: split_from sep (String.length sep - 1) EmptyString r
          | None => split_from sep 0 (cur ++ String c EmptyString) r
          end
      end
  end.

Definition split (sep s : string) : list string :=
  split_from sep 0 EmptyString s.

(** [sep.join(l)]. *)
Fixpoint join (sep : string) (l : list string) : string :=
  match l with
  | [] => EmptyString
  | [x] => x
  | x :: r => (x ++ sep ++ join sep r)%string
  end.

(** The methods below see code points. *)

Fixpoint starts_with (p l : list Z) : bool :=
  match p, l with
  | [], _ => true
  | a :: p', b :: l' => (a =? b) && starts_with p' l'
  | _ :: _, [] => false
  end.

(** [s.replace(old, new)] on the code points of [s], for an [old] that is
    not empty: the occurrences are taken from the left and do not overlap;
    [skip] counts the code points of an occurrence still to pass. *)
Fixpoint replace_points_from (old new : list Z) (skip : nat) (l : list Z)
  : list Z :=
  match l with
  | [] => []
  | c :: r =>
      match skip with
      | S k => replace_points_from old new k r
      | O =>
          if starts_with old l
          then new ++ replace_points_from old new (List.length old - 1) r
          else c :: replace_points_from old new 0 r
      end
  end.

Definition replace_points (old new l : list Z) : list Z :=
  replace_points_from old new 0 l.

Fixpoint rstrip (l : list Z) : list Z :=
  match l with
  | [] => []
  | c :: r =>
      match rstrip r with
      | [] => if Unicode.is_space c then [] else [c]
      | r' => c :: r'
      end
  end.

Definition strip_points (l : list Z) : list Z := rstrip (skip_spaces l).

(** [s.strip()]. *)
Definition strip (s : string) : string :=
  Unicode.encode (strip_points (Unicode.decode s)).

(** [re.sub(r'\s+', ' ', s)] on the code points of [s]. *)
Fixpoint collapse_spaces (in_run : bool) (l : list Z) : list Z :=
  match l with
  | [] => []
  | c :: r =>
      if Unicode.is_space c
      then (if in_run then collapse_spaces true r
            else 32 :: collapse_spaces true r)
      else c :: collapse_spaces false r
  end.

Fixpoint after_prefix (p l : list Z) : option (list Z) :=
  match p, l with
  | [], _ => Some l
  | a :: p', b :: l' => if a =? b then after_prefix p' l' else None
  | _ :: _, [] => None
  end.

(** [re.search(r'\b' + re.escape(word) + r'\b', s)] on the code points of
    [s], for a [word] that begins and ends with a word character: an
    occurrence with no word character just before it and none just after
    it. *)
Fixpoint word_search (word : list Z) (after_word_char : bool) (l : list Z)
  : bool :=
  match l with
  | [] => false
  | c :: r =>
      (negb after_word_char
       && match after_prefix word l with
          | Some [] => true
          | Some (d :: _) => negb (Unicode.is_word d)
          | None => false
          end)
      || word_search word (Unicode.is_word c) r
  end.

Definition bytes (l : list nat) : string :=
  fold_right (fun n s => String (ascii_of_nat n) s) EmptyString l.

End PyStr.

Import PyStr.

(** ** [src/wp_upload/filters.py] *)

Module Filters.

(** What the filters read from outside: the similarity scorer
    [fuzz.ratio] on two strings, the tables of [models_filter.json] and
    [promo_links.json], and the upload history, one file per day ([None]
    when the file of that day does not exist). *)
Record env : Type := mkEnv {
  ratio : string -> string -> Z;
  models_filter : list (string * list (string * string));
  promo_links : list (string * pyval);
  uploaded : Z -> option (list record)
}.

(** [fuzz.ratio(a, b)]: the library answers 0 when an argument is [None]. *)
Definition fuzz_ratio (e : env) (a b : pyval) : Z :=
  match a, b with
  | PStr x, PStr y => ratio e x y
  | _, _ => 0
  end.

Definition is_none (v : pyval) : bool :=
  match v with PNone => true | PStr _ => false end.

(** [[record for keep, record in zip(rows_to_keep, data) if keep]]. *)
Fixpoint select (rows_to_keep : list bool) (data : list record)
  : list record :=
  match rows_to_keep, data with
  | keep :: ks, r :: rs => if keep then r :: select ks rs else select ks rs
  | _, _ => []
  end.

(** [rows_to_keep[i] = False]. *)
Fixpoint set_false (i : nat) (l : list bool) : list bool :=
  match l, i with
  | [], _ => []
  | _ :: r, O => false :: r
  | b :: r, S k => b :: set_false k r
  end.

Fixpoint map_result {A B : Type} (f : A -> result B) (l : list A)
  : result (list B) :=
  match l with
  | [] => Ok []
  | a :: r => b <- f a ;; bs <- map_result f r ;; Ok (b :: bs)
  end.

Fixpoint for_each {A S : Type} (f : A -> S -> result S) (l : list A)
    (s : S) : result S :=
  match l with
  | [] => Ok s
  | a :: r => s' <- f a s ;; for_each f r s'
  end.

(** *** Stages 1 and 2 *)

Definition clean_empty_titles (data : list record) : list record :=
  filter (fun r => negb (is_none (rget "Title" r))) data.

Definition clean_empty_image (data : list record) : list record :=
  filter (fun r => negb (is_none (rget "Path image" r))) data.

(** *** Stage 3: [clean_duplicates] *)

Definition site_pair : Type := (pyval * pyval)%type.

Definition pair_eqb (a b : site_pair) : bool :=
  pyval_eqb (fst a) (fst b) && pyval_eqb (snd a) (snd b).

Definition rules : Type := PyDict.dict (K := site_pair) (V := pyval).

Definition initial_site_rules : rules :=
  [((PStr "site1", PStr "site2"), PStr "site1");
   ((PStr "site3", PStr "site4"), PStr "site3")].

Record dedup_state : Type := mkDedup {
  rows_to_keep : list bool;
  site_rules : rules
}.

(** The body of the inner loop, for the records at indices [i] and [j]. *)
Definition compare_pair (e : env) (data : list record) (i j : nat)
    (st : dedup_state) : dedup_state :=
  let record_i := nth i data [] in
  let record_j := nth j data [] in
  let site_i := rget "Site" record_i in
  let title_i := rget_or_empty "Title" record_i in
  let site_j := rget "Site" record_j in
  let title_j := rget_or_empty "Title" record_j in
  let similarity_ratio := fuzz_ratio e title_i title_j in
  if 99 <=? similarity_ratio then
    if PyDict.mem pair_eqb (site_i, site_j) (site_rules st)
       || PyDict.mem pair_eqb (site_j, site_i) (site_rules st)
    then
      let site_to_drop :=
        match PyDict.get pair_eqb (site_i, site_j) (site_rules st) with
        | Some v => v
        | None =>
            match PyDict.get pair_eqb (site_j, site_i) (site_rules st) with
            | Some v => v
            | None => PNone
            end
        end in
      if pyval_eqb site_to_drop site_i
      then mkDedup (set_false i (rows_to_keep st)) (site_rules st)
      else if pyval_eqb site_to_drop site_j
      then mkDedup (set_false j (rows_to_keep st)) (site_rules st)
      else st
    else
      mkDedup (set_false j (rows_to_keep st))
              (PyDict.set pair_eqb (site_i, site_j) site_j (site_rules st))
  else st.

(** [for j, record_j in enumerate(data[i + 1:], start=i + 1)]. *)
Definition inner_loop (e : env) (data : list record) (i : nat)
    (st : dedup_state) : dedup_state :=
  fold_left (fun st j => compare_pair e data i j st)
            (seq (S i) (List.length data - S i)) st.

(** [for i, record_i in enumerate(data)]. *)
Definition dedup_pass (e : env) (data : list record) (st : dedup_state)
  : dedup_state :=
  fold_left (fun st i => inner_loop e data i st) (seq 0 (List.length data)) st.

(** The index pairs the two loops visit, in the order of the visit, and
    the state after a run of comparisons. *)
Definition index_pairs (n : nat) : list (nat * nat) :=
  flat_map (fun i => map (pair i) (seq (S i) (n - S i))) (seq 0 n).

Definition compare_all (e : env) (data : list record)
    (ps : list (nat * nat)) (st : dedup_state) : dedup_state :=
  fold_left (fun st p => compare_pair e data (fst p) (snd p) st) ps st.


Definition title_of (data : list record) (i : nat) : pyval :=
  rget_or_empty "Title" (nth i data []).


Definition dedup_start (data : list record) : dedup_state :=
  mkDedup (repeat true (List.length data)) initial_site_rules.

Definition clean_duplicates (e : env) (data : list record) : list record :=
  select (rows_to_keep (dedup_pass e data (dedup_start data))) data.

(** *** Stage 4: [containing_words] *)

Definition filter_words : list string :=
  ["word1"; "word with word1"; "word2"].

Definition banned_title (title : string) : bool :=
  let lowercase_title := lower title in
  existsb (fun word => word_search (Unicode.decode word) false
                                   (Unicode.decode lowercase_title))
          filter_words.

Definition containing_words (data : list record) : result (list record) :=
  rows <- map_result
            (fun r => match rget_or_empty "Title" r with
                      | PStr title => Ok (negb (banned_title title))
                      | PNone => Raise (AttributeError
                          "'NoneType' object has no attribute 'lower'")
                      end) data ;;
  Ok (select rows data).

(** *** Stage 5: [replace_symb_title] *)

(** The replacements, on the code points of the title.  The characters
    that are not ASCII are written as code points: U+2019 (right quote),
    U+2014 (em dash), U+3011 and U+3010 (lenticular brackets). *)
Definition symbols_replaced (title : list Z) : list Z :=
  let title := replace_points (Unicode.decode "-") [] title in
  let title := replace_points (Unicode.decode "|") [] title in
  let title := replace_points (Unicode.decode ":") [] title in
  let title := replace_points (Unicode.decode ",") [] title in
  let title := replace_points (Unicode.decode ".") [] title in
  let title := replace_points (Unicode.decode ")") [] title in
  let title := replace_points (Unicode.decode "(") [] title in
  let title := replace_points (Unicode.decode "#") [] title in
  let title := replace_points [8217] (Unicode.decode "'") title in
  let title := replace_points (Unicode.decode "&") (Unicode.decode "and")
                              title in
  let title := replace_points (Unicode.decode "+") (Unicode.decode "and")
                              title in
  let title := replace_points [8212] [] title in
  let title := replace_points (Unicode.decode "?") [] title in
  let title := replace_points [12305] [] title in
  let title := replace_points [12304] [] title in
  let title := replace_points (Unicode.decode "  ") (Unicode.decode " ")
                              title in
  strip_points (collapse_spaces false title).

Definition replace_symbols (title : string) : string :=
  Unicode.encode (symbols_replaced (Unicode.decode title)).

Definition replace_symb_title (data : list record) : list record :=
  map (fun r =>
         match PyDict.get String.eqb "Title" r with
         | Some (PStr title) => rset "Title" (PStr (replace_symbols title)) r
         | _ => r
         end) data.

(** *** Stage 6: [model_in_title] *)

Definition retitle (site model_key model_value : string) (r : record)
  : result record :=
  if pyval_eqb (rget "Site" r) (PStr site) then
    match rget_or_empty "Title" r with
    | PNone => Raise (TypeError "argument of type 'NoneType' is not iterable")
    | PStr title =>
        if contains model_key title then
          let new_title := replace model_key model_value title in
          if negb (String.eqb new_title title)
          then Ok (rset "Title" (PStr new_title) r)
          else Ok r
        else Ok r
    end
  else Ok r.

Definition model_in_title (e : env) (data : list record)
  : result (list record) :=
  for_each
    (fun site_entry data =>
       for_each
         (fun rule data =>
            map_result (retitle (fst site_entry) (fst rule) (snd rule)) data)
         (snd site_entry) data)
    (models_filter e) data.

(** *** Stage 7: [model_in_models] *)

Definition remodel (site model_key model_value : string) (r : record)
  : record :=
  if pyval_eqb (rget "Site" r) (PStr site) then
    match rget_or_empty "Models" r with
    | PStr original_models =>
        let updated_models :=
          join ", "
            (map (fun name => if String.eqb (strip name) model_key
                              then model_value else name)
                 (split ", " original_models)) in
        if negb (String.eqb original_models updated_models)
        then rset "Models" (PStr updated_models) r
        else r
    | PNone => r
    end
  else r.

Definition strip_periods (r : record) : record :=
  match rget "Models" r with
  | PStr models => rset "Models" (PStr (strip (replace "." "" models))) r
  | PNone => r
  end.

Definition model_in_models (e : env) (data : list record) : list record :=
  let data :=
    fold_left
      (fun data site_entry =>
         fold_left
           (fun data rule =>
              map (remodel (fst site_entry) (fst rule) (snd rule)) data)
           (snd site_entry) data)
      (models_filter e) data in
  map strip_periods data.

(** *** Stage 8: [title_equal_models] *)

Definition title_equal_models (data : list record) : list record :=
  map (fun r =>
         let title := rget "Title" r in
         let models := rget "Models" r in
         let site := rget "Site" r in
         if truthy title && truthy models && pyval_eqb title models
         then rset "Title"
                (PStr (py_str title ++ " is at " ++ py_str site)) r
         else r) data.

(** *** Stage 9: [clean_older_than_3_days] *)

(** The days whose upload-history files are read: the five before today. *)
Definition uploaded_days (now : Z) : list Z :=
  map (fun day => date_of now - day) [1; 2; 3; 4; 5].

(** [date_i_obj]: the parsed ['Date'], or [None] when the field is absent,
    [None], empty or does not parse. *)
Definition parsed_date (r : record) : option Z :=
  match rget_or_empty "Date" r with
  | PStr date_i => if String.eqb date_i "" then None
                   else strptime_date date_i
  | PNone => None
  end.

(** [date_i_obj and date_i_obj < three_days_ago]. *)
Definition too_old (now : Z) (r : record) : bool :=
  match parsed_date r with
  | Some date_i_obj => date_i_obj <? Sched.current_date now - 3
  | None => false
  end.

(** The loop over one history file, left at the first similar title. *)
Definition similar_in (e : env) (title_i : pyval)
    (uploaded_data : list record) : bool :=
  existsb (fun uploaded_record =>
             90 <=? fuzz_ratio e title_i
                      (rget_or_empty "Title" uploaded_record))
          uploaded_data.

(** The loop over the history files: every file is read. *)
Fixpoint scan_uploaded (e : env) (title_i : pyval) (file_days : list Z)
    (keep : bool) : result bool :=
  match file_days with
  | [] => Ok keep
  | d :: rest =>
      match uploaded e d with
      | None => Raise (FileNotFoundError "Uploaded+<date>.json")
      | Some uploaded_data =>
          scan_uploaded e title_i rest
            (if similar_in e title_i uploaded_data then false else keep)
      end
  end.


Definition keep_row (e : env) (now : Z) (r : record) : result bool :=
  if too_old now r then Ok false
  else scan_uploaded e (rget "Title" r) (uploaded_days now) true.

Definition clean_older_than_3_days (e : env) (now : Z) (data : list record)
  : result (list record) :=
  rows <- map_result (keep_row e now) data ;;
  Ok (select rows data).

(** *** Stage 10: [set_promo_links] *)

Definition load_promo_link (e : env) (site : string) : pyval :=
  let links_lower :=
    PyDict.of_items String.eqb
      (map (fun kv => (lower (fst kv), snd kv)) (promo_links e)) in
  match PyDict.get String.eqb (lower site) links_lower with
  | Some v => v
  | None => PNone
  end.

Definition set_promo_links (e : env) (data : list record) : list record :=
  map (fun r =>
         let site := lower (py_str (rget_or_empty "Site" r)) in
         let promo_link := load_promo_link e site in
         if truthy promo_link
         then rset "Link for promo" (PStr (py_str promo_link)) r
         else rset "Link for promo" PNone r) data.

(** *** [ordered_filters] and [apply_filters] *)

Definition ordered_filters (e : env) (now : Z) (data : list record)
  : result (list record) :=
  let new_data := clean_empty_titles data in
  let new_data := clean_empty_image new_data in
  let new_data := clean_duplicates e new_data in
  new_data <- containing_words new_data ;;
  let new_data := replace_symb_title new_data in
  new_data <- model_in_title e new_data ;;
  let new_data := model_in_models e new_data in
  let new_data := title_equal_models new_data in
  new_data <- clean_older_than_3_days e now new_data ;;
  Ok (set_promo_links e new_data).

(** The two stores [apply_filters] works on, each the content of a JSON
    file ([None] for [null]), and the number of writes made so far. *)
Record stores : Type := mkStores {
  daily_scrapped : option (list record);
  filtered : option (list record);
  writes : nat
}.

Definition is_empty (r : record) : bool :=
  match r with [] => true | _ => false end.

(** The records of the daily store that [apply_filters] treats as new. *)
Definition new_records (daily filtered : list record) : list record :=
  let filtered_titles := map (rget link_key) filtered in
  filter (fun item =>
            negb (existsb (pyval_eqb (rget link_key item)) filtered_titles)
            && negb (is_empty item)) daily.

Definition apply_filters (e : env) (now : Z) (s : stores) : result stores :=
  match daily_scrapped s, filtered s with
  | Some daily, Some filtered_now =>
      match new_records daily filtered_now with
      | [] => Ok s
      | new_data =>
          filtered_data <- ordered_filters e now new_data ;;
          Ok (mkStores (daily_scrapped s)
                (Some (write_json (Records filtered_data) filtered_now))
                (S (writes s)))
      end
  | _, _ => Ok s      (* logs "Failed to read data ..." *)
  end.

End Filters.

(** ** Scenarios

    Concrete jobs, records and environments on which the properties below
    are run. *)

Module Scenarios.

(** 2024-03-10, a Sunday, at noon. *)
Definition noon : Z := 19792 * 86400 + 12 * 3600.

(** *** Scheduler *)

Definition failing_env : Sched.env :=
  Sched.mkEnv (fun _ _ => true)
    (fun f => if String.eqb (Sched.act_name f) "broken"
              then Some (ActionError "boom") else None).

Definition broken_job : Sched.Job :=
  Sched.mkJob (Sched.IdStr "first") 1 (Sched.UnitName "hours")
    (Some (Sched.mkAction "jobs" "broken" [] [])) None None None
    (Some 3600) true.

Definition sound_job : Sched.Job :=
  Sched.mkJob (Sched.IdStr "second") 1 (Sched.UnitName "hours")
    (Some (Sched.mkAction "jobs" "scrape_upload" [] [])) None None None
    (Some 3600) true.

Definition scrape_upload (arg : string) : Sched.action :=
  Sched.mkAction "jobs" "scrape_upload" [PStr arg] [].

(** Two entries of a state file, and the in-memory job of the second
    after a run. *)
Definition entry_sites : Sched.JobData :=
  Sched.mkJobData (Sched.IdStr "Sites at 12:00") 1 (Sched.UnitName "days")
    (Some "12:10") None None (Some (19792 * 86400 + 43800))
    "jobs" "scrape_upload" [PStr "Sites at 12:00"] [].

Definition entry_unsorted : Sched.JobData :=
  Sched.mkJobData (Sched.IdStr "Not sorted") 1 (Sched.UnitName "hours")
    None None (Some 1000) (Some 4600)
    "jobs" "scrape_upload" [PStr "Not sorted"] [].

Definition job_unsorted : Sched.Job :=
  Sched.mkJob (Sched.IdStr "Not sorted") 1 (Sched.UnitName "hours")
    (Some (scrape_upload "Not sorted")) None None
    (Some 4600) (Some 8200) false.

Definition entry_unsorted_new : Sched.JobData :=
  Sched.mkJobData (Sched.IdStr "Not sorted") 1 (Sched.UnitName "hours")
    None None (Some 4600) (Some 8200)
    "jobs" "scrape_upload" [PStr "Not sorted"] [].

(** *** Filters *)

(** A scorer that knows equal strings only; it agrees with [fuzz.ratio]
    on the titles below, which are equal or share no character. *)
Definition exact_ratio (a b : string) : Z :=
  if String.eqb a b then 100 else 0.

(** No substitution table, no promo link, five empty history files. *)
Definition plain_env : Filters.env :=
  Filters.mkEnv exact_ratio [] [] (fun _ => Some []).

Definition scraped (site title link : string) (date : pyval) : record :=
  [("Site", PStr site); ("Date", date); ("Title", PStr title);
   ("Path image", PStr "/images/pic.jpg"); ("Link for video", PStr link)].

Definition with_promo (r : record) : record :=
  rset "Link for promo" PNone r.

Definition record_a : record :=
  scraped "site1" "Beach day" "https://x/a" (PStr "Mar 10, 2024").
Definition record_b : record :=
  scraped "site1" "Beach day" "https://x/b" (PStr "Mar 10, 2024").
Definition record_c : record :=
  scraped "site3" "Beach day" "https://x/c" (PStr "Mar 10, 2024").

Definition record_old : record :=
  scraped "site1" "QQQ" "https://x/old" (PStr "Mar 06, 2024").
Definition record_recent : record :=
  scraped "site1" "ZZZ" "https://x/recent" (PStr "Mar 08, 2024").

End Scenarios.

(** ** [Jsons.lock_json] and its callers ([src/common.py]) *)

Module Locks.

(** The [while attempt < 5] loop.  [acquired k] tells whether the lock is
    taken at attempt [k] (otherwise [Timeout] is raised after ten seconds);
    [operation] is what running the operation gives, should it run;
    [left] is the number of turns the loop can still make, [5 - attempt].
    The result is what [lock_json] returns ([None] after the last
    time-out) and the number of five-second sleeps. *)
Fixpoint lock_loop {R : Type} (acquired : nat -> bool) (operation : R)
    (attempt left : nat) : option R * nat :=
  match left with
  | O => (None, attempt)
  | S left' =>
      if acquired attempt then (Some operation, attempt)
      else lock_loop acquired operation (S attempt) left'
  end.

Definition lock_json {R : Type} (acquired : nat -> bool) (operation : R)
  : option R * nat :=
  lock_loop acquired operation 0 5.

(** [Utils.save_scraped_data]: the daily store, then the store of the
    site, each written under its lock; the result of [lock_json] is not
    looked at. *)
Definition save_scraped_data (daily_lock site_lock : nat -> bool)
    (data : list record) (daily site : list record)
  : list record * list record :=
  (match fst (lock_json daily_lock (write_json (Records data) daily)) with
   | Some daily' => daily'
   | None => daily
   end,
   match fst (lock_json site_lock (write_json (Records data) site)) with
   | Some site' => site'
   | None => site
   end).

End Locks.

(** ** [sites_to_run] ([src/distribution.py]) *)

Module Distribution.

Definition day_names : list string :=
  ["Monday"; "Tuesday"; "Wednesday"; "Thursday"; "Friday"; "Saturday";
   "Sunday"].

(** [day_mapping.get(Utils.get_day_of_week())]. *)
Definition day_mapping (wd : Z) : option string :=
  if (0 <=? wd) && (wd <=? 6) then nth_error day_names (Z.to_nat wd)
  else None.

Definition site_lists
  : PyDict.dict (K := string)
                (V := PyDict.dict (K := string) (V := list string)) :=
  [("Sites at 12:00",
    [("Monday", []); ("Tuesday", []); ("Wednesday", []); ("Thursday", []);
     ("Friday", []); ("Saturday", []); ("Sunday", []);
     ("Daily", ["site2412"; "testy1233"; "site32121"; "site0120";
                "somethingsomethin291"])]);
   ("Not sorted",
    [("Monday", []); ("Tuesday", ["site3"]); ("Wednesday", []);
     ("Thursday", []); ("Friday", []); ("Saturday", []); ("Sunday", []);
     ("Daily", ["site1"; "site2"])])].

(** [day_list.get(key, [])]. *)
Definition day_sites (key : string)
    (day_list : PyDict.dict (K := string) (V := list string)) : list string :=
  match PyDict.get String.eqb key day_list with
  | Some l => l
  | None => []
  end.

(** The two [extend] calls: the daily sites, then those of the day. *)
Definition extended (sites_to_run : list string) (current_day : string)
    (day_list : PyDict.dict (K := string) (V := list string)) : list string :=
  sites_to_run ++ day_sites "Daily" day_list ++ day_sites current_day day_list.

(** [schedule_time]: the persisted [at_time] parsed with ['%H:%M'], [None]
    when there is no record, no [at_time], or one that does not parse. *)
Definition schedule_time_of (schedule : option Sched.JobData) : option Z :=
  match schedule with
  | Some sch =>
      match Sched.d_at_time sch with
      | Some at_time =>
          if negb (String.eqb at_time "") then strptime_HM at_time else None
      | None => None
      end
  | None => None
  end.

(** [should_run_today]: [fromisoformat] of a [next_run] that is [None]
    raises [TypeError], which the [except ValueError] lets through. *)
Definition should_run_today (schedule : option Sched.JobData)
    (schedule_time current_time now : Z) : result bool :=
  match schedule with
  | Some sch =>
      match Sched.d_next_run sch with
      | Some next_run_datetime =>
          Ok ((schedule_time <? current_time)
              && (date_of next_run_datetime =? date_of now))
      | None => Raise (TypeError "fromisoformat: argument must be str")
      end
  | None => Raise (AttributeError "'NoneType' object has no attribute 'get'")
  end.

(** The body of the loop over [site_lists]. *)
Definition visit_list (job_id : string) (schedule : option Sched.JobData)
    (schedule_time : option Z) (current_day : option string)
    (current_time now : Z)
    (entry : string * PyDict.dict (K := string) (V := list string))
    (sites_to_run : list string) : result (list string) :=
  match current_day with
  | None => Ok sites_to_run
  | Some today =>
      if PyDict.mem String.eqb today (snd entry) then
        match schedule_time with
        | Some st =>
            run_today <- should_run_today schedule st current_time now ;;
            if run_today then
              if String.eqb (fst entry) job_id && (st <? current_time)
              then Ok (extended sites_to_run today (snd entry))
              else Ok sites_to_run
            else Ok sites_to_run
        | None =>
            if String.eqb (fst entry) job_id
            then Ok (extended sites_to_run today (snd entry))
            else Ok sites_to_run
        end
      else Ok sites_to_run
  end.

Definition sites_to_run (f : Sched.state_file) (now : Z) (job_id : string)
  : result (list string) :=
  match f with
  | Sched.Missing => Ok []
  | Sched.Unreadable => Ok []
  | Sched.StateDoc schedules =>
      let current_day := day_mapping (weekday now) in
      match strptime_HMS (Sched.get_current_time now) with
      | None => Raise (ValueError "time data does not match format '%H:%M:%S'")
      | Some current_time =>
          let schedules_dict :=
            PyDict.of_items Sched.id_eqb (Sched.by_id schedules) in
          let schedule :=
            PyDict.get Sched.id_eqb (Sched.IdStr job_id) schedules_dict in
          let schedule_time := schedule_time_of schedule in
          Filters.for_each
            (visit_list job_id schedule schedule_time current_day
                        current_time now)
            site_lists []
      end
  end.

(** The sites of the list called [job_id] for the day of [now]: nothing
    when no list has that name. *)
Definition job_sites (job_id : string) (now : Z) : list string :=
  match PyDict.get String.eqb job_id site_lists, day_mapping (weekday now) with
  | Some day_list, Some today =>
      day_sites "Daily" day_list ++ day_sites today day_list
  | _, _ => []
  end.

End Distribution.

(** ** Views used to state properties *)

Module Views.

(** The jobs of the scheduler when a sweep has ended, with or without an
    exception. *)
Definition final_jobs (r : Sched.sweep_result) : option (list Sched.Job) :=
  match r with
  | Sched.Swept s => Some (Sched.jobs s)
  | Sched.Aborted _ s => Some (Sched.jobs s)
  | Sched.Stuck => None
  end.

(** A job as it comes back from the state file: what [to_dict] keeps of
    it, without the link to the scheduler. *)
Definition restored (j : Sched.Job) : Sched.Job :=
  Sched.mkJob (Sched.job_id j) (Sched.interval j) (Sched.job_unit j)
    (Sched.job_func j)
    (if Sched.str_truthy (Sched.at_time j) then Sched.at_time j else None)
    (Sched.day_of_week j) (Sched.last_run j) (Sched.next_run j) false.

(** A job that a restart can bring back: it has a next run, and its action
    can be imported. *)
Definition restorable (e : Sched.env) (j : Sched.Job) : Prop :=
  Sched.next_run j <> None
  /\ (forall a, Sched.job_func j = Some a ->
                Sched.importable e (Sched.act_module a) (Sched.act_name a)
                = true).

(** [r'] is what a filter stage made of [r]: the link, the site, the image
    path and the date are those of [r], and a title that was there is
    still there. *)
Definition keeps (r r' : record) : Prop :=
  rget link_key r' = rget link_key r
  /\ rget "Site" r' = rget "Site" r
  /\ rget "Path image" r' = rget "Path image" r
  /\ rget "Date" r' = rget "Date" r
  /\ (rget "Title" r <> PNone -> rget "Title" r' <> PNone).

(** [out] holds no more records than [data], each made of one of [data]. *)
Definition derived (data out : list record) : Prop :=
  (List.length out <= List.length data)%nat
  /\ Forall (fun r' => exists r, In r data /\ keeps r r') out.

(** What a completed sweep has done with the job [j], leaving [j']: run it
    (the action returning and the new [next_run] computed) when it was due,
    nothing otherwise. *)
Definition visited (e : Sched.env) (now : Z) (j j' : Sched.Job) : Prop :=
  if Sched.due now j then Sched.run e now j = (j', None) else j' = j.

(** The fifteen characters [replace_symb_title] takes out of a title or
    writes otherwise, as code points: [- | : , . ) ( #], the right quote
    U+2019, [& +], the em dash U+2014, [?], and the brackets U+3011 and
    U+3010. *)
Definition removed_symbols : list Z :=
  [45; 124; 58; 44; 46; 41; 40; 35; 8217; 38; 43; 8212; 63; 12305; 12304].



End Views.

Import Views.

(** ** More scenarios *)

Module MoreScenarios.

Import Scenarios.

(** Every action can be imported and returns. *)
Definition quiet_env : Sched.env :=
  Sched.mkEnv (fun _ _ => true) (fun _ => None).

Definition plain_action : Sched.action :=
  Sched.mkAction "jobs" "scrape_upload" [] [].

(** [sound_job] after a run at 02:00:00 of day 0. *)
Definition sound_job_ran : Sched.Job :=
  Sched.set_next_run (Some 10800) (Sched.set_last_run (Some 7200) sound_job).

Definition sound_entry_ran : Sched.JobData :=
  Sched.mkJobData (Sched.IdStr "second") 1 (Sched.UnitName "hours")
    None None (Some 7200) (Some 10800) "jobs" "scrape_upload" [] [].

Definition one_due : Sched.sched_state :=
  Sched.mkState [sound_job] (Sched.mkWorld Sched.Missing [Sched.WriteOk]) [].

Definition one_due_swept : Sched.sched_state :=
  Sched.mkState [sound_job_ran]
    (Sched.mkWorld (Sched.StateDoc [sound_entry_ran]) [])
    [Sched.IdStr "second"].

(** A weekly job set for Sunday, and a daily job set for 12:10. *)
Definition weekly_job : Sched.Job :=
  Sched.mkJob (Sched.IdStr "weekly") 1 (Sched.UnitName "weeks")
    (Some plain_action) None (Some (Sched.DowName "Sunday")) None
    (Some noon) true.

Definition daily_job : Sched.Job :=
  Sched.mkJob (Sched.IdStr "Sites at 12:00") 1 (Sched.UnitName "days")
    (Some (scrape_upload "Sites at 12:00")) (Some "12:10") None None
    (Some (19792 * 86400 + 43800)) true.

Definition unsorted_builder : Sched.Job :=
  Sched.with_id (Sched.IdStr "Not sorted") (Sched.hours (Sched.every 1)).

(** [entry_unsorted] as [from_dict] rebuilds it. *)
Definition job_unsorted_restored : Sched.Job :=
  Sched.mkJob (Sched.IdStr "Not sorted") 1 (Sched.UnitName "hours")
    (Some (scrape_upload "Not sorted")) None None (Some 1000) (Some 4600)
    false.


(** 2024-03-10 at 12:15:00, and the Tuesday after at noon. *)
Definition quarter_past_noon : Z := 19792 * 86400 + 12 * 3600 + 15 * 60.
Definition tuesday_noon : Z := 19794 * 86400 + 12 * 3600.

(** Equal titles are similar at 99, the least ratio that counts, and
    other titles are not similar. *)
Definition near_env : Filters.env :=
  Filters.mkEnv (fun a b => if String.eqb a b then 99 else 0) [] []
                (fun _ => Some []).

(** Four records: A of 'site1' and B of 'site3' with one title, then E of
    'site3' and F of 'site1' with another. *)
Definition record_e : record :=
  scraped "site3" "Sunset" "https://x/e" (PStr "Mar 10, 2024").
Definition record_f : record :=
  scraped "site1" "Sunset" "https://x/f" (PStr "Mar 10, 2024").

Definition similar_batch : list record :=
  [record_a; record_c; record_e; record_f].

(** No upload-history file has been written yet. *)
Definition fresh_env : Filters.env :=
  Filters.mkEnv exact_ratio [] [] (fun _ => None).

(** The history file of 2024-03-09 holds one upload, the others none. *)
Definition uploaded_seen : record :=
  [("Title", PStr "Seen before"); ("Site", PStr "site1")].

Definition seen_history (day : Z) : list record :=
  if day =? 19791 then [uploaded_seen] else [].

Definition history_env : Filters.env :=
  Filters.mkEnv exact_ratio [] [] (fun day => Some (seen_history day)).

(** A record of today with the title of that upload, one without a date
    and one whose date is in another format. *)
Definition record_seen : record :=
  scraped "site1" "Seen before" "https://x/seen" (PStr "Mar 10, 2024").
Definition record_undated : record :=
  scraped "site1" "No date" "https://x/undated" PNone.
Definition record_misdated : record :=
  scraped "site1" "Other format" "https://x/misdated" (PStr "2024-03-01").

Definition aged_batch : list record :=
  [record_old; record_recent; record_seen; record_undated; record_misdated].

End MoreScenarios.

(** * Properties *)

(** ** Checks of the library models on known values *)

Section LibraryChecks.

Example strptime_HM_ex : strptime_HM "12:10" = Some 43800.
Proof. reflexivity. Qed.

Example strptime_date_ex1 : strptime_date "Jan 01, 1970" = Some 0.
Proof. reflexivity. Qed.

Example strptime_date_ex2 : strptime_date "Mar 10, 2024" = Some 19792.
Proof. vm_compute. reflexivity. Qed.

Example strptime_date_ex3 : strptime_date "Feb 30, 2024" = None.
Proof. vm_compute. reflexivity. Qed.

(** A no-break space (U+00A0) and a tabulation are white space, Arabic-Indic
    digits (U+0660 to U+0669) are digits, in the year and after a [1] or a
    [2] of the day. *)
Example strptime_date_ex4 :
  strptime_date ("Mar" ++ bytes [194; 160]%nat ++ "06," ++ bytes [9]%nat
                 ++ "2024")%string = Some 19788
  /\ strptime_date ("mar 1" ++ bytes [217; 160]%nat ++ ", 20"
                    ++ bytes [217; 162; 217; 164]%nat)%string = Some 19792
  /\ strptime_date ("Mar " ++ bytes [217; 166]%nat ++ ", 2024")%string
     = None
  /\ strptime_date ("Mar 3" ++ bytes [217; 160]%nat ++ ", 2024")%string
     = None.
Proof. vm_compute. repeat split; reflexivity. Qed.

Example strptime_date_ex5 :
  strptime_date "Mar 06, 2024 " = None
  /\ strptime_date "Mar 00, 2024" = None
  /\ strptime_date "Mar 32, 2024" = None
  /\ strptime_date "Mar 6,2024" = None
  /\ strptime_date "Mar 06, 0000" = None
  /\ strptime_date "MAR  6, 2024" = Some 19788.
Proof. vm_compute. repeat split; reflexivity. Qed.

Example strftime_ex : strftime_HMS 75872 = "21:04:32".
Proof. vm_compute. reflexivity. Qed.

Example weekday_ex : weekday (19792 * 86400) = 6.
Proof. reflexivity. Qed.

Example replace_ex : replace "  " " " "a    b   c" = "a  b  c".
Proof. reflexivity. Qed.

Example replace_empty_ex : replace "" "-" "abc" = "-a-b-c-".
Proof. reflexivity. Qed.

Example split_ex : split ", " "Ann, Bob,Cy, " = ["Ann"; "Bob,Cy"; ""].
Proof. reflexivity. Qed.

Example join_ex : join ", " ["Ann"; "Bob"] = "Ann, Bob".
Proof. reflexivity. Qed.

Example strip_ex : strip "  a b  " = "a b".
Proof. reflexivity. Qed.

(** A no-break space, an em space (U+2003) and a next line (U+0085) are
    stripped like a blank. *)
Example strip_ex2 :
  strip (bytes [194; 160; 226; 128; 131]%nat ++ "a b"
         ++ bytes [194; 133]%nat)%string
  = "a b".
Proof. vm_compute. reflexivity. Qed.

Example word_search_ex1 :
  word_search (Unicode.decode "word1") false
              (Unicode.decode "this has word1 in it") = true.
Proof. vm_compute. reflexivity. Qed.

Example word_search_ex2 :
  word_search (Unicode.decode "word1") false (Unicode.decode "thisword1")
  = false.
Proof. vm_compute. reflexivity. Qed.

(** The letter U+00E9 and the ideograph U+4E2D are word characters, the
    dash U+2014 is not. *)
Example word_search_ex3 :
  word_search (Unicode.decode "word1") false
              (Unicode.decode (bytes [195; 169]%nat ++ "word1")%string) = false
  /\ word_search (Unicode.decode "word1") false
                 (Unicode.decode ("word1" ++ bytes [228; 184; 173]%nat)%string)
     = false
  /\ word_search (Unicode.decode "word1") false
                 (Unicode.decode (bytes [226; 128; 148]%nat ++ "word1")%string)
     = true.
Proof. vm_compute. repeat split; reflexivity. Qed.

Example decode_ex :
  Unicode.decode
    ("a" ++ bytes [195; 169; 226; 128; 153; 240; 159; 152; 128]%nat)%string
  = [97; 233; 8217; 128512].
Proof. vm_compute. reflexivity. Qed.

Example encode_ex :
  Unicode.encode [97; 233; 8217; 128512]
  = ("a" ++ bytes [195; 169; 226; 128; 153; 240; 159; 152; 128]%nat)%string.
Proof. vm_compute. reflexivity. Qed.

End LibraryChecks.


(** ** Time formats *)

Section TimeFormats.

Lemma time_of_range (t : Z) : 0 <= time_of t < 86400.
Proof. unfold time_of, day_seconds. apply Z.mod_pos_bound. lia. Qed.

Lemma combine_date_time (t : Z) : combine (date_of t) (time_of t) = t.
Proof.
  unfold combine, date_of, time_of, day_seconds.
  pose proof (Z.div_mod t 86400). lia.
Qed.

Lemma digit_of_digit_char (k : Z) :
  0 <= k <= 9 -> digit_of (digit_char k) = Some k.
Proof.
  intros H.
  assert (E : k = 0 \/ k = 1 \/ k = 2 \/ k = 3 \/ k = 4 \/ k = 5 \/ k = 6
              \/ k = 7 \/ k = 8 \/ k = 9) by lia.
  repeat (destruct E as [E | E]; [subst k; reflexivity | ]).
  subst k; reflexivity.
Qed.

Lemma digit_of_range (c : ascii) (x : Z) :
  digit_of c = Some x -> 0 <= x <= 9.
Proof.
  unfold digit_of.
  destruct ((48 <=? Z.of_nat (nat_of_ascii c))
            && (Z.of_nat (nat_of_ascii c) <=? 57)) eqn:E; [ | discriminate].
  intros [= <-]. apply andb_true_iff in E. lia.
Qed.

Lemma digit_of_colon : digit_of ":" = None.
Proof. reflexivity. Qed.

Lemma field2_two_digits (hi k : Z) (r : string) :
  0 <= k <= hi -> k < 100 ->
  field2 hi (two_digits k ++ r) = Some (k, r).
Proof.
  intros Hk Hlt. unfold two_digits. cbn [append field2].
  rewrite !digit_of_digit_char.
  - replace (10 * (k / 10) + k mod 10) with k
      by (pose proof (Z.div_mod k 10); lia).
    destruct (Z.leb_spec k hi); [reflexivity | lia].
  - pose proof (Z.mod_pos_bound k 10); lia.
  - split; [apply Z.div_pos; lia | ].
    assert (k / 10 < 10) by (apply Z.div_lt_upper_bound; lia). lia.
Qed.

Lemma field2_range (hi : Z) (s r : string) (v : Z) :
  0 <= hi -> field2 hi s = Some (v, r) -> 0 <= v /\ (v <= hi \/ v <= 9).
Proof.
  intros Hhi. unfold field2.
  destruct s as [ | a s]; [discriminate | ].
  destruct (digit_of a) as [x | ] eqn:Ea; [ | discriminate].
  apply digit_of_range in Ea.
  destruct s as [ | b s]; [intros [= <- <-]; lia | ].
  destruct (digit_of b) as [y | ] eqn:Eb.
  - apply digit_of_range in Eb.
    remember (10 * x + y) as w eqn:Ew.
    destruct (Z.leb_spec w hi); intros [= <- <-]; lia.
  - intros [= <- <-]; lia.
Qed.

(** What [%H:%M] accepts is a time of day. *)
Lemma strptime_HM_range (s : string) (t : Z) :
  strptime_HM s = Some t -> 0 <= t < 86400.
Proof.
  unfold strptime_HM.
  destruct (field2 23 s) as [[h r] | ] eqn:Eh; [ | discriminate].
  destruct (expect ":" r) as [r1 | ]; [ | discriminate].
  destruct (field2 59 r1) as [[m r2] | ] eqn:Em; [ | discriminate].
  destruct r2; [ | discriminate].
  apply field2_range in Eh; [ | lia]. apply field2_range in Em; [ | lia].
  intros [= <-]. lia.
Qed.

(** Parsing with [%H:%M:%S] what [%H:%M:%S] printed gives the time back. *)
Lemma strptime_HMS_strftime_HMS (tod : Z) :
  0 <= tod < 86400 -> strptime_HMS (strftime_HMS tod) = Some tod.
Proof.
  intros H. unfold strptime_HMS, strftime_HMS.
  assert (H1 : 0 <= tod / 3600 <= 23).
  { split; [apply Z.div_pos; lia | ].
    assert (tod / 3600 < 24) by (apply Z.div_lt_upper_bound; lia). lia. }
  assert (H2 : 0 <= tod / 60 mod 60 <= 59)
    by (pose proof (Z.mod_pos_bound (tod / 60) 60); lia).
  assert (H3 : 0 <= tod mod 60 <= 59)
    by (pose proof (Z.mod_pos_bound tod 60); lia).
  rewrite field2_two_digits by lia. cbn [append expect].
  rewrite Ascii.eqb_refl.
  rewrite field2_two_digits by lia. cbn [append expect].
  rewrite Ascii.eqb_refl.
  replace (two_digits (tod mod 60))
    with (two_digits (tod mod 60) ++ "")%string
    by (unfold two_digits; reflexivity).
  rewrite field2_two_digits by lia.
  f_equal.
  pose proof (Z.div_mod tod 60). pose proof (Z.div_mod (tod / 60) 60).
  replace (tod / 3600) with (tod / 60 / 60)
    by (rewrite Z.div_div by lia; reflexivity).
  lia.
Qed.

(** A string of the shape [ab:cd:...] is never accepted by [%H:%M]:
    whatever the hour and minute fields take, the seconds remain. *)
Lemma strptime_HM_rejects_seconds (a b c d : ascii) (r : string) :
  strptime_HM
    (String a (String b (String ":" (String c (String d (String ":" r))))))
  = None.
Proof.
  unfold strptime_HM. cbn [field2].
  destruct (digit_of a) as [x | ]; [ | reflexivity].
  assert (M : forall s, match field2 59 (String c (String d (String ":" s)))
                        with
                        | Some (m, EmptyString) => Some (x * 0 + m)
                        | _ => None
                        end = None).
  { intros s. cbn [field2].
    destruct (digit_of c) as [u | ]; [ | reflexivity].
    destruct (digit_of d) as [v | ]; [ | reflexivity].
    destruct (10 * u + v <=? 59); reflexivity. }
  assert (M' : forall h s,
             match field2 59 (String c (String d (String ":" s))) with
             | Some (m, EmptyString) => Some (h * 3600 + m * 60)
             | _ => None
             end = None).
  { intros h s. specialize (M s).
    destruct (field2 59 (String c (String d (String ":" s))))
      as [[m [ | ? ?]] | ]; [discriminate | reflexivity | reflexivity]. }
  destruct (digit_of b) as [y | ] eqn:Eb.
  - destruct (10 * x + y <=? 23).
    + cbn [expect]. rewrite Ascii.eqb_refl. apply M'.
    + cbn [expect]. destruct (Ascii.eqb_spec b ":") as [-> | ];
        [ | reflexivity].
      rewrite digit_of_colon in Eb. discriminate.
  - cbn [expect]. destruct (Ascii.eqb_spec b ":") as [-> | ];
      [ | reflexivity].
    cbn [field2]. rewrite digit_of_colon. reflexivity.
Qed.

(** The text of [Utils.get_current_time()] does not parse with [%H:%M]. *)
Lemma current_time_not_HM (now : Z) :
  strptime_HM (Sched.get_current_time now) = None.
Proof.
  unfold Sched.get_current_time, strftime_HMS, two_digits. cbn [append].
  apply strptime_HM_rejects_seconds.
Qed.

Lemma current_time_HMS (now : Z) :
  strptime_HMS (Sched.get_current_time now) = Some (time_of now).
Proof.
  unfold Sched.get_current_time.
  apply strptime_HMS_strftime_HMS, time_of_range.
Qed.

End TimeFormats.

(** ** The scheduler: computing the next run *)

Section NextRun.

Import Sched.

Lemma next_run_set (t : option Z) (j : Job) :
  next_run (set_next_run t j) = t.
Proof. reflexivity. Qed.

(** [days] with a usable [at_time]: today's date at that time, moved on by
    [interval] days only for a job that has run and whose time has passed. *)
Lemma next_run_days_at (now : Z) (j : Job) (s : string) (rt : Z) :
  at_time j = Some s -> strptime_HM s = Some rt ->
  next_run_days now j =
    Ok (match last_run j with
        | None => combine (date_of now) rt
        | Some _ => if now >? combine (date_of now) rt
                    then combine (date_of now) rt + interval j * 86400
                    else combine (date_of now) rt
        end).
Proof.
  intros Hat Hp. unfold next_run_days. rewrite Hat.
  assert (Hs : String.eqb s "" = false).
  { destruct s; [discriminate Hp | reflexivity]. }
  rewrite Hs. cbn [negb]. unfold parse_time. rewrite Hp. reflexivity.
Qed.

(** [days] without a usable [at_time]: the current time is printed with
    seconds and parsed without, which raises. *)
Lemma next_run_days_unset (now : Z) (j : Job) :
  at_time j = None \/ at_time j = Some "" ->
  next_run_days now j =
    Raise (ValueError "time data does not match format '%H:%M'").
Proof.
  intros [H | H]; unfold next_run_days; rewrite H; cbn [String.eqb negb];
    unfold parse_time; rewrite current_time_not_HM; reflexivity.
Qed.

Lemma today_starts_before (now : Z) : combine (date_of now) 0 <= now.
Proof.
  pose proof (combine_date_time now). pose proof (time_of_range now).
  unfold combine in *. lia.
Qed.

Lemma tomorrow_starts_after (now : Z) : now < combine (date_of now) 86400.
Proof.
  pose proof (combine_date_time now). pose proof (time_of_range now).
  unfold combine in *. lia.
Qed.

Lemma next_run_hours_fresh (now : Z) (j : Job) :
  last_run j = None -> 1 <= interval j ->
  next_run_hours now j = Ok (now + interval j * 3600).
Proof.
  intros Hl Hi. unfold next_run_hours. rewrite Hl, current_time_HMS.
  rewrite combine_date_time. cbn [bind]. unfold hour_seconds.
  destruct (Z.leb_spec (now + interval j * 3600) now); [lia | reflexivity].
Qed.

Lemma next_run_weeks_value (now : Z) (j : Job) (d : Z) :
  resolve_day_of_week (day_of_week j) = Ok d ->
  next_run_weeks now j = Ok (now + (d - weekday now) mod 7 * 86400).
Proof.
  intros Hd. unfold next_run_weeks. rewrite Hd. cbn [bind].
  unfold current_datetime, day_seconds.
  pose proof (Z.mod_pos_bound (d - weekday now) 7).
  rewrite Z.gtb_ltb.
  destruct (Z.ltb_spec (now + (d - weekday now) mod 7 * 86400) now);
    [lia | reflexivity].
Qed.

End NextRun.

Section NextRunProperties.

Import Sched.

Lemma calculate_next_run_shape (now : Z) (j j' : Job) :
  calculate_next_run now j = Ok j' ->
  exists t, j' = set_next_run (Some t) j.
Proof.
  unfold calculate_next_run.
  destruct (job_unit j) as [ | u]; [discriminate | ].
  destruct (String.eqb u "days").
  { destruct (next_run_days now j) as [t | ]; [ | discriminate].
    intros [= <-]. eauto. }
  destruct (String.eqb u "weeks").
  { destruct (next_run_weeks now j) as [t | ]; [ | discriminate].
    intros [= <-]. eauto. }
  destruct (String.eqb u "hours"); [ | discriminate].
  destruct (next_run_hours now j) as [t | ]; [ | discriminate].
  intros [= <-]. eauto.
Qed.

(** C7.  For unit 'days' with [at_time] unset, [calculate_next_run] does
    not fall back on the current time: [Utils.get_current_time()] prints
    hours, minutes and seconds, the text is parsed with ['%H:%M'], and the
    call raises [ValueError], whatever the clock, the interval and the
    other fields of the job are. *)
Theorem days_without_at_time_raises :
  forall (now : Z) (id : id_val) (interval : Z) (f : option action)
         (dow : option dow_val) (lr nr : option Z) (sch : bool),
    calculate_next_run now
      (mkJob id interval (UnitName "days") f None dow lr nr sch)
    = Raise (ValueError "time data does not match format '%H:%M'").
Proof.
  intros. unfold calculate_next_run. cbn [job_unit String.eqb Ascii.eqb].
  cbn. rewrite next_run_days_unset; [reflexivity | left; reflexivity].
Qed.

(** C1, as stated, fails: on 2024-03-10 at 15:00:00 a daily job built with
    [at("10:00")] that has never run gets today 10:00:00 as its next run,
    five hours before the clock. *)
Lemma next_run_days_already_passed :
  calculate_next_run (19792 * 86400 + 15 * 3600)
                     (at_ "10:00" (days (every 1)))
  = Ok (set_next_run (Some (19792 * 86400 + 10 * 3600))
                     (at_ "10:00" (days (every 1))))
  /\ 19792 * 86400 + 10 * 3600 < 19792 * 86400 + 15 * 3600.
Proof. split; [vm_compute; reflexivity | lia]. Qed.

(** C1, amended.  With an interval of at least 1, whenever
    [calculate_next_run] returns, [next_run] is strictly later than the
    clock in each of these cases:
    - 'hours', for a job that has never run, and for one whose last run
      plus the interval plus one day is still ahead;
    - 'weeks', when the day asked for is not today's weekday;
    - 'days', when [at_time] is still ahead today, or when the job has
      run before and [at_time] has already passed today.
    A 'days' job that has never run gets today's date at [at_time], passed
    or not. *)
Theorem calculate_next_run_future (now : Z) (j j' : Job) :
  1 <= interval j ->
  calculate_next_run now j = Ok j' ->
  ((job_unit j = UnitName "hours"
    /\ (forall lr, last_run j = Some lr ->
                   now < lr + interval j * 3600 + 86400))
   \/ (job_unit j = UnitName "weeks"
       /\ (forall d, resolve_day_of_week (day_of_week j) = Ok d ->
                     (d - weekday now) mod 7 <> 0))
   \/ (job_unit j = UnitName "days"
       /\ (forall s rt, at_time j = Some s -> strptime_HM s = Some rt ->
                        now < combine (date_of now) rt
                        \/ (last_run j <> None
                            /\ combine (date_of now) rt < now))) ->
   exists t, next_run j' = Some t /\ now < t)
  /\ (job_unit j = UnitName "days" -> last_run j = None ->
      exists s rt, at_time j = Some s /\ strptime_HM s = Some rt
                   /\ next_run j' = Some (combine (date_of now) rt)).
Proof.
  intros Hi Hc. unfold calculate_next_run in Hc. split.
  - intros H.
    destruct H as [[Hu H] | [[Hu H] | [Hu H]]]; rewrite Hu in Hc; cbn in Hc.
    + (* hours *)
      destruct (last_run j) as [lr | ] eqn:El.
      * unfold next_run_hours in Hc. rewrite El in Hc. cbn [bind] in Hc.
        rewrite combine_date_time in Hc.
        unfold hour_seconds, day_seconds in Hc.
        specialize (H lr eq_refl).
        destruct (Z.leb_spec (lr + interval j * 3600) now);
          injection Hc as <-; eexists; (split; [reflexivity | lia]).
      * rewrite next_run_hours_fresh in Hc by assumption. cbn [bind] in Hc.
        injection Hc as <-. eexists; split; [reflexivity | lia].
    + (* weeks *)
      destruct (resolve_day_of_week (day_of_week j)) as [d | ] eqn:Ed.
      * rewrite (next_run_weeks_value now j d Ed) in Hc. cbn [bind] in Hc.
        injection Hc as <-. specialize (H d eq_refl).
        pose proof (Z.mod_pos_bound (d - weekday now) 7).
        eexists; split; [reflexivity | lia].
      * unfold next_run_weeks in Hc. rewrite Ed in Hc. discriminate.
    + (* days *)
      destruct (at_time j) as [s | ] eqn:Ea.
      * destruct (strptime_HM s) as [rt | ] eqn:Ep.
        -- rewrite (next_run_days_at now j s rt Ea Ep) in Hc.
           cbn [bind] in Hc. injection Hc as <-.
           pose proof (strptime_HM_range s rt Ep) as Hr.
           pose proof (tomorrow_starts_after now) as Ht.
           unfold combine in *.
           destruct (H s rt eq_refl Ep) as [Hf | [Hl Hp]].
           ++ destruct (last_run j).
              ** rewrite Z.gtb_ltb.
                 destruct (Z.ltb_spec (date_of now * day_seconds + rt) now);
                   eexists; (split; [reflexivity | lia]).
              ** eexists; split; [reflexivity | lia].
           ++ destruct (last_run j); [ | contradiction].
              rewrite Z.gtb_ltb.
              destruct (Z.ltb_spec (date_of now * day_seconds + rt) now);
                [ | lia].
              eexists; split; [reflexivity | ]. unfold day_seconds in *. nia.
        -- unfold next_run_days in Hc. rewrite Ea in Hc.
           destruct (negb (String.eqb s ""));
             unfold parse_time in Hc;
             rewrite ?Ep, ?current_time_not_HM in Hc; discriminate.
      * rewrite next_run_days_unset in Hc by (left; assumption).
        discriminate.
  - intros Hu Hl. rewrite Hu in Hc. cbn in Hc.
    destruct (at_time j) as [s | ] eqn:Ea.
    + destruct (strptime_HM s) as [rt | ] eqn:Ep.
      * rewrite (next_run_days_at now j s rt Ea Ep), Hl in Hc.
        cbn [bind] in Hc. injection Hc as <-.
        exists s, rt. repeat split; assumption.
      * unfold next_run_days in Hc. rewrite Ea in Hc.
        destruct (negb (String.eqb s ""));
          unfold parse_time in Hc;
          rewrite ?Ep, ?current_time_not_HM in Hc; discriminate.
    + rewrite next_run_days_unset in Hc by (left; assumption).
      discriminate.
Qed.

(** At 10:00:00 a daily job set for 12:10 that has never run is scheduled
    for today 12:10:00, which is ahead. *)
Lemma calculate_next_run_future_witness :
  (exists t,
      next_run (set_next_run (Some (19792 * 86400 + 12 * 3600 + 10 * 60))
                             (at_ "12:10" (days (every 1)))) = Some t
      /\ 19792 * 86400 + 10 * 3600 < t)
  /\ (exists s rt,
         at_time (at_ "12:10" (days (every 1))) = Some s
         /\ strptime_HM s = Some rt
         /\ next_run (set_next_run (Some (19792 * 86400 + 12 * 3600 + 10 * 60))
                                   (at_ "12:10" (days (every 1))))
            = Some (combine (date_of (19792 * 86400 + 10 * 3600)) rt)).
Proof.
  assert (H1 : 1 <= interval (at_ "12:10" (days (every 1)))) by (cbn; lia).
  assert (H2 : calculate_next_run (19792 * 86400 + 10 * 3600)
                 (at_ "12:10" (days (every 1)))
               = Ok (set_next_run (Some (19792 * 86400 + 12 * 3600 + 10 * 60))
                                  (at_ "12:10" (days (every 1)))))
    by (vm_compute; reflexivity).
  destruct (calculate_next_run_future _ _ _ H1 H2) as [A B].
  split.
  - apply A. right; right. split; [reflexivity | ].
    intros s rt Hs Hp. injection Hs as <-.
    vm_compute in Hp. injection Hp as <-. left. vm_compute. reflexivity.
  - apply B; reflexivity.
Defined.

End NextRunProperties.

(** ** The scheduler: building and registering a job *)

Section Registration.

Import Sched.

Lemma apply_call_keeps_id (c : builder_call) (j j' : Job) :
  is_with_id c = false -> apply_call c j = Ok j' -> job_id j' = job_id j.
Proof.
  destruct c; cbn; try discriminate; intros _;
    try (intros [= <-]; reflexivity);
    unfold second, minute, hour, day, week, singular;
    destruct (interval j =? 1); try discriminate;
    intros [= <-]; reflexivity.
Qed.

Lemma chain_keeps_id (calls : list builder_call) :
  forall j j',
    forallb (fun c => negb (is_with_id c)) calls = true ->
    chain calls j = Ok j' -> job_id j' = job_id j.
Proof.
  induction calls as [ | c calls IH]; intros j j' Hn Hc.
  - injection Hc as <-. reflexivity.
  - cbn in Hn. apply andb_true_iff in Hn as [Hc1 Hn].
    apply negb_true_iff in Hc1. cbn in Hc.
    destruct (apply_call c j) as [j1 | ] eqn:E; [ | discriminate].
    cbn [bind] in Hc. rewrite (IH _ _ Hn Hc).
    exact (apply_call_keeps_id c j j1 Hc1 E).
Qed.

(** C9.  A job built through the chain without [with_id] keeps the
    [job_id] its constructor stored, the class [str], which is not a
    string; [do] then raises and registers nothing. *)
Theorem do_without_with_id_raises (e : env) (now : Z) (f : state_file)
    (jobs : list Job) (interval : Z) (calls : list builder_call)
    (j : Job) (job_func : action) :
  forallb (fun c => negb (is_with_id c)) calls = true ->
  chain calls (every interval) = Ok j ->
  job_id j = StrClass
  /\ exists err, do e now f jobs j job_func = Raise err.
Proof.
  intros Hn Hc. pose proof (chain_keeps_id calls _ _ Hn Hc) as Hid.
  cbn in Hid. split; [exact Hid | ].
  unfold do.
  destruct (calculate_next_run now (set_job_func (Some job_func) j))
    as [self | err] eqn:E; [ | eexists; reflexivity].
  cbn [bind]. apply calculate_next_run_shape in E as [t ->].
  cbn [has_scheduler set_next_run set_job_func job_id].
  destruct (has_scheduler j); cbn [negb]; [ | eexists; reflexivity].
  rewrite Hid. eexists; reflexivity.
Qed.

Lemma do_without_with_id_raises_witness :
  job_id (hours (every 1)) = StrClass
  /\ exists err,
       do (mkEnv (fun _ _ => true) (fun _ => None)) 0 Missing []
          (hours (every 1)) (mkAction "jobs" "scrape_upload" [] [])
       = Raise err.
Proof.
  apply (do_without_with_id_raises _ 0 Missing [] 1 [CHour]);
    reflexivity.
Defined.

Lemma load_job_data_id (jid : string) (f : state_file) (data : JobData) :
  load_job_data jid f = Some data -> d_id data = IdStr jid.
Proof.
  destruct f as [ | | l]; try discriminate. cbn.
  intros H. apply find_some in H as [_ H].
  destruct (d_id data); cbn in H; try discriminate.
  apply String.eqb_eq in H. congruence.
Qed.

Lemma from_dict_fields (e : env) (now : Z) (data : JobData) (job : Job) :
  from_dict e now data = Ok job ->
  job_id job = d_id data
  /\ last_run job = d_last_run data
  /\ (forall t, d_next_run data = Some t -> next_run job = Some t)
  /\ has_scheduler job = false.
Proof.
  unfold from_dict.
  destruct (importable e (d_action_module data) (d_action_name data));
    cbn [negb]; [ | discriminate].
  destruct (d_next_run data) as [t | ] eqn:En.
  - cbn [bind]. intros [= <-].
    destruct (d_last_run data); cbn; repeat split;
      intros t' [= <-]; reflexivity.
  - destruct (calculate_next_run now _) as [job1 | ] eqn:Ec; [ | discriminate].
    cbn [bind]. intros [= <-].
    apply calculate_next_run_shape in Ec as [t ->].
    destruct (d_last_run data); cbn; repeat split; discriminate.
Qed.

(** C6.  When the state file holds a record for the id of the job, [do]
    appends to the scheduler's jobs the job that [from_dict] rebuilds from
    that record, and only it: the registered job carries the persisted id
    and [last_run], and the persisted [next_run] whenever the record has
    one, not the value just computed for the fresh job. *)
Theorem do_registers_persisted (e : env) (now : Z) (f : state_file)
    (jobs : list Job) (self self' : Job) (job_func : action)
    (jid : string) (data : JobData) (job : Job) :
  job_id self = IdStr jid ->
  has_scheduler self = true ->
  calculate_next_run now (set_job_func (Some job_func) self) = Ok self' ->
  load_job_data jid f = Some data ->
  from_dict e now data = Ok job ->
  do e now f jobs self job_func = Ok (jobs ++ [job])
  /\ job_id job = IdStr jid
  /\ last_run job = d_last_run data
  /\ (forall t, d_next_run data = Some t -> next_run job = Some t).
Proof.
  intros Hid Hs Hc Hl Hf.
  destruct (from_dict_fields e now data job Hf) as (Fi & Fl & Fn & _).
  rewrite (load_job_data_id jid f data Hl) in Fi.
  repeat split; try assumption.
  unfold do. rewrite Hc. cbn [bind].
  apply calculate_next_run_shape in Hc as [t ->].
  cbn [has_scheduler set_next_run set_job_func job_id].
  rewrite Hs, Hid. cbn [negb]. rewrite Hl, Hf. reflexivity.
Qed.

Lemma do_registers_persisted_witness :
  let e := mkEnv (fun _ _ => true) (fun _ => None) in
  let act := mkAction "jobs" "scrape_upload" [PStr "Not sorted"] [] in
  let data :=
    mkJobData (IdStr "Not sorted") 1 (UnitName "hours") None None
              (Some 1000) (Some 4600) "jobs" "scrape_upload"
              [PStr "Not sorted"] [] in
  let job :=
    mkJob (IdStr "Not sorted") 1 (UnitName "hours") (Some act) None None
          (Some 1000) (Some 4600) false in
  do e 500000 (StateDoc [data]) []
     (with_id (IdStr "Not sorted") (hours (every 1))) act
  = Ok ([] ++ [job])
  /\ job_id job = IdStr "Not sorted"
  /\ last_run job = d_last_run data
  /\ (forall t, d_next_run data = Some t -> next_run job = Some t).
Proof.
  intros e act data job.
  apply (do_registers_persisted e 500000 (StateDoc [data]) []
           (with_id (IdStr "Not sorted") (hours (every 1)))
           (set_next_run (Some 503600)
              (set_job_func (Some act)
                 (with_id (IdStr "Not sorted") (hours (every 1)))))
           act "Not sorted" data job);
    vm_compute; reflexivity.
Defined.

End Registration.

(** ** The scheduler: the sweep of [run_pending] *)

Section Sweep.

Import Sched.

Variable e : env.
Variable now : Z.

Lemma sweep_keeps_later (todo : list Job) :
  forall done later w tr s,
    sweep e now done todo later w tr = Swept s ->
    exists visited,
      jobs s = visited ++ later
      /\ List.length visited = (List.length done + List.length todo)%nat.
Proof.
  induction todo as [ | job rest IH]; intros done later w tr s H; cbn in H.
  - injection H as <-. exists done. cbn. split; [reflexivity | lia].
  - destruct (due now job).
    + destruct (run e now job) as [job' [err | ]]; [discriminate | ].
      destruct (save_data _ w) as [w' | | ]; try discriminate.
      apply IH in H as (visited & -> & Hl). exists visited.
      split; [reflexivity | ]. rewrite Hl, length_app. cbn. lia.
    + apply IH in H as (visited & -> & Hl). exists visited.
      split; [reflexivity | ]. rewrite Hl, length_app. cbn. lia.
Qed.

Lemma sweep_stops_at_raise (pre : list Job) :
  forall done job post w tr s err,
    sweep e now done pre (job :: post) w tr = Swept s ->
    due now job = true ->
    run e now job = (job, Some err) ->
    sweep e now done (pre ++ job :: post) [] w tr
    = Aborted err (mkState (jobs s) (disk s) (ran s ++ [job_id job])).
Proof.
  induction pre as [ | p pre IH]; intros done job post w tr s err H Hd Hr.
  - cbn in H. injection H as <-. cbn. rewrite Hd, Hr, app_nil_r.
    reflexivity.
  - cbn in H. cbn [app sweep]. destruct (due now p).
    + destruct (run e now p) as [p' [err' | ]]; [discriminate | ].
      rewrite app_nil_r.
      destruct (save_data _ w) as [w' | | ]; try discriminate.
      exact (IH _ _ _ _ _ _ _ H Hd Hr).
    + exact (IH _ _ _ _ _ _ _ H Hd Hr).
Qed.

(** C4, amended.  [run_pending] does not isolate a failing job.  When the
    sweep has got through the jobs before [job], and [job] is due and its
    action raises, the exception leaves [run_pending]: the jobs visited
    before keep what the sweep did to them, [job] and every job after it
    are left as they were, nothing is saved for [job], and no job after it
    is evaluated or run. *)
Theorem run_pending_stops_at_failing_job (pre post : list Job) (job : Job)
    (f : action) (err : exn) (w : world) (tr : list id_val)
    (s : sched_state) :
  sweep e now [] pre (job :: post) w tr = Swept s ->
  due now job = true ->
  job_func job = Some f ->
  call e f = Some err ->
  run_pending e now (mkState (pre ++ job :: post) w tr)
  = Aborted err (mkState (jobs s) (disk s) (ran s ++ [job_id job]))
  /\ exists visited,
       jobs s = visited ++ job :: post
       /\ List.length visited = List.length pre.
Proof.
  intros H Hd Hf Hc. split.
  - unfold run_pending. cbn [jobs disk ran].
    apply sweep_stops_at_raise; [assumption | assumption | ].
    unfold run. rewrite Hf, Hc. reflexivity.
  - apply sweep_keeps_later in H as (visited & Hj & Hl).
    exists visited. split; assumption.
Qed.

End Sweep.

Section SweepExamples.

Import Sched Scenarios.

(** C4, as stated, fails: with two due jobs of which the first raises,
    the sweep ends with that exception; only the first job's action was
    called, and the second job, still due, has not been run. *)
Lemma run_pending_failure_ends_sweep :
  run_pending failing_env 7200
    (mkState [broken_job; sound_job] (mkWorld Missing [WriteOk; WriteOk]) [])
  = Aborted (ActionError "boom")
      (mkState [broken_job; sound_job] (mkWorld Missing [WriteOk; WriteOk])
               [IdStr "first"])
  /\ due 7200 sound_job = true.
Proof. split; reflexivity. Qed.

Lemma run_pending_stops_at_failing_job_witness :
  run_pending failing_env 7200
    (mkState ([] ++ broken_job :: [sound_job])
             (mkWorld Missing [WriteOk; WriteOk]) [])
  = Aborted (ActionError "boom")
      (mkState [broken_job; sound_job] (mkWorld Missing [WriteOk; WriteOk])
               ([] ++ [job_id broken_job]))
  /\ exists visited,
       [broken_job; sound_job] = visited ++ broken_job :: [sound_job]
       /\ List.length visited = List.length (@nil Job).
Proof.
  apply (run_pending_stops_at_failing_job failing_env 7200 [] [sound_job]
           broken_job (mkAction "jobs" "broken" [] [])
           (ActionError "boom") (mkWorld Missing [WriteOk; WriteOk]) []
           (mkState [broken_job; sound_job]
                    (mkWorld Missing [WriteOk; WriteOk]) []));
    reflexivity.
Defined.

End SweepExamples.

(** ** Dictionaries *)

Section DictFacts.

Context {K V : Type}.
Variable eqb : K -> K -> bool.
Hypothesis eqb_eq : forall a b, eqb a b = true <-> a = b.

Local Abbreviation dict := (PyDict.dict (K := K) (V := V)).
Local Abbreviation get := (PyDict.get eqb).
Local Abbreviation set := (PyDict.set eqb).
Local Abbreviation update := (PyDict.update eqb).
Local Abbreviation keys := (@PyDict.keys K V).

Lemma eqb_same (a : K) : eqb a a = true.
Proof. apply eqb_eq. reflexivity. Qed.

Lemma eqb_differ (a b : K) : a <> b -> eqb a b = false.
Proof.
  intros H. destruct (eqb a b) eqn:E; [ | reflexivity].
  apply eqb_eq in E. contradiction.
Qed.

Lemma get_in (k : K) (v : V) (d : dict) : get k d = Some v -> In (k, v) d.
Proof.
  induction d as [ | [k' v'] d IH]; cbn; [discriminate | ].
  destruct (eqb k' k) eqn:E.
  - apply eqb_eq in E. intros [= <-]. left. congruence.
  - intros H. right. exact (IH H).
Qed.

Lemma get_none_keys (k : K) (d : dict) : get k d = None -> ~ In k (keys d).
Proof.
  induction d as [ | [k' v'] d IH]; cbn; [tauto | ].
  destruct (eqb k' k) eqn:E; [discriminate | ].
  intros H [Hk | Hk]; [ | exact (IH H Hk)].
  subst k'. rewrite eqb_same in E. discriminate.
Qed.

Lemma in_get (k : K) (v : V) (d : dict) :
  NoDup (keys d) -> In (k, v) d -> get k d = Some v.
Proof.
  induction d as [ | [k' v'] d IH]; cbn; [tauto | ].
  intros Hn [Hin | Hin].
  - injection Hin as -> ->. rewrite eqb_same. reflexivity.
  - inversion Hn as [ | ? ? Hk Hn']; subst.
    destruct (eqb k' k) eqn:E; [ | exact (IH Hn' Hin)].
    apply eqb_eq in E. subst k'. exfalso. apply Hk.
    change k with (fst (k, v)). apply in_map. exact Hin.
Qed.

Lemma in_set (x : K * V) (k : K) (v : V) (d : dict) :
  In x (set k v d) -> x = (k, v) \/ In x d.
Proof.
  induction d as [ | [k' v'] d IH]; cbn.
  - intros [H | []]. left. congruence.
  - destruct (eqb k' k) eqn:E; cbn.
    + apply eqb_eq in E. subst k'. intros [H | H]; [left; congruence | ].
      right. right. exact H.
    + intros [H | H]; [right; left; exact H | ].
      destruct (IH H) as [H1 | H1]; [left | right; right]; exact H1.
Qed.

Lemma get_set_same (k : K) (v : V) (d : dict) : get k (set k v d) = Some v.
Proof.
  induction d as [ | [k' v'] d IH]; cbn.
  - rewrite eqb_same. reflexivity.
  - destruct (eqb k' k) eqn:E; cbn; rewrite E; [reflexivity | exact IH].
Qed.

Lemma get_set_other (k k0 : K) (v : V) (d : dict) :
  k0 <> k -> get k0 (set k v d) = get k0 d.
Proof.
  intros Hne. induction d as [ | [k' v'] d IH]; cbn.
  - rewrite eqb_differ by congruence. reflexivity.
  - destruct (eqb k' k) eqn:E; cbn.
    + apply eqb_eq in E. subst k'. rewrite eqb_differ by congruence.
      reflexivity.
    + rewrite IH. reflexivity.
Qed.

Lemma keys_set (k : K) (v : V) (d : dict) :
  keys (set k v d) = if PyDict.mem eqb k d then keys d else keys d ++ [k].
Proof.
  unfold PyDict.mem, PyDict.keys.
  induction d as [ | [k' v'] d IH]; cbn; [reflexivity | ].
  destruct (eqb k' k) eqn:E; cbn; [reflexivity | ].
  rewrite IH. destruct (get k d); reflexivity.
Qed.

Lemma nodup_keys_set (k : K) (v : V) (d : dict) :
  NoDup (keys d) -> NoDup (keys (set k v d)).
Proof.
  intros Hn. rewrite keys_set. unfold PyDict.mem.
  destruct (get k d) eqn:E; [exact Hn | ].
  apply get_none_keys in E.
  apply NoDup_app; [exact Hn | repeat constructor; cbn; tauto | ].
  intros x Hx [<- | []]. exact (E Hx).
Qed.

Lemma in_keys_set (k k0 : K) (v : V) (d : dict) :
  In k0 (keys (set k v d)) <-> k0 = k \/ In k0 (keys d).
Proof.
  rewrite keys_set. unfold PyDict.mem.
  destruct (get k d) eqn:E.
  - split; [tauto | ]. intros [-> | H]; [ | exact H].
    apply get_in in E. change k with (fst (k, v0)). apply in_map. exact E.
  - rewrite in_app_iff. cbn. intuition congruence.
Qed.

Lemma update_cons (k : K) (v : V) (items : list (K * V)) (d : dict) :
  update ((k, v) :: items) d = update items (set k v d).
Proof. reflexivity. Qed.

Lemma in_update (x : K * V) (items : list (K * V)) :
  forall d, In x (update items d) -> In x d \/ In x items.
Proof.
  induction items as [ | [k v] items IH]; intros d; [cbn; tauto | ].
  rewrite update_cons. intros H.
  destruct (IH _ H) as [H1 | H1]; [ | right; right; exact H1].
  destruct (in_set _ _ _ _ H1) as [-> | H2];
    [right; left; reflexivity | left; exact H2].
Qed.

Lemma nodup_keys_update (items : list (K * V)) :
  forall d, NoDup (keys d) -> NoDup (keys (update items d)).
Proof.
  induction items as [ | [k v] items IH]; intros d Hn; [exact Hn | ].
  rewrite update_cons. apply IH, nodup_keys_set, Hn.
Qed.

Lemma in_keys_update (k : K) (items : list (K * V)) :
  forall d, In k (keys (update items d))
            <-> In k (keys d) \/ In k (map fst items).
Proof.
  induction items as [ | [k1 v1] items IH]; intros d; [cbn; tauto | ].
  rewrite update_cons, IH, in_keys_set. cbn [map fst In].
  intuition congruence.
Qed.

Lemma get_update_absent (k : K) (items : list (K * V)) :
  forall d, ~ In k (map fst items) -> get k (update items d) = get k d.
Proof.
  induction items as [ | [k1 v1] items IH]; intros d Hn; [reflexivity | ].
  cbn [map fst In] in Hn. rewrite update_cons, IH by tauto.
  apply get_set_other. intuition congruence.
Qed.

Lemma get_update_present (k : K) (items : list (K * V)) :
  forall d, In k (map fst items) ->
            exists v, In (k, v) items /\ get k (update items d) = Some v.
Proof.
  induction items as [ | [k1 v1] items IH]; intros d Hin;
    [contradiction | ].
  rewrite update_cons.
  destruct (existsb (eqb k) (map fst items)) eqn:Ex.
  - assert (Hk : In k (map fst items)).
    { apply existsb_exists in Ex as (k' & Hk' & E).
      apply eqb_eq in E. subst k'. exact Hk'. }
    destruct (IH (set k1 v1 d) Hk) as (v & Hv & Hg).
    exists v. split; [right | ]; assumption.
  - assert (Hk : ~ In k (map fst items)).
    { intros Hk. rewrite <- not_true_iff_false in Ex. apply Ex.
      apply existsb_exists. exists k. split; [exact Hk | apply eqb_same]. }
    destruct Hin as [Hin | Hin]; [ | contradiction].
    cbn [fst] in Hin. subst k1.
    exists v1. split; [left; reflexivity | ].
    rewrite get_update_absent by assumption. apply get_set_same.
Qed.

End DictFacts.

(** ** The scheduler: [save_data] *)

Section SaveData.

Import Sched.

Lemma id_eqb_eq (a b : id_val) : id_eqb a b = true <-> a = b.
Proof.
  destruct a, b; cbn; try (split; [discriminate | congruence]).
  - tauto.
  - rewrite String.eqb_eq. split; congruence.
  - rewrite Z.eqb_eq. split; congruence.
Qed.

Lemma to_dict_id (j : Job) (d : JobData) :
  to_dict j = Ok d -> d_id d = job_id j.
Proof.
  unfold to_dict. destruct (job_func j); [ | discriminate].
  intros [= <-]. reflexivity.
Qed.

Lemma to_dicts_spec (jobs : list Job) :
  forall ds, to_dicts jobs = Ok ds ->
             map d_id ds = map job_id jobs
             /\ (forall d, In d ds -> exists j, In j jobs /\ to_dict j = Ok d).
Proof.
  induction jobs as [ | j jobs IH]; intros ds; cbn.
  - intros [= <-]. split; [reflexivity | intros d []].
  - destruct (to_dict j) as [d0 | ] eqn:E; [ | discriminate]. cbn [bind].
    destruct (to_dicts jobs) as [ds0 | ]; [ | discriminate]. cbn [bind].
    intros [= <-]. destruct (IH ds0 eq_refl) as [Hm Hi]. split.
    + cbn. rewrite Hm, (to_dict_id j d0 E). reflexivity.
    + intros d [<- | Hd]; [exists j; split; [left; reflexivity | exact E] | ].
      destruct (Hi d Hd) as (j' & Hj & Ht). exists j'.
      split; [right; exact Hj | exact Ht].
Qed.

Lemma by_id_keys (ds : list JobData) : map fst (by_id ds) = map d_id ds.
Proof. unfold by_id. rewrite map_map. reflexivity. Qed.

Lemma in_by_id (k : id_val) (v : JobData) (ds : list JobData) :
  In (k, v) (by_id ds) <-> k = d_id v /\ In v ds.
Proof.
  unfold by_id. rewrite in_map_iff. split.
  - intros (d & [= <- <-] & Hd). tauto.
  - intros [-> Hd]. exists v. tauto.
Qed.

Lemma nodup_fst_functional {K V : Type} (l : list (K * V)) (k : K)
    (v v' : V) :
  NoDup (map fst l) -> In (k, v) l -> In (k, v') l -> v = v'.
Proof.
  induction l as [ | [k0 v0] l IH]; cbn; [tauto | ].
  intros Hn. inversion Hn as [ | ? ? Hk Hn']; subst.
  assert (Hnot : forall w, In (k0, w) l -> False).
  { intros w Hw. apply Hk. change k0 with (fst (k0, w)).
    apply in_map. exact Hw. }
  intros [H1 | H1] [H2 | H2].
  - congruence.
  - injection H1 as -> ->. destruct (Hnot _ H2).
  - injection H2 as -> ->. destruct (Hnot _ H1).
  - exact (IH Hn' H1 H2).
Qed.

Lemma keyed_values (m : list (id_val * JobData)) :
  (forall k v, In (k, v) m -> k = d_id v) ->
  map d_id (map snd m) = map fst m.
Proof.
  induction m as [ | [k v] m IH]; intros H; cbn; [reflexivity | ].
  rewrite IH by (intros k' v' Hin; apply H; right; exact Hin).
  rewrite (H k v) by (left; reflexivity). reflexivity.
Qed.

Lemma write_loop_completes (payload : list JobData) (retries : list attempt) :
  forall f rest,
    Forall retried retries ->
    write_loop payload f (retries ++ WriteOk :: rest)
    = Saved (mkWorld (StateDoc payload) rest).
Proof.
  induction retries as [ | a retries IH]; intros f rest H; [reflexivity | ].
  inversion H as [ | ? ? [-> | ->] H']; subst; cbn; apply IH; exact H'.
Qed.

Lemma write_loop_saved (payload : list JobData) (attempts : list attempt) :
  forall f w', write_loop payload f attempts = Saved w' ->
               file w' = StateDoc payload.
Proof.
  induction attempts as [ | a attempts IH]; intros f w'; cbn;
    [discriminate | ].
  destruct a; try (apply IH); [ | discriminate].
  intros [= <-]. reflexivity.
Qed.

(** C5.  [save_data], on a state file whose entries have distinct ids (as
    every file written by [save_data] has), writes the list [out] in
    which every on-disk entry whose id is that of no in-memory job is
    still present unchanged, every entry whose id is that of an in-memory
    job is the dictionary of such a job, every in-memory job has its
    entry, and ids are distinct.  The write completes as soon as the disk
    has room, after any number of retries, and no call ever
    writes anything else. *)
Theorem save_data_merges (jobs : list Job) (f : state_file)
    (ds : list JobData) (retries rest : list attempt) :
  NoDup (map d_id (existing_jobs f)) ->
  to_dicts jobs = Ok ds ->
  Forall retried retries ->
  exists out,
    save_data jobs (mkWorld f (retries ++ WriteOk :: rest))
    = Saved (mkWorld (StateDoc out) rest)
    /\ (forall attempts w',
          save_data jobs (mkWorld f attempts) = Saved w' ->
          file w' = StateDoc out)
    /\ (forall entry, In entry (existing_jobs f) ->
                      ~ In (d_id entry) (map job_id jobs) -> In entry out)
    /\ (forall o, In o out -> In (d_id o) (map job_id jobs) ->
                  exists j, In j jobs /\ to_dict j = Ok o)
    /\ (forall j, In j jobs -> exists o, In o out /\ d_id o = job_id j)
    /\ NoDup (map d_id out).
Proof.
  intros Hn Hd Hr.
  destruct (to_dicts_spec jobs ds Hd) as [Hids Hfrom].
  exists (merged_jobs f ds).
  unfold save_data. rewrite Hd. cbn [file io].
  split; [apply write_loop_completes; exact Hr | ].
  split; [intros attempts w'; apply write_loop_saved | ].
  unfold merged_jobs, existing_jobs_dict, PyDict.of_items, PyDict.values.
  set (E := PyDict.update id_eqb (by_id (existing_jobs f)) []).
  set (U := PyDict.update id_eqb (by_id ds) []).
  set (M := PyDict.update id_eqb U E).
  assert (HU : forall k v, In (k, v) U -> In (k, v) (by_id ds)).
  { intros k v H. apply (in_update id_eqb id_eqb_eq) in H as [[] | H].
    exact H. }
  assert (HE : forall k v,
             In (k, v) E -> In (k, v) (by_id (existing_jobs f))).
  { intros k v H. apply (in_update id_eqb id_eqb_eq) in H as [[] | H].
    exact H. }
  assert (HM : forall k v, In (k, v) M -> k = d_id v).
  { intros k v H. apply (in_update id_eqb id_eqb_eq) in H as [H | H].
    - apply HE, in_by_id in H. tauto.
    - apply HU, in_by_id in H. tauto. }
  assert (HUk : forall k, In k (map fst U) <-> In k (map job_id jobs)).
  { intros k. unfold U.
    change (map fst (PyDict.update id_eqb (by_id ds) []))
      with (PyDict.keys (PyDict.update id_eqb (by_id ds) [])).
    rewrite (in_keys_update id_eqb id_eqb_eq), by_id_keys, Hids.
    cbn. tauto. }
  assert (HnE : NoDup (PyDict.keys E))
    by (apply (nodup_keys_update id_eqb id_eqb_eq); constructor).
  assert (HnM : NoDup (PyDict.keys M))
    by (apply (nodup_keys_update id_eqb id_eqb_eq); exact HnE).
  repeat split.
  - (* entries of other jobs are kept *)
    intros entry Hin Hnot.
    assert (Hk : In (d_id entry) (map fst (by_id (existing_jobs f))))
      by (rewrite by_id_keys; apply in_map; exact Hin).
    destruct (get_update_present id_eqb id_eqb_eq _ _ [] Hk)
      as (v & Hv & Hg).
    assert (v = entry).
    { apply (nodup_fst_functional (by_id (existing_jobs f)) (d_id entry)).
      - rewrite by_id_keys. exact Hn.
      - exact Hv.
      - apply in_by_id. tauto. }
    subst v. fold E in Hg.
    assert (Hg' : PyDict.get id_eqb (d_id entry) M = Some entry).
    { unfold M. rewrite (get_update_absent id_eqb id_eqb_eq); [exact Hg | ].
      rewrite HUk. exact Hnot. }
    apply (get_in id_eqb id_eqb_eq) in Hg'.
    change entry with (snd (d_id entry, entry)). apply in_map. exact Hg'.
  - (* entries of in-memory jobs are the in-memory version *)
    intros o Ho Hmem. apply in_map_iff in Ho as ([k o'] & Ho' & Hin).
    cbn in Ho'. subst o'. pose proof (HM k o Hin) as ->.
    apply HUk in Hmem.
    destruct (get_update_present id_eqb id_eqb_eq _ _ E Hmem)
      as (v & Hv & Hg).
    fold M in Hg.
    rewrite (in_get id_eqb id_eqb_eq _ _ _ HnM Hin) in Hg.
    injection Hg as <-. apply HU, in_by_id in Hv as [_ Hv].
    exact (Hfrom o Hv).
  - (* every in-memory job has its entry *)
    intros j Hj.
    assert (Hk : In (job_id j) (PyDict.keys M)).
    { unfold M. rewrite (in_keys_update id_eqb id_eqb_eq). right.
      apply HUk, in_map, Hj. }
    apply in_map_iff in Hk as ([k v] & Hk & Hin). cbn in Hk. subst k.
    exists v. split.
    + change v with (snd (job_id j, v)). apply in_map. exact Hin.
    + symmetry. exact (HM _ _ Hin).
  - rewrite keyed_values by exact HM. exact HnM.
Qed.

End SaveData.

(** ** The record store: [write_json] *)

Section WriteJson.

Lemma pyval_eqb_eq (a b : pyval) : pyval_eqb a b = true <-> a = b.
Proof.
  destruct a, b; cbn; try (split; [discriminate | congruence]).
  - tauto.
  - rewrite String.eqb_eq. split; congruence.
Qed.

Lemma update_first_found (new_record : record) (data : list record) :
  forall data',
    update_first new_record data = Some data' ->
    exists pre stored post,
      data = pre ++ stored :: post
      /\ no_match new_record pre
      /\ same_key stored new_record = true
      /\ data' = pre ++ new_record :: post.
Proof.
  induction data as [ | r data IH]; intros data'; cbn; [discriminate | ].
  destruct (same_key r new_record) eqn:E.
  - intros [= <-]. exists [], r, data. repeat split; [constructor | exact E].
  - destruct (update_first new_record data) as [d1 | ]; [ | discriminate].
    cbn. intros [= <-].
    destruct (IH d1 eq_refl) as (pre & stored & post & -> & Hp & Hs & ->).
    exists (r :: pre), stored, post.
    repeat split; [constructor; assumption | exact Hs].
Qed.

Lemma update_first_missed (new_record : record) (data : list record) :
  update_first new_record data = None -> no_match new_record data.
Proof.
  induction data as [ | r data IH]; cbn; [constructor | ].
  destruct (same_key r new_record) eqn:E; [discriminate | ].
  destruct (update_first new_record data); [discriminate | ].
  intros _. constructor; [exact E | apply IH; reflexivity].
Qed.

(** One step of the loop of [write_json]: overwrite the first stored
    record with the key, or insert in front. *)
Lemma upsert_cases (data : list record) (new_record : record) :
  (exists pre stored post,
      data = pre ++ stored :: post
      /\ no_match new_record pre
      /\ same_key stored new_record = true
      /\ upsert data new_record = pre ++ new_record :: post)
  \/ (no_match new_record data
      /\ upsert data new_record = new_record :: data).
Proof.
  unfold upsert.
  destruct (update_first new_record data) as [data' | ] eqn:E.
  - left. apply update_first_found in E
      as (pre & stored & post & H1 & H2 & H3 & H4).
    exists pre, stored, post. tauto.
  - right. split; [apply update_first_missed; exact E | reflexivity].
Qed.

Lemma upsert_keeps_links (data : list record) (new_record : record) :
  Forall has_link data -> has_link new_record -> NoDup (links data) ->
  Forall has_link (upsert data new_record)
  /\ NoDup (links (upsert data new_record)).
Proof.
  intros Hd Hn Hnd.
  destruct (upsert_cases data new_record)
    as [(pre & stored & post & -> & Hp & Hs & ->) | [Hm ->]].
  - apply Forall_app in Hd as [Hd1 Hd2].
    inversion Hd2 as [ | ? ? Hst Hd3]; subst.
    unfold same_key in Hs. unfold has_link in Hst. rewrite Hst in Hs.
    apply pyval_eqb_eq in Hs. split.
    + apply Forall_app. split; [exact Hd1 | constructor; assumption].
    + unfold links in *. rewrite map_app in *. cbn [map] in *.
      rewrite <- Hs. exact Hnd.
  - split; [constructor; assumption | ].
    unfold links. cbn [map]. constructor; [ | exact Hnd].
    intros Hin. apply in_map_iff in Hin as (r & Hr & Hin).
    unfold no_match in Hm. rewrite Forall_forall in Hm, Hd.
    specialize (Hm r Hin). specialize (Hd r Hin).
    unfold same_key in Hm. unfold has_link in Hd. rewrite Hd in Hm.
    rewrite Hr in Hm.
    assert (pyval_eqb (rget link_key new_record)
                      (rget link_key new_record) = true)
      by (apply pyval_eqb_eq; reflexivity).
    congruence.
Qed.

(** C10, as stated, fails: a stored record without a link is matched by
    title, so writing a record that carries the link of another stored
    record over it leaves that link on two records where one had it. *)
Lemma write_json_second_link :
  write_json
    (OneRecord [("Link for video", PStr "https://x/a"); ("Title", PStr "T")])
    [[("Title", PStr "T")];
     [("Link for video", PStr "https://x/a"); ("Title", PStr "U")]]
  = [[("Link for video", PStr "https://x/a"); ("Title", PStr "T")];
     [("Link for video", PStr "https://x/a"); ("Title", PStr "U")]]
  /\ links [[("Title", PStr "T")];
            [("Link for video", PStr "https://x/a"); ("Title", PStr "U")]]
     = [PNone; PStr "https://x/a"]
  /\ links
       (write_json
          (OneRecord
             [("Link for video", PStr "https://x/a"); ("Title", PStr "T")])
          [[("Title", PStr "T")];
           [("Link for video", PStr "https://x/a"); ("Title", PStr "U")]])
     = [PStr "https://x/a"; PStr "https://x/a"].
Proof. repeat split; reflexivity. Qed.

(** C10, amended.  [write_json] treats its records one after the other.
    For each, the first stored record with the same key (its link when it
    has a non-empty one, its title otherwise) is overwritten in place,
    which leaves the number of stored records as it was; when no stored
    record has the key, the new record is inserted at index 0.  When every
    stored and every new record has a non-empty link and the stored
    links are distinct, the links are still distinct after the write. *)
Theorem write_json_upserts :
  forall (data : list record) (new_record : record),
    ((exists pre stored post,
         data = pre ++ stored :: post
         /\ no_match new_record pre
         /\ same_key stored new_record = true
         /\ write_json (OneRecord new_record) data
            = pre ++ new_record :: post
         /\ List.length (write_json (OneRecord new_record) data)
            = List.length data)
     \/ (no_match new_record data
         /\ write_json (OneRecord new_record) data = new_record :: data))
    /\ (forall rest,
           write_json (Records (new_record :: rest)) data
           = write_json (Records rest)
                        (write_json (OneRecord new_record) data))
    /\ (forall new_data,
           Forall has_link data -> Forall has_link new_data ->
           NoDup (links data) ->
           Forall has_link (write_json (Records new_data) data)
           /\ NoDup (links (write_json (Records new_data) data))).
Proof.
  intros data new_record. split; [ | split].
  - unfold write_json. cbn [as_list fold_left].
    destruct (upsert_cases data new_record)
      as [(pre & stored & post & H1 & H2 & H3 & H4) | H]; [left | right; exact H].
    exists pre, stored, post. repeat split; try assumption.
    rewrite H4, H1, !length_app. reflexivity.
  - intros rest. reflexivity.
  - intros new_data. unfold write_json. cbn [as_list]. revert data.
    induction new_data as [ | n new_data IH]; intros data Hd Hn Hnd.
    + split; assumption.
    + inversion Hn as [ | ? ? Hn1 Hn2]; subst. cbn [fold_left].
      destruct (upsert_keeps_links data n Hd Hn1 Hnd) as [H1 H2].
      apply IH; assumption.
Qed.

End WriteJson.

(** ** The filters: what [rows_to_keep] selects *)

Section Selection.

Import Filters.





End Selection.

(** ** The filters: [clean_duplicates] *)

Section Dedup.

Import Filters.

Variable e : env.
Variable data : list record.


(** The two loops visit the pairs of [index_pairs], in that order. *)
Lemma dedup_pass_pairs (st : dedup_state) :
  dedup_pass e data st
  = compare_all e data (index_pairs (List.length data)) st.
Proof.
  unfold dedup_pass, compare_all, index_pairs.
  generalize (seq 0 (List.length data)) as outer. intros outer. revert st.
  induction outer as [ | i outer IH]; intros st; [reflexivity | ].
  cbn [fold_left flat_map]. rewrite fold_left_app, IH. f_equal.
  unfold inner_loop. generalize (seq (S i) (List.length data - S i)) as js.
  intros js. revert st.
  induction js as [ | j js IHj]; intros st; [reflexivity | ].
  cbn [map fold_left fst snd]. apply IHj.
Qed.

Lemma in_index_pairs (n i j : nat) :
  In (i, j) (index_pairs n) -> (i < j < n)%nat.
Proof.
  unfold index_pairs. rewrite in_flat_map. intros (i' & Hi & Hj).
  apply in_map_iff in Hj as (j' & [= -> ->] & Hj).
  apply in_seq in Hi. apply in_seq in Hj. lia.
Qed.
















End Dedup.

(** ** The filters: [clean_older_than_3_days] *)

Section AgeFilter.

Import Filters.

Variable e : env.
Variable now : Z.


Lemma map_result_total {A B : Type} (f : A -> result B) (g : A -> B)
    (l : list A) :
  (forall a, In a l -> f a = Ok (g a)) -> map_result f l = Ok (map g l).
Proof.
  induction l as [ | a l IH]; intros H; cbn; [reflexivity | ].
  rewrite (H a) by (left; reflexivity). cbn [bind].
  rewrite IH by (intros x Hx; apply H; right; exact Hx). reflexivity.
Qed.

Variable history : Z -> list record.



(** The age test, on the ['Date'] field itself. *)
Lemma too_old_date (r : record) :
  too_old now r = true
  <-> exists s d, rget "Date" r = PStr s /\ strptime_date s = Some d
                  /\ d < date_of now - 3.
Proof.
  unfold too_old, parsed_date, rget_or_empty, rget, Sched.current_date.
  destruct (PyDict.get String.eqb "Date" r) as [[ | s] | ].
  - split; [discriminate | intros (s & d & H & _); discriminate H].
  - destruct (String.eqb_spec s "") as [-> | Hs].
    + split; [discriminate | ].
      intros (s & d & [= <-] & H & _). discriminate H.
    + destruct (strptime_date s) as [d | ] eqn:Ed.
      * rewrite Z.ltb_lt. split.
        -- intros H. exists s, d. repeat split; assumption.
        -- intros (s' & d' & [= <-] & Hd & Hlt). congruence.
      * split; [discriminate | ].
        intros (s' & d' & [= <-] & Hd & _). congruence.
  - split; [discriminate | intros (s & d & H & _); discriminate H].
Qed.

Lemma prior_days (d : Z) :
  In d (uploaded_days now) <-> exists k, 1 <= k <= 5 /\ d = date_of now - k.
Proof.
  unfold uploaded_days. rewrite in_map_iff. split.
  - intros (k & <- & Hk). exists k. split; [ | reflexivity].
    cbn in Hk. lia.
  - intros (k & Hk & ->). exists k. split; [reflexivity | ].
    cbn. lia.
Qed.



(** When one of the five history files is missing, a batch with a record
    that is not dropped for its age makes [clean_older_than_3_days] raise
    [FileNotFoundError]; a batch all of whose records are dropped for
    their age is answered without a file being read. *)
Theorem clean_older_than_3_days_missing_file (data : list record) :
  (exists k, 1 <= k <= 5 /\ uploaded e (date_of now - k) = None) ->
  ((exists r, In r data
              /\ ~ (exists s d, rget "Date" r = PStr s
                                /\ strptime_date s = Some d
                                /\ d < date_of now - 3)) ->
   exists path,
     clean_older_than_3_days e now data = Raise (FileNotFoundError path))
  /\ ((forall r, In r data ->
                 exists s d, rget "Date" r = PStr s
                             /\ strptime_date s = Some d
                             /\ d < date_of now - 3) ->
      clean_older_than_3_days e now data = Ok []).
Proof.
  intros (k & Hk & Hmiss).
  assert (Hscan : forall title_i days keep,
             In (date_of now - k) days ->
             exists path,
               scan_uploaded e title_i days keep
               = Raise (FileNotFoundError path)).
  { intros title_i days. induction days as [ | d days IH]; intros keep Hin;
      [destruct Hin | ].
    cbn [scan_uploaded]. destruct (uploaded e d) as [uploaded_data | ] eqn:Ed.
    - destruct Hin as [-> | Hin]; [congruence | ]. apply IH, Hin.
    - eexists. reflexivity. }
  split.
  - intros (r & Hin & Hyoung).
    assert (Hy : too_old now r = false).
    { apply not_true_iff_false. rewrite too_old_date. exact Hyoung. }
    unfold clean_older_than_3_days.
    assert (G : exists path,
               map_result (keep_row e now) data
               = Raise (FileNotFoundError path)).
    { clear Hyoung. induction data as [ | r0 data0 IH]; [destruct Hin | ].
      cbn [map_result].
      destruct (keep_row e now r0) as [b | err] eqn:Ek.
      - cbn [bind]. destruct Hin as [-> | Hin].
        + unfold keep_row in Ek. rewrite Hy in Ek.
          destruct (Hscan (rget "Title" r) (uploaded_days now) true)
            as [path Hp];
            [apply prior_days; exists k; split; [exact Hk | reflexivity] | ].
          congruence.
        + destruct (IH Hin) as [path Hp]. rewrite Hp. cbn [bind].
          exists path. reflexivity.
      - cbn [bind]. unfold keep_row in Ek.
        destruct (too_old now r0); [discriminate | ].
        destruct (Hscan (rget "Title" r0) (uploaded_days now) true)
          as [path Hp];
          [apply prior_days; exists k; split; [exact Hk | reflexivity] | ].
        exists path. congruence. }
    destruct G as [path ->]. exists path. reflexivity.
  - intros Hall. unfold clean_older_than_3_days.
    rewrite (map_result_total _ (fun _ => false)).
    + cbn [bind]. clear Hall. induction data as [ | r data0 IH];
        [reflexivity | exact IH].
    + intros r Hin. unfold keep_row.
      rewrite (proj2 (too_old_date r) (Hall r Hin)). reflexivity.
Qed.

End AgeFilter.

(** ** The filters: [apply_filters] *)

Section ApplyFilters.

Import Filters.

Lemma filter_none {A : Type} (f : A -> bool) (l : list A) :
  (forall a, In a l -> f a = false) -> filter f l = [].
Proof.
  induction l as [ | a l IH]; intros H; cbn; [reflexivity | ].
  rewrite (H a) by (left; reflexivity).
  apply IH. intros x Hx. apply H. right. exact Hx.
Qed.

Lemma new_records_none (daily filtered_now : list record) :
  (forall item, In item daily ->
                In (rget link_key item) (map (rget link_key) filtered_now)) ->
  new_records daily filtered_now = [].
Proof.
  intros H. unfold new_records. apply filter_none. intros item Hin.
  apply andb_false_iff. left. apply negb_false_iff.
  apply existsb_exists. exists (rget link_key item).
  split; [apply H; exact Hin | apply pyval_eqb_eq; reflexivity].
Qed.

(** C2, amended.  When the link of every record of the daily store is
    the link of a record of the filtered store, [apply_filters] writes
    nothing and leaves the stores as they are; so does a second call made
    right after. *)
Theorem apply_filters_nothing_new (e : env) (now : Z) (s : stores)
    (daily filtered_now : list record) :
  daily_scrapped s = Some daily ->
  filtered s = Some filtered_now ->
  (forall item, In item daily ->
                In (rget link_key item) (map (rget link_key) filtered_now)) ->
  exists s',
    apply_filters e now s = Ok s'
    /\ filtered s' = filtered s
    /\ writes s' = writes s
    /\ apply_filters e now s' = Ok s'.
Proof.
  intros Hd Hf H.
  assert (E : apply_filters e now s = Ok s).
  { unfold apply_filters. rewrite Hd, Hf, (new_records_none _ _ H).
    reflexivity. }
  exists s. repeat split; assumption.
Qed.

End ApplyFilters.


(** ** The properties on the scenarios *)

Section OnScenarios.

Import Scenarios MoreScenarios.

Lemma save_data_merges_witness :
  exists out,
    Sched.save_data [job_unsorted]
      (Sched.mkWorld (Sched.StateDoc [entry_sites; entry_unsorted])
                     ([Sched.SpaceLow] ++ Sched.WriteOk :: []))
    = Sched.Saved (Sched.mkWorld (Sched.StateDoc out) [])
    /\ (forall attempts w',
          Sched.save_data [job_unsorted]
            (Sched.mkWorld (Sched.StateDoc [entry_sites; entry_unsorted])
                           attempts)
          = Sched.Saved w' -> Sched.file w' = Sched.StateDoc out)
    /\ (forall entry, In entry [entry_sites; entry_unsorted] ->
                      ~ In (Sched.d_id entry)
                           (map Sched.job_id [job_unsorted]) ->
                      In entry out)
    /\ (forall o, In o out ->
                  In (Sched.d_id o) (map Sched.job_id [job_unsorted]) ->
                  exists j, In j [job_unsorted] /\ Sched.to_dict j = Ok o)
    /\ (forall j, In j [job_unsorted] ->
                  exists o, In o out /\ Sched.d_id o = Sched.job_id j)
    /\ NoDup (map Sched.d_id out).
Proof.
  apply (save_data_merges [job_unsorted]
           (Sched.StateDoc [entry_sites; entry_unsorted])
           [entry_unsorted_new] [Sched.SpaceLow] []).
  - cbn. repeat constructor; cbn; intuition discriminate.
  - reflexivity.
  - repeat constructor.
Defined.

(** The file that this save writes. *)
Example save_data_merges_run :
  Sched.save_data [job_unsorted]
    (Sched.mkWorld (Sched.StateDoc [entry_sites; entry_unsorted])
                   [Sched.SpaceLow; Sched.WriteOk])
  = Sched.Saved
      (Sched.mkWorld (Sched.StateDoc [entry_sites; entry_unsorted_new]) []).
Proof. reflexivity. Qed.


(** Record A of 'site1' before record B of 'site3', titles similar at 99
    and no rule for the two sites: B goes, and the table gets the rule for
    [('site1', 'site3')], first of those the pass learns. *)
Example clean_duplicates_site1_site3 :
  Filters.clean_duplicates near_env [record_a; record_c] = [record_a]
  /\ Filters.site_rules
       (Filters.dedup_pass near_env [record_a; record_c]
          (Filters.dedup_start [record_a; record_c]))
     = Filters.initial_site_rules
         ++ [((PStr "site1", PStr "site3"), PStr "site3")].
Proof. split; reflexivity. Qed.

(** The rule at work in the batch of four.  A and B are similar, B goes
    and the rule for [('site1', 'site3')] is learned.  E of 'site3' and F
    of 'site1' are similar to each other only; their comparison meets the
    learned rule and drops E, the earlier of the two, where the same two
    records on their own lose F, the later one. *)
Example clean_duplicates_rule_applied :
  Filters.clean_duplicates near_env similar_batch = [record_a; record_f]
  /\ Filters.clean_duplicates near_env [record_e; record_f] = [record_e]
  /\ Filters.site_rules
       (Filters.dedup_pass near_env similar_batch
          (Filters.dedup_start similar_batch))
     = Filters.initial_site_rules
         ++ [((PStr "site1", PStr "site3"), PStr "site3")].
Proof. repeat split; vm_compute; reflexivity. Qed.

(** Below 99 no title is similar: the batch comes back whole. *)
Example clean_duplicates_below_99 :
  Filters.clean_duplicates
    (Filters.mkEnv (fun _ _ => 98) [] [] (fun _ => Some [])) similar_batch
  = similar_batch.
Proof. vm_compute. reflexivity. Qed.


(** On 2024-03-10: the record dated "Mar 06, 2024" goes for its age and
    the record whose title was uploaded on 2024-03-09 goes for that; the
    record dated "Mar 08, 2024", the one without a date and the one dated
    in another format stay. *)
Example clean_older_than_3_days_run :
  strptime_date "Mar 06, 2024" = Some (date_of noon - 4)
  /\ strptime_date "Mar 08, 2024" = Some (date_of noon - 2)
  /\ strptime_date "2024-03-01" = None
  /\ Filters.clean_older_than_3_days history_env noon aged_batch
     = Ok [record_recent; record_undated; record_misdated].
Proof. repeat split; vm_compute; reflexivity. Qed.

(** The two limits.  A record dated three days before today stays, one
    dated four days before goes; a title similar at 89 to an uploaded one
    stays, at 90 it goes. *)
Example clean_older_than_3_days_limits :
  Filters.clean_older_than_3_days plain_env noon
    [scraped "site1" "QQQ" "https://x/3" (PStr "Mar 07, 2024");
     scraped "site1" "ZZZ" "https://x/4" (PStr "Mar 06, 2024")]
  = Ok [scraped "site1" "QQQ" "https://x/3" (PStr "Mar 07, 2024")]
  /\ Filters.clean_older_than_3_days
       (Filters.mkEnv (fun _ _ => 89) [] []
                      (fun day => Some (seen_history day)))
       noon [record_recent]
     = Ok [record_recent]
  /\ Filters.clean_older_than_3_days
       (Filters.mkEnv (fun _ _ => 90) [] []
                      (fun day => Some (seen_history day)))
       noon [record_recent]
     = Ok [].
Proof. repeat split; vm_compute; reflexivity. Qed.

(** The history of the sixth day before today is not read. *)
Example clean_older_than_3_days_five_days :
  Filters.clean_older_than_3_days
    (Filters.mkEnv exact_ratio [] []
       (fun day => if day =? date_of noon - 6 then Some [uploaded_seen]
                   else Some []))
    noon [record_seen]
  = Ok [record_seen]
  /\ Filters.clean_older_than_3_days
       (Filters.mkEnv exact_ratio [] []
          (fun day => if day =? date_of noon - 5 then Some [uploaded_seen]
                      else Some []))
       noon [record_seen]
     = Ok [].
Proof. split; vm_compute; reflexivity. Qed.

(** A date that is absent, [None], empty or in another format is no date. *)
Example parsed_date_absent_or_malformed :
  Filters.parsed_date [("Title", PStr "QQQ")] = None
  /\ Filters.parsed_date [("Date", PNone)] = None
  /\ Filters.parsed_date [("Date", PStr "")] = None
  /\ Filters.parsed_date [("Date", PStr "2024-03-06")] = None
  /\ Filters.parsed_date [("Date", PStr "Feb 30, 2024")] = None.
Proof. repeat split; vm_compute; reflexivity. Qed.


(** C2, as stated, fails: B is dropped by the first call as a duplicate of
    A, so it is not in the filtered store; the second call, with the same
    daily store, takes B as new, finds no duplicate of it in its batch and
    writes it. *)
Lemma apply_filters_second_call_writes :
  Filters.apply_filters plain_env noon
    (Filters.mkStores (Some [record_a; record_b]) (Some []) 0)
  = Ok (Filters.mkStores (Some [record_a; record_b])
                         (Some [with_promo record_a]) 1)
  /\ Filters.apply_filters plain_env noon
       (Filters.mkStores (Some [record_a; record_b])
                         (Some [with_promo record_a]) 1)
     = Ok (Filters.mkStores (Some [record_a; record_b])
             (Some [with_promo record_b; with_promo record_a]) 2).
Proof. split; vm_compute; reflexivity. Qed.

Lemma apply_filters_nothing_new_witness :
  exists s',
    Filters.apply_filters plain_env noon
      (Filters.mkStores (Some [record_a]) (Some [with_promo record_a]) 1)
    = Ok s'
    /\ Filters.filtered s'
       = Filters.filtered
           (Filters.mkStores (Some [record_a]) (Some [with_promo record_a]) 1)
    /\ Filters.writes s'
       = Filters.writes
           (Filters.mkStores (Some [record_a]) (Some [with_promo record_a]) 1)
    /\ Filters.apply_filters plain_env noon s' = Ok s'.
Proof.
  apply (apply_filters_nothing_new plain_env noon
           (Filters.mkStores (Some [record_a]) (Some [with_promo record_a]) 1)
           [record_a] [with_promo record_a]).
  - reflexivity.
  - reflexivity.
  - intros item [<- | []]. left. reflexivity.
Defined.

End OnScenarios.


(** * Further properties of the scheduler *)

Section SchedulerRoundTrip.

Import Sched.

(** Persist, then restore: [from_dict] gives back the job [to_dict] wrote,
    with its id, unit, schedule, [last_run], [next_run] and action, an
    empty [at_time] turned into [None], and no scheduler attached. *)
Theorem from_dict_to_dict (e : env) (now : Z) (j : Job) (f : action)
    (t : Z) :
  job_func j = Some f ->
  next_run j = Some t ->
  importable e (act_module f) (act_name f) = true ->
  exists d,
    to_dict j = Ok d
    /\ from_dict e now d
       = Ok (mkJob (job_id j) (interval j) (job_unit j) (Some f)
                   (if str_truthy (at_time j) then at_time j else None)
                   (day_of_week j) (last_run j) (Some t) false).
Proof.
  intros Hf Hn Hi. unfold to_dict. rewrite Hf. eexists. split; [reflexivity | ].
  unfold from_dict. cbn [d_action_module d_action_name d_next_run d_interval
                         d_id d_unit d_at_time d_day_of_week d_last_run
                         d_args d_kwargs].
  rewrite Hi, Hn. cbn [negb bind]. destruct f as [m n a k].
  destruct (last_run j); reflexivity.
Qed.

(** Restore, then persist: a record that has a [next_run] and whose
    [at_time] is not the empty string is written back as it was read. *)
Theorem to_dict_from_dict (e : env) (now : Z) (d : JobData) (job : Job)
    (t : Z) :
  d_next_run d = Some t ->
  d_at_time d <> Some "" ->
  from_dict e now d = Ok job ->
  to_dict job = Ok d.
Proof.
  intros Hn Ha. unfold from_dict.
  destruct (importable e (d_action_module d) (d_action_name d));
    cbn [negb]; [ | discriminate].
  rewrite Hn. cbn [bind]. intros [= <-].
  destruct d as [i iv u a dw lr nr am an ar kw]. cbn in *. subst nr.
  unfold to_dict.
  destruct lr as [l | ]; destruct a as [[ | c s] | ]; cbn;
    try reflexivity; exfalso; apply Ha; reflexivity.
Qed.

(** Whatever [do] registers, fresh or restored, is a job with a string id,
    an action and a next run: [to_dict] and [run] do not fail on it for
    want of one. *)
Theorem do_registers_runnable (e : env) (now : Z) (f : state_file)
    (jobs jobs' : list Job) (self : Job) (job_func0 : action) :
  do e now f jobs self job_func0 = Ok jobs' ->
  exists job,
    jobs' = jobs ++ [job]
    /\ is_str (job_id job) = true
    /\ job_func job <> None
    /\ next_run job <> None.
Proof.
  unfold do.
  destruct (calculate_next_run now (set_job_func (Some job_func0) self))
    as [self1 | ] eqn:Ec; [ | discriminate].
  cbn [bind]. apply calculate_next_run_shape in Ec as [t ->].
  cbn [has_scheduler set_next_run set_job_func job_id].
  destruct (has_scheduler self); cbn [negb]; [ | discriminate].
  destruct (job_id self) as [ | jid | ] eqn:Eid; try discriminate.
  destruct (load_job_data jid f) as [data | ] eqn:El.
  - destruct (from_dict e now data) as [job | ] eqn:Ef; [ | discriminate].
    cbn [bind]. intros [= <-]. exists job.
    pose proof (load_job_data_id jid f data El) as Hid.
    unfold from_dict in Ef.
    destruct (importable e (d_action_module data) (d_action_name data));
      cbn [negb] in Ef; [ | discriminate].
    destruct (d_next_run data) as [t' | ].
    + cbn [bind] in Ef. injection Ef as <-.
      destruct (d_last_run data); cbn; rewrite Hid;
        repeat split; try reflexivity; discriminate.
    + destruct (calculate_next_run now _) as [job1 | ] eqn:Ec;
        [ | discriminate].
      cbn [bind] in Ef. injection Ef as <-.
      apply calculate_next_run_shape in Ec as [t' ->].
      destruct (d_last_run data); cbn; rewrite Hid;
        repeat split; try reflexivity; discriminate.
  - intros [= <-]. eexists. split; [reflexivity | ]. cbn. rewrite Eid.
    repeat split; try reflexivity; discriminate.
Qed.

(** The builder offers [seconds] and [minutes], but [do] on a job with
    either unit always raises: [calculate_next_run] knows 'days', 'weeks'
    and 'hours' only. *)
Theorem seconds_minutes_not_scheduled :
  forall (e : env) (now : Z) (f : state_file) (jobs : list Job) (j : Job)
         (job_func0 : action),
    do e now f jobs (seconds j) job_func0
    = Raise (ValueError "Unsupported unit")
    /\ do e now f jobs (minutes j) job_func0
       = Raise (ValueError "Unsupported unit").
Proof. intros. split; reflexivity. Qed.

End SchedulerRoundTrip.

Section SweepMore.

Import Sched.

Variable e : env.
Variable now : Z.

Lemma sweep_nothing_due (todo : list Job) :
  forall done later w tr,
    Forall (fun job => due now job = false) todo ->
    sweep e now done todo later w tr
    = Swept (mkState (done ++ todo ++ later) w tr).
Proof.
  induction todo as [ | job rest IH]; intros done later w tr H;
    [reflexivity | ].
  inversion H as [ | ? ? Hd Hr]; subst. cbn [sweep]. rewrite Hd.
  rewrite IH by exact Hr. rewrite <- app_assoc. reflexivity.
Qed.

(** A sweep in which no job is due calls no action, writes nothing and
    leaves the scheduler as it was. *)
Theorem run_pending_nothing_due (s : sched_state) :
  Forall (fun job => due now job = false) (jobs s) ->
  run_pending e now s = Swept s.
Proof.
  intros H. unfold run_pending. rewrite sweep_nothing_due by exact H.
  cbn [app]. rewrite app_nil_r. destruct s. reflexivity.
Qed.

Lemma run_keeps_id (j j' : Job) (o : option exn) :
  run e now j = (j', o) -> job_id j' = job_id j.
Proof.
  unfold run. destruct (job_func j) as [f | ]; [ | intros [= <- _]; reflexivity].
  destruct (call e f); [intros [= <- _]; reflexivity | ].
  destruct (calculate_next_run now _) as [j2 | ] eqn:Ec.
  - apply calculate_next_run_shape in Ec as [t ->].
    intros [= <- _]. reflexivity.
  - intros [= <- _]. reflexivity.
Qed.

Lemma ids_with_replaced (done rest later : list Job) (job job' : Job) :
  job_id job' = job_id job ->
  map job_id (done ++ job' :: rest ++ later)
  = map job_id (done ++ (job :: rest) ++ later).
Proof.
  intros H. rewrite !map_app. cbn [map app]. rewrite H, map_app. reflexivity.
Qed.

Lemma sweep_keeps_ids (todo : list Job) :
  forall done later w tr l,
    final_jobs (sweep e now done todo later w tr) = Some l ->
    map job_id l = map job_id (done ++ todo ++ later).
Proof.
  induction todo as [ | job rest IH]; intros done later w tr l; cbn [sweep].
  - intros [= <-]. reflexivity.
  - destruct (due now job).
    + destruct (run e now job) as [job' [err | ]] eqn:Er;
        pose proof (run_keeps_id _ _ _ Er) as Hid.
      * intros [= <-]. apply ids_with_replaced, Hid.
      * destruct (save_data _ w) as [w' | err w' | ].
        -- intros H. rewrite (IH _ _ _ _ _ H), <- app_assoc. cbn [app].
           apply ids_with_replaced, Hid.
        -- intros [= <-]. apply ids_with_replaced, Hid.
        -- discriminate.
    + intros H. rewrite (IH _ _ _ _ _ H), <- app_assoc. reflexivity.
Qed.

(** However a sweep ends, with all jobs visited or with an exception, the
    scheduler holds the same jobs, by id and in the same order: a sweep
    neither drops, adds nor reorders jobs. *)
Theorem run_pending_keeps_ids (s : sched_state) (l : list Job) :
  final_jobs (run_pending e now s) = Some l ->
  map job_id l = map job_id (jobs s).
Proof.
  intros H. unfold run_pending in H. apply sweep_keeps_ids in H.
  rewrite H. cbn [app]. rewrite app_nil_r. reflexivity.
Qed.

(** An hourly job whose action returns is stamped with the clock and set
    for [interval] hours later; until then it is not due. *)
Theorem run_hours_reschedules (j : Job) (f : action) :
  job_unit j = UnitName "hours" ->
  job_func j = Some f ->
  call e f = None ->
  1 <= interval j ->
  run e now j
  = (set_next_run (Some (now + interval j * 3600))
                  (set_last_run (Some now) j), None)
  /\ (forall now', now' < now + interval j * 3600 ->
                   due now'
                       (set_next_run (Some (now + interval j * 3600))
                                     (set_last_run (Some now) j)) = false).
Proof.
  intros Hu Hf Hc Hi. split.
  - unfold run. rewrite Hf, Hc. unfold calculate_next_run.
    cbn [job_unit set_last_run]. rewrite Hu. cbn [String.eqb Ascii.eqb].
    cbn. unfold next_run_hours. cbn [last_run interval bind].
    rewrite combine_date_time. unfold current_datetime, hour_seconds.
    destruct (Z.leb_spec (now + interval j * 3600) now); [lia | reflexivity].
  - intros now' H. unfold due, current_datetime. cbn [next_run set_next_run].
    apply Z.leb_gt. exact H.
Qed.

(** A weekly job that runs on the weekday it is set for gets the clock
    reading itself as its next run: it is due again at every later sweep
    of that moment or after. *)
Theorem run_weeks_same_day_due_again (j : Job) (f : action) (d : Z) :
  job_unit j = UnitName "weeks" ->
  job_func j = Some f ->
  call e f = None ->
  resolve_day_of_week (day_of_week j) = Ok d ->
  (d - weekday now) mod 7 = 0 ->
  run e now j
  = (set_next_run (Some now) (set_last_run (Some now) j), None)
  /\ (forall now', now <= now' ->
                   due now' (set_next_run (Some now)
                                          (set_last_run (Some now) j)) = true).
Proof.
  intros Hu Hf Hc Hd Hm. split.
  - unfold run. rewrite Hf, Hc. unfold calculate_next_run.
    cbn [job_unit set_last_run]. rewrite Hu. cbn [String.eqb Ascii.eqb].
    cbn.
    rewrite (next_run_weeks_value now _ d) by exact Hd.
    cbn [bind]. rewrite Hm. do 2 f_equal. f_equal. lia.
  - intros now' H. unfold due, current_datetime. cbn [next_run set_next_run].
    apply Z.leb_le. exact H.
Qed.

End SweepMore.

Section WeeksAndDays.

Import Sched.

Lemma date_of_shift (t k : Z) : date_of (t + k * 86400) = date_of t + k.
Proof. unfold date_of, day_seconds. apply Z.div_add. lia. Qed.

Lemma time_of_shift (t k : Z) : time_of (t + k * 86400) = time_of t.
Proof. unfold time_of, day_seconds. apply Z.mod_add. lia. Qed.

(** For 'weeks', the next run falls on the weekday asked for (an integer
    is taken modulo 7, Monday being 0), at the time of day of the clock,
    today or within the six days after. *)
Theorem next_run_weeks_weekday (now : Z) (j : Job) (d : Z) :
  resolve_day_of_week (day_of_week j) = Ok d ->
  exists t,
    next_run_weeks now j = Ok t
    /\ weekday t = d mod 7
    /\ time_of t = time_of now
    /\ now <= t <= now + 6 * 86400.
Proof.
  intros Hd. rewrite (next_run_weeks_value now j d Hd).
  eexists. split; [reflexivity | ].
  pose proof (Z.mod_pos_bound (d - weekday now) 7) as Hk.
  split; [ | split; [apply time_of_shift | lia]].
  unfold weekday at 1. rewrite date_of_shift. unfold weekday.
  set (a := date_of now + 3).
  replace (date_of now + (d - a mod 7) mod 7 + 3)
    with (a + (d - a mod 7) mod 7) by (unfold a; lia).
  rewrite Z.add_mod_idemp_r by lia.
  replace (a + (d - a mod 7)) with (d + (a / 7) * 7)
    by (pose proof (Z.div_mod a 7); lia).
  apply Z.mod_add. lia.
Qed.

Lemma index_of_range (x : string) (l : list string) (k : Z) :
  index_of x l = Some k -> 0 <= k < Z.of_nat (List.length l).
Proof.
  revert k. induction l as [ | y l IH]; intros k; cbn [index_of];
    [discriminate | ].
  destruct (String.eqb x y).
  - intros [= <-]. cbn [List.length]. lia.
  - destruct (index_of x l) as [k' | ]; [ | discriminate].
    cbn. intros [= <-]. specialize (IH k' eq_refl). cbn [List.length]. lia.
Qed.

(** [on] takes a weekday name in any letter case, which stands for its
    index with Monday as 0, and any integer, which counts modulo 7: the
    next run is the same for a name and its index, and for [d] and
    [d + 7 n]. *)
Theorem day_of_week_names_and_integers (now : Z) (j : Job) :
  (forall s k,
      index_of (lower s) weekdays = Some k ->
      0 <= k <= 6
      /\ next_run_weeks now (on (DowName s) j)
         = next_run_weeks now (on (DowInt k) j))
  /\ (forall d n,
         next_run_weeks now (on (DowInt (d + 7 * n)) j)
         = next_run_weeks now (on (DowInt d) j)).
Proof.
  split.
  - intros s k H. split.
    + apply index_of_range in H. cbn in H. lia.
    + unfold next_run_weeks. cbn [day_of_week on set_day_of_week
                                   resolve_day_of_week].
      rewrite H. reflexivity.
  - intros d n. unfold next_run_weeks.
    cbn [day_of_week on set_day_of_week resolve_day_of_week bind interval].
    replace (d + 7 * n - weekday (current_datetime now))
      with (d - weekday (current_datetime now) + n * 7) by lia.
    rewrite Z.mod_add by lia. reflexivity.
Qed.

(** A daily job whose action returns after [at_time] is stamped with the
    clock and set for [at_time] on the day [interval] days later. *)
Theorem run_days_reschedules (e : env) (now : Z) (j : Job) (f : action)
    (s : string) (rt : Z) :
  job_unit j = UnitName "days" ->
  job_func j = Some f ->
  call e f = None ->
  at_time j = Some s ->
  strptime_HM s = Some rt ->
  combine (date_of now) rt < now ->
  run e now j
  = (set_next_run (Some (combine (date_of now + interval j) rt))
                  (set_last_run (Some now) j), None)
  /\ date_of (combine (date_of now + interval j) rt)
     = date_of now + interval j
  /\ time_of (combine (date_of now + interval j) rt) = rt.
Proof.
  intros Hu Hf Hc Ha Hp Hlt.
  pose proof (strptime_HM_range s rt Hp) as Hr. split; [ | split].
  - unfold run. rewrite Hf, Hc. unfold calculate_next_run.
    cbn [job_unit set_last_run]. rewrite Hu. cbn [String.eqb Ascii.eqb].
    cbn.
    rewrite (next_run_days_at now _ s rt) by assumption.
    cbn [last_run interval bind]. unfold current_datetime.
    rewrite Z.gtb_ltb. destruct (Z.ltb_spec (combine (date_of now) rt) now);
      [ | lia].
    assert (E : combine (date_of now) rt + interval j * 86400
                = combine (date_of now + interval j) rt)
      by (unfold combine, day_seconds; lia).
    unfold set_next_run, set_last_run. cbn. rewrite E. reflexivity.
  - unfold combine, date_of, day_seconds.
    rewrite Z.add_comm, Z.div_add by lia. rewrite Z.div_small by lia. lia.
  - unfold combine, time_of, day_seconds.
    rewrite Z.add_comm, Z.mod_add by lia. apply Z.mod_small. lia.
Qed.

End WeeksAndDays.

Section SaveAndRestart.

Import Sched.

Lemma find_by_id (k : id_val) (m : list (id_val * JobData)) :
  (forall k' v, In (k', v) m -> k' = d_id v) ->
  find (fun d => id_eqb (d_id d) k) (PyDict.values m)
  = PyDict.get id_eqb k m.
Proof.
  induction m as [ | [k0 v0] m IH]; intros H; cbn; [reflexivity | ].
  rewrite <- (H k0 v0) by (left; reflexivity).
  destruct (id_eqb k0 k); [reflexivity | ].
  apply IH. intros k' v Hin. apply H. right. exact Hin.
Qed.

Lemma save_then_find (jobs : list Job) (f : state_file)
    (attempts : list attempt) (w' : world) (j : Job) (jid : string) :
  save_data jobs (mkWorld f attempts) = Saved w' ->
  In j jobs ->
  job_id j = IdStr jid ->
  exists j' d,
    In j' jobs /\ job_id j' = IdStr jid /\ to_dict j' = Ok d
    /\ load_job_data jid (file w') = Some d.
Proof.
  intros Hs Hj Hid. unfold save_data in Hs.
  destruct (to_dicts jobs) as [ds | ] eqn:Hd; [ | discriminate].
  cbn [file io] in Hs. apply write_loop_saved in Hs.
  destruct (to_dicts_spec jobs ds Hd) as [Hids Hfrom].
  rewrite Hs. cbn [load_job_data].
  unfold merged_jobs, existing_jobs_dict, PyDict.of_items.
  set (E := PyDict.update id_eqb (by_id (existing_jobs f)) []).
  set (U := PyDict.update id_eqb (by_id ds) []).
  assert (HU : forall k v, In (k, v) U -> In (k, v) (by_id ds)).
  { intros k v H. apply (in_update id_eqb id_eqb_eq) in H as [[] | H].
    exact H. }
  assert (HE : forall k v,
             In (k, v) E -> In (k, v) (by_id (existing_jobs f))).
  { intros k v H. apply (in_update id_eqb id_eqb_eq) in H as [[] | H].
    exact H. }
  rewrite find_by_id.
  - assert (Hk : In (IdStr jid) (map fst U)).
    { change (map fst U) with (PyDict.keys U). unfold U.
      rewrite (in_keys_update id_eqb id_eqb_eq), by_id_keys, Hids.
      right. rewrite <- Hid. apply in_map. exact Hj. }
    destruct (get_update_present id_eqb id_eqb_eq _ _ E Hk) as (v & Hv & Hg).
    apply HU, in_by_id in Hv as [Hkv Hv].
    destruct (Hfrom v Hv) as (j' & Hj' & Ht).
    exists j', v. repeat split; try assumption.
    rewrite <- (to_dict_id j' v Ht). symmetry. exact Hkv.
  - intros k v H. apply (in_update id_eqb id_eqb_eq) in H as [H | H].
    + apply HE, in_by_id in H. tauto.
    + apply HU, in_by_id in H. tauto.
Qed.

(** Save, then look up: once [save_data] has written, [load_job_data]
    finds under the id of every in-memory job the dictionary of an
    in-memory job with that id, whatever the file held before. *)
Theorem save_data_then_load_job_data (jobs : list Job) (f : state_file)
    (attempts : list attempt) (w' : world) (j : Job) (jid : string) :
  save_data jobs (mkWorld f attempts) = Saved w' ->
  In j jobs ->
  job_id j = IdStr jid ->
  exists j' d,
    In j' jobs /\ job_id j' = IdStr jid /\ to_dict j' = Ok d
    /\ load_job_data jid (file w') = Some d.
Proof. exact (save_then_find jobs f attempts w' j jid). Qed.

Lemma from_dict_restores (e : env) (now : Z) (j : Job) (d : JobData) :
  restorable e j -> to_dict j = Ok d -> from_dict e now d = Ok (restored j).
Proof.
  intros [Hn Hi]. unfold to_dict.
  destruct (job_func j) as [a | ] eqn:Hf; [ | discriminate].
  intros [= <-]. specialize (Hi a eq_refl).
  unfold from_dict, restored.
  cbn [d_action_module d_action_name d_next_run d_interval d_id d_unit
       d_at_time d_day_of_week d_last_run d_args d_kwargs].
  rewrite Hi, Hf. destruct (next_run j) as [t | ]; [ | contradiction].
  cbn [negb bind]. destruct a as [m n ar kw].
  destruct (last_run j); reflexivity.
Qed.

(** Save, then restart: after a save, [do] on a fresh job with the id of an
    in-memory job registers that job as it was in memory, with its
    [last_run] and [next_run], and not the fresh one. *)
Theorem restart_restores_saved_job (e : env) (now : Z) (jobs : list Job)
    (f : state_file) (attempts : list attempt) (w' : world) (j : Job)
    (jid : string) (registered : list Job) (self self' : Job)
    (job_func0 : action) :
  save_data jobs (mkWorld f attempts) = Saved w' ->
  In j jobs ->
  job_id j = IdStr jid ->
  Forall (restorable e) jobs ->
  job_id self = IdStr jid ->
  has_scheduler self = true ->
  calculate_next_run now (set_job_func (Some job_func0) self) = Ok self' ->
  exists j',
    In j' jobs /\ job_id j' = IdStr jid
    /\ do e now (file w') registered self job_func0
       = Ok (registered ++ [restored j']).
Proof.
  intros Hs Hj Hid Hr Hsid Hsch Hc.
  destruct (save_then_find jobs f attempts w' j jid Hs Hj Hid)
    as (j' & d & Hj' & Hid' & Ht & Hl).
  exists j'. repeat split; try assumption.
  rewrite Forall_forall in Hr.
  unfold do. rewrite Hc. cbn [bind].
  apply calculate_next_run_shape in Hc as [t ->].
  cbn [has_scheduler set_next_run set_job_func job_id].
  rewrite Hsch, Hsid. cbn [negb]. rewrite Hl.
  rewrite (from_dict_restores e now j' d (Hr j' Hj') Ht). reflexivity.
Qed.

End SaveAndRestart.


(** * Further properties of the record store *)

Section WriteJsonMore.

Lemma upsert_length (data : list record) (n : record) :
  (List.length data <= List.length (upsert data n) <= S (List.length data))%nat.
Proof.
  destruct (upsert_cases data n)
    as [(pre & stored & post & -> & _ & _ & ->) | [_ ->]].
  - rewrite !length_app. cbn. lia.
  - cbn. lia.
Qed.

(** [write_json] never shortens the store, and lengthens it by at most the
    number of records it is given. *)
Theorem write_json_length (new_data data : list record) :
  (List.length data
   <= List.length (write_json (Records new_data) data)
   <= List.length data + List.length new_data)%nat.
Proof.
  unfold write_json. cbn [as_list]. revert data.
  induction new_data as [ | n new_data IH]; intros data; cbn [fold_left].
  - cbn. lia.
  - specialize (IH (upsert data n)). pose proof (upsert_length data n).
    cbn [List.length]. lia.
Qed.

Lemma upsert_keeps_unmatched (data : list record) (n r : record) :
  In r data -> same_key r n = false -> In r (upsert data n).
Proof.
  intros Hin Hk.
  destruct (upsert_cases data n)
    as [(pre & stored & post & -> & _ & Hs & ->) | [_ ->]].
  - apply in_app_or in Hin as [Hin | [<- | Hin]].
    + apply in_or_app. left. exact Hin.
    + congruence.
    + apply in_or_app. right. right. exact Hin.
  - right. exact Hin.
Qed.

Lemma write_keeps_unmatched (new_data : list record) :
  forall data r,
    In r data ->
    (forall n, In n new_data -> same_key r n = false) ->
    In r (fold_left upsert new_data data).
Proof.
  induction new_data as [ | n new_data IH]; intros data r Hin H;
    [exact Hin | ].
  cbn [fold_left]. apply IH.
  - apply upsert_keeps_unmatched; [exact Hin | apply H; left; reflexivity].
  - intros m Hm. apply H. right. exact Hm.
Qed.

(** [write_json] leaves in the store every stored record whose key (its
    link when it has one, its title otherwise) is that of none of the new
    records. *)
Theorem write_json_keeps_unmatched (new_data data : list record)
    (r : record) :
  In r data ->
  (forall n, In n new_data -> same_key r n = false) ->
  In r (write_json (Records new_data) data).
Proof. apply write_keeps_unmatched. Qed.

Lemma same_link_same_record (data : list record) (a b : record) :
  NoDup (links data) -> In a data -> In b data ->
  rget link_key a = rget link_key b -> a = b.
Proof.
  induction data as [ | r data IH]; cbn; [tauto | ].
  intros Hn. inversion Hn as [ | ? ? Hk Hn']; subst.
  assert (Hnot : forall x, In x data -> rget link_key x <> rget link_key r).
  { intros x Hx E. apply Hk. rewrite <- E. apply in_map. exact Hx. }
  intros [<- | Ha] [<- | Hb] E.
  - reflexivity.
  - destruct (Hnot _ Hb). symmetry. exact E.
  - destruct (Hnot _ Ha). exact E.
  - exact (IH Hn' Ha Hb E).
Qed.

Lemma same_key_self (n : record) : has_link n -> same_key n n = true.
Proof.
  intros H. unfold same_key. unfold has_link in H. rewrite H.
  apply pyval_eqb_eq. reflexivity.
Qed.

Lemma upsert_present (data : list record) (n : record) :
  Forall has_link data -> NoDup (links data) -> has_link n -> In n data ->
  upsert data n = data.
Proof.
  intros Hd Hn Hl Hin.
  destruct (upsert_cases data n)
    as [(pre & stored & post & E & _ & Hs & ->) | [Hm _]].
  - subst data. assert (Hst : has_link stored).
    { rewrite Forall_forall in Hd. apply Hd, in_elt. }
    unfold same_key in Hs. unfold has_link in Hst. rewrite Hst in Hs.
    apply pyval_eqb_eq in Hs.
    rewrite (same_link_same_record _ n stored Hn Hin (in_elt _ _ _));
      [reflexivity | symmetry; exact Hs].
  - unfold no_match in Hm. rewrite Forall_forall in Hm.
    specialize (Hm n Hin). rewrite (same_key_self n Hl) in Hm. discriminate.
Qed.

Lemma upsert_self (data : list record) (n : record) : In n (upsert data n).
Proof.
  destruct (upsert_cases data n)
    as [(pre & stored & post & _ & _ & _ & ->) | [_ ->]].
  - apply in_elt.
  - left. reflexivity.
Qed.

Lemma write_keeps_links (new_data : list record) :
  forall data,
    Forall has_link data -> Forall has_link new_data -> NoDup (links data) ->
    Forall has_link (fold_left upsert new_data data)
    /\ NoDup (links (fold_left upsert new_data data)).
Proof.
  induction new_data as [ | n new_data IH]; intros data Hd Hn Hnd.
  - split; assumption.
  - inversion Hn as [ | ? ? Hn1 Hn2]; subst. cbn [fold_left].
    destruct (upsert_keeps_links data n Hd Hn1 Hnd) as [H1 H2].
    apply IH; assumption.
Qed.

Lemma written_records_present (new_data : list record) :
  forall data n,
    Forall has_link new_data -> NoDup (links new_data) -> In n new_data ->
    In n (fold_left upsert new_data data).
Proof.
  induction new_data as [ | m new_data IH]; intros data n Hl Hn Hin;
    [destruct Hin | ].
  inversion Hl as [ | ? ? Hm Hl']; subst.
  inversion Hn as [ | ? ? Hk Hn']; subst. cbn [fold_left].
  destruct Hin as [<- | Hin]; [ | apply IH; assumption].
  apply write_keeps_unmatched; [apply upsert_self | ].
  intros x Hx. unfold same_key. unfold has_link in Hm. rewrite Hm.
  destruct (pyval_eqb (rget link_key m) (rget link_key x)) eqn:E;
    [ | reflexivity].
  apply pyval_eqb_eq in E. exfalso. apply Hk. unfold links in *.
  cbn [map]. rewrite E. apply in_map. exact Hx.
Qed.

Lemma write_present (new_data : list record) :
  forall data,
    Forall has_link data -> NoDup (links data) -> Forall has_link new_data ->
    (forall n, In n new_data -> In n data) ->
    fold_left upsert new_data data = data.
Proof.
  induction new_data as [ | n new_data IH]; intros data Hd Hn Hl Hin;
    [reflexivity | ].
  inversion Hl as [ | ? ? Hl1 Hl2]; subst. cbn [fold_left].
  rewrite upsert_present; try assumption.
  - apply IH; try assumption. intros x Hx. apply Hin. right. exact Hx.
  - apply Hin. left. reflexivity.
Qed.

(** On a store keyed by link (every stored and every new record has a
    non-empty link, stored links distinct, new links distinct), writing the
    same records a second time changes nothing. *)
Theorem write_json_twice (new_data data : list record) :
  Forall has_link data -> NoDup (links data) ->
  Forall has_link new_data -> NoDup (links new_data) ->
  write_json (Records new_data)
             (write_json (Records new_data) data)
  = write_json (Records new_data) data.
Proof.
  intros Hd Hn Hl Hnl. unfold write_json. cbn [as_list].
  destruct (write_keeps_links new_data data Hd Hl Hn) as [H1 H2].
  apply write_present; try assumption.
  intros n Hin. apply written_records_present; assumption.
Qed.

End WriteJsonMore.

Section LockJson.

Import Locks.

Lemma below_five (P : nat -> Prop) :
  P 0%nat -> P 1%nat -> P 2%nat -> P 3%nat -> P 4%nat ->
  forall i, (i < 5)%nat -> P i.
Proof.
  intros H0 H1 H2 H3 H4 i Hi.
  destruct i as [ | [ | [ | [ | [ | i]]]]]; try assumption. lia.
Qed.

Lemma lock_json_cases {R : Type} (acquired : nat -> bool) (operation : R) :
  (exists k,
      (k < 5)%nat /\ acquired k = true
      /\ (forall i, (i < k)%nat -> acquired i = false)
      /\ lock_json acquired operation = (Some operation, k))
  \/ ((forall i, (i < 5)%nat -> acquired i = false)
      /\ lock_json acquired operation = (None, 5%nat)).
Proof.
  unfold lock_json. cbn [lock_loop].
  destruct (acquired 0%nat) eqn:E0.
  { left. exists 0%nat. repeat split; try assumption; intros; lia. }
  destruct (acquired 1%nat) eqn:E1.
  { left. exists 1%nat. repeat split; try assumption; try lia.
    intros [ | i] Hi; [assumption | lia]. }
  destruct (acquired 2%nat) eqn:E2.
  { left. exists 2%nat. repeat split; try assumption; try lia.
    intros [ | [ | i]] Hi; try assumption. lia. }
  destruct (acquired 3%nat) eqn:E3.
  { left. exists 3%nat. repeat split; try assumption; try lia.
    intros [ | [ | [ | i]]] Hi; try assumption. lia. }
  destruct (acquired 4%nat) eqn:E4.
  { left. exists 4%nat. repeat split; try assumption; try lia.
    intros [ | [ | [ | [ | i]]]] Hi; try assumption. lia. }
  right. split; [ | reflexivity]. apply below_five; assumption.
Qed.

(** [lock_json] tries the lock five times at most.  The operation runs
    once, at the first attempt that gets the lock, after one sleep for each
    attempt that timed out; after five time-outs it has not run and
    [lock_json] returns [None]. *)
Theorem lock_json_bounded_retry :
  forall (R : Type) (acquired : nat -> bool) (operation : R),
    (exists k,
        (k < 5)%nat /\ acquired k = true
        /\ (forall i, (i < k)%nat -> acquired i = false)
        /\ lock_json acquired operation = (Some operation, k))
    \/ ((forall i, (i < 5)%nat -> acquired i = false)
        /\ lock_json acquired operation = (None, 5%nat)).
Proof. intros. apply lock_json_cases. Qed.

(** [save_scraped_data] writes each of its two stores exactly when the
    lock of that store is obtained within five attempts; a store whose
    lock keeps timing out is left as it was, and no error is raised. *)
Theorem save_scraped_data_needs_locks (daily_lock site_lock : nat -> bool)
    (data daily site : list record) :
  fst (save_scraped_data daily_lock site_lock data daily site)
  = (if existsb daily_lock (seq 0 5)
     then write_json (Records data) daily else daily)
  /\ snd (save_scraped_data daily_lock site_lock data daily site)
     = (if existsb site_lock (seq 0 5)
        then write_json (Records data) site else site).
Proof.
  unfold save_scraped_data, lock_json. cbn [fst snd lock_loop seq existsb].
  split.
  - destruct (daily_lock 0%nat), (daily_lock 1%nat), (daily_lock 2%nat),
      (daily_lock 3%nat), (daily_lock 4%nat); reflexivity.
  - destruct (site_lock 0%nat), (site_lock 1%nat), (site_lock 2%nat),
      (site_lock 3%nat), (site_lock 4%nat); reflexivity.
Qed.

End LockJson.


(** * Further properties of the filters *)

Section Provenance.

Import Filters.

Lemma rget_rset_other (k k' : string) (v : pyval) (r : record) :
  k <> k' -> rget k (rset k' v r) = rget k r.
Proof.
  intros H. unfold rget, rset.
  rewrite (get_set_other String.eqb String.eqb_eq) by exact H. reflexivity.
Qed.

Lemma rget_rset_same (k : string) (v : pyval) (r : record) :
  rget k (rset k v r) = v.
Proof.
  unfold rget, rset. rewrite (get_set_same String.eqb String.eqb_eq).
  reflexivity.
Qed.

Lemma keeps_refl (r : record) : keeps r r.
Proof. unfold keeps. tauto. Qed.

Lemma keeps_trans (a b c : record) : keeps a b -> keeps b c -> keeps a c.
Proof.
  unfold keeps. intros (A1 & A2 & A3 & A4 & A5) (B1 & B2 & B3 & B4 & B5).
  repeat split; try congruence. auto.
Qed.

Lemma keeps_rset_title (t : string) (r : record) :
  keeps r (rset "Title" (PStr t) r).
Proof.
  unfold keeps. rewrite !rget_rset_other by discriminate.
  rewrite rget_rset_same. repeat split; try reflexivity. discriminate.
Qed.

Lemma keeps_rset_models (v : pyval) (r : record) :
  keeps r (rset "Models" v r).
Proof.
  unfold keeps. rewrite !rget_rset_other by discriminate. tauto.
Qed.

Lemma keeps_rset_promo (v : pyval) (r : record) :
  keeps r (rset "Link for promo" v r).
Proof.
  unfold keeps. rewrite !rget_rset_other by discriminate. tauto.
Qed.

Lemma derived_refl (data : list record) : derived data data.
Proof.
  split; [lia | ]. apply Forall_forall. intros r H. exists r.
  split; [exact H | apply keeps_refl].
Qed.

Lemma derived_trans (a b c : list record) :
  derived a b -> derived b c -> derived a c.
Proof.
  intros [L1 F1] [L2 F2]. split; [lia | ].
  rewrite Forall_forall in *. intros r3 H3.
  destruct (F2 r3 H3) as (r2 & H2 & K2).
  destruct (F1 r2 H2) as (r1 & H1 & K1).
  exists r1. split; [exact H1 | exact (keeps_trans _ _ _ K1 K2)].
Qed.

Lemma derived_incl (data out : list record) :
  (List.length out <= List.length data)%nat -> incl out data ->
  derived data out.
Proof.
  intros L H. split; [exact L | ]. apply Forall_forall. intros r Hr.
  exists r. split; [apply H; exact Hr | apply keeps_refl].
Qed.

Lemma derived_filter (p : record -> bool) (data : list record) :
  derived data (filter p data).
Proof.
  apply derived_incl; [apply filter_length_le | apply incl_filter].
Qed.

Lemma select_incl (flags : list bool) :
  forall data, incl (select flags data) data
               /\ (List.length (select flags data) <= List.length data)%nat.
Proof.
  induction flags as [ | b flags IH]; intros [ | r data]; cbn;
    try (split; [apply incl_nil_l | lia]).
  destruct (IH data) as [Hi Hl]. destruct b; cbn.
  - split; [ | lia]. intros x [<- | Hx]; [left; reflexivity | ].
    right. apply Hi, Hx.
  - split; [ | lia]. intros x Hx. right. apply Hi, Hx.
Qed.

Lemma derived_select (flags : list bool) (data : list record) :
  derived data (select flags data).
Proof.
  destruct (select_incl flags data) as [Hi Hl]. apply derived_incl; assumption.
Qed.

Lemma derived_map (g : record -> record) (data : list record) :
  (forall r, keeps r (g r)) -> derived data (map g data).
Proof.
  intros H. split; [rewrite length_map; lia | ].
  apply Forall_forall. intros r' Hr. apply in_map_iff in Hr as (r & <- & Hr).
  exists r. split; [exact Hr | apply H].
Qed.

Lemma derived_map_result (g : record -> result record) (data : list record) :
  (forall r r', g r = Ok r' -> keeps r r') ->
  forall out, map_result g data = Ok out -> derived data out.
Proof.
  intros H. induction data as [ | r data IH]; intros out; cbn.
  - intros [= <-]. apply derived_refl.
  - destruct (g r) as [r' | ] eqn:Eg; [ | discriminate]. cbn [bind].
    destruct (map_result g data) as [out' | ]; [ | discriminate].
    cbn [bind]. intros [= <-]. destruct (IH out' eq_refl) as [L F].
    split; [cbn; lia | ]. constructor.
    + exists r. split; [left; reflexivity | exact (H _ _ Eg)].
    + eapply Forall_impl; [ | exact F]. cbn. intros x (y & Hy & Ky).
      exists y. split; [right; exact Hy | exact Ky].
Qed.

Lemma derived_for_each {A : Type} (f : A -> list record -> result (list record))
    (l : list A) :
  (forall a data out, f a data = Ok out -> derived data out) ->
  forall data out, for_each f l data = Ok out -> derived data out.
Proof.
  intros H. induction l as [ | a l IH]; intros data out; cbn.
  - intros [= <-]. apply derived_refl.
  - destruct (f a data) as [d1 | ] eqn:E; [ | discriminate]. cbn [bind].
    intros H1. exact (derived_trans _ _ _ (H _ _ _ E) (IH _ _ H1)).
Qed.

Lemma derived_fold {A : Type} (f : list record -> A -> list record)
    (l : list A) :
  (forall a data, derived data (f data a)) ->
  forall data, derived data (fold_left f l data).
Proof.
  intros H. induction l as [ | a l IH]; intros data; cbn.
  - apply derived_refl.
  - exact (derived_trans _ _ _ (H a data) (IH _)).
Qed.

Lemma keeps_retitle (site k v : string) (r r' : record) :
  retitle site k v r = Ok r' -> keeps r r'.
Proof.
  unfold retitle. destruct (pyval_eqb (rget "Site" r) (PStr site));
    [ | intros [= <-]; apply keeps_refl].
  destruct (rget_or_empty "Title" r) as [ | title]; [discriminate | ].
  destruct (contains k title); [ | intros [= <-]; apply keeps_refl].
  destruct (negb (String.eqb (replace k v title) title));
    intros [= <-]; [apply keeps_rset_title | apply keeps_refl].
Qed.

Lemma keeps_remodel (site k v : string) (r : record) :
  keeps r (remodel site k v r).
Proof.
  unfold remodel. destruct (pyval_eqb (rget "Site" r) (PStr site));
    [ | apply keeps_refl].
  destruct (rget_or_empty "Models" r) as [ | m]; [apply keeps_refl | ].
  destruct (negb _); [apply keeps_rset_models | apply keeps_refl].
Qed.

Lemma keeps_strip_periods (r : record) : keeps r (strip_periods r).
Proof.
  unfold strip_periods. destruct (rget "Models" r);
    [apply keeps_refl | apply keeps_rset_models].
Qed.

Lemma derived_stages (e : env) (now : Z) (data out : list record) :
  ordered_filters e now data = Ok out ->
  derived (clean_empty_image (clean_empty_titles data))
          out
  /\ exists before, out = set_promo_links e before.
Proof.
  unfold ordered_filters.
  set (d2 := clean_empty_image (clean_empty_titles data)).
  destruct (containing_words (clean_duplicates e d2)) as [d4 | ] eqn:E4;
    [ | discriminate].
  cbn [bind].
  destruct (model_in_title e (replace_symb_title d4)) as [d6 | ] eqn:E6;
    [ | discriminate].
  cbn [bind].
  destruct (clean_older_than_3_days e now
              (title_equal_models (model_in_models e d6)))
    as [d9 | ] eqn:E9; [ | discriminate].
  cbn [bind]. intros [= <-]. split; [ | exists d9; reflexivity].
  assert (S3 : derived d2 (clean_duplicates e d2))
    by apply derived_select.
  assert (S4 : derived (clean_duplicates e d2) d4).
  { unfold containing_words in E4.
    destruct (map_result _ (clean_duplicates e d2)) as [rows | ];
      [ | discriminate].
    cbn [bind] in E4. injection E4 as <-. apply derived_select. }
  assert (S5 : derived d4 (replace_symb_title d4)).
  { apply derived_map. intros r.
    destruct (PyDict.get String.eqb "Title" r) as [[ | t] | ];
      try apply keeps_refl. apply keeps_rset_title. }
  assert (S6 : derived (replace_symb_title d4) d6).
  { revert E6. unfold model_in_title. apply derived_for_each.
    intros entry d o. apply derived_for_each.
    intros rule d' o'. apply derived_map_result.
    intros r r'. apply keeps_retitle. }
  assert (S7 : derived d6 (model_in_models e d6)).
  { unfold model_in_models.
    eapply derived_trans; [ | apply derived_map; apply keeps_strip_periods].
    apply derived_fold. intros entry d. apply derived_fold.
    intros rule d'. apply derived_map. intros r. apply keeps_remodel. }
  assert (S8 : derived (model_in_models e d6)
                       (title_equal_models (model_in_models e d6))).
  { apply derived_map. intros r. cbv beta zeta.
    destruct (truthy (rget "Title" r) && truthy (rget "Models" r)
              && pyval_eqb (rget "Title" r) (rget "Models" r));
      [apply keeps_rset_title | apply keeps_refl]. }
  assert (S9 : derived (title_equal_models (model_in_models e d6)) d9).
  { unfold clean_older_than_3_days in E9.
    destruct (map_result _ _) as [rows | ]; [ | discriminate].
    cbn [bind] in E9. injection E9 as <-. apply derived_select. }
  assert (S10 : derived d9 (set_promo_links e d9)).
  { apply derived_map. intros r. cbv beta zeta.
    destruct (truthy _); apply keeps_rset_promo. }
  eapply derived_trans; [exact S3 | ]. eapply derived_trans; [exact S4 | ].
  eapply derived_trans; [exact S5 | ]. eapply derived_trans; [exact S6 | ].
  eapply derived_trans; [exact S7 | ]. eapply derived_trans; [exact S8 | ].
  eapply derived_trans; [exact S9 | exact S10].
Qed.

(** [ordered_filters] creates no record.  Every record it returns is made
    of a record of its input that has a title and an image path, with the
    same link, site, image path and date; it has a string as its title and
    carries the key 'Link for promo'. *)
Theorem ordered_filters_provenance (e : env) (now : Z)
    (data out : list record) :
  ordered_filters e now data = Ok out ->
  (List.length out <= List.length data)%nat
  /\ Forall
       (fun r' =>
          (exists r,
              In r data
              /\ rget "Title" r <> PNone
              /\ rget link_key r' = rget link_key r
              /\ rget "Site" r' = rget "Site" r
              /\ rget "Path image" r' = rget "Path image" r
              /\ rget "Date" r' = rget "Date" r)
          /\ (exists t, rget "Title" r' = PStr t)
          /\ rget "Path image" r' <> PNone
          /\ PyDict.mem String.eqb "Link for promo" r' = true) out.
Proof.
  intros H. destruct (derived_stages e now data out H) as [[L F] [d9 ->]].
  assert (L2 : (List.length (clean_empty_image (clean_empty_titles data))
                <= List.length data)%nat).
  { unfold clean_empty_image, clean_empty_titles.
    pose proof (filter_length_le
                  (fun r => negb (is_none (rget "Path image" r)))
                  (filter (fun r => negb (is_none (rget "Title" r))) data)).
    pose proof (filter_length_le
                  (fun r => negb (is_none (rget "Title" r))) data). lia. }
  split; [lia | ].
  rewrite Forall_forall in *. intros r' Hr'.
  destruct (F r' Hr') as (r & Hr & K1 & K2 & K3 & K4 & K5).
  unfold clean_empty_image, clean_empty_titles in Hr.
  apply filter_In in Hr as [Hr Hi]. apply filter_In in Hr as [Hr Ht].
  assert (Ht' : rget "Title" r <> PNone)
    by (destruct (rget "Title" r); [discriminate | discriminate]).
  assert (Hi' : rget "Path image" r <> PNone)
    by (destruct (rget "Path image" r); [discriminate | discriminate]).
  repeat split.
  - exists r. repeat split; assumption.
  - specialize (K5 Ht'). destruct (rget "Title" r') as [ | t];
      [contradiction | exists t; reflexivity].
  - rewrite K3. exact Hi'.
  - apply in_map_iff in Hr' as (r0 & <- & _).
    unfold PyDict.mem, rset.
    destruct (truthy _);
      rewrite (get_set_same String.eqb String.eqb_eq); reflexivity.
Qed.

End Provenance.

Section FilteredStore.

Import Filters.

Lemma upsert_links_incl (data : list record) (n : record) :
  incl (links (upsert data n)) (rget link_key n :: links data).
Proof.
  destruct (upsert_cases data n)
    as [(pre & stored & post & -> & _ & _ & ->) | [_ ->]].
  - unfold links. rewrite !map_app. cbn [map]. intros k Hk.
    apply in_app_or in Hk as [Hk | [<- | Hk]].
    + right. apply in_or_app. left. exact Hk.
    + left. reflexivity.
    + right. apply in_or_app. right. right. exact Hk.
  - apply incl_refl.
Qed.

Lemma write_links_incl (new_data : list record) :
  forall data,
    incl (links (fold_left upsert new_data data))
         (links data ++ links new_data).
Proof.
  induction new_data as [ | n new_data IH]; intros data; cbn [fold_left].
  - unfold links at 3. cbn. rewrite app_nil_r. apply incl_refl.
  - intros k Hk. apply IH in Hk. apply in_app_or in Hk as [Hk | Hk].
    + apply upsert_links_incl in Hk as [<- | Hk].
      * apply in_or_app. right. left. reflexivity.
      * apply in_or_app. left. exact Hk.
    + apply in_or_app. right. right. exact Hk.
Qed.

Lemma upsert_keeps_link (data : list record) (n : record) (k : pyval) :
  In k (links data) -> truthy k = true -> In k (links (upsert data n)).
Proof.
  intros Hk Ht.
  destruct (upsert_cases data n)
    as [(pre & stored & post & -> & _ & Hs & ->) | [_ ->]].
  - unfold links in *. rewrite map_app in *. cbn [map] in *.
    apply in_app_or in Hk as [Hk | [Hk | Hk]].
    + apply in_or_app. left. exact Hk.
    + apply in_or_app. right. left.
      unfold same_key in Hs. rewrite Hk, Ht in Hs.
      apply pyval_eqb_eq in Hs. symmetry. exact Hs.
    + apply in_or_app. right. right. exact Hk.
  - right. exact Hk.
Qed.

Lemma write_keeps_link (new_data : list record) (k : pyval) :
  forall data,
    In k (links data) -> truthy k = true ->
    In k (links (fold_left upsert new_data data)).
Proof.
  induction new_data as [ | n new_data IH]; intros data Hk Ht;
    [exact Hk | ].
  cbn [fold_left]. apply IH; [ | exact Ht].
  apply upsert_keeps_link; assumption.
Qed.

(** [apply_filters] only ever adds to the filtered store records made
    from the daily store: after a call, every link of the filtered store
    was in it before or is the link of a daily record; every non-empty
    link that was in it is still in it; the daily store is as it was. *)
Theorem apply_filters_links (e : env) (now : Z) (s s' : stores)
    (daily filtered_now : list record) :
  daily_scrapped s = Some daily ->
  filtered s = Some filtered_now ->
  apply_filters e now s = Ok s' ->
  exists filtered_after,
    filtered s' = Some filtered_after
    /\ incl (links filtered_after) (links filtered_now ++ links daily)
    /\ (forall k, In k (links filtered_now) -> truthy k = true ->
                  In k (links filtered_after))
    /\ daily_scrapped s' = Some daily.
Proof.
  intros Hd Hf. unfold apply_filters. rewrite Hd, Hf.
  destruct (new_records daily filtered_now) as [ | r0 rest] eqn:En.
  - intros [= <-]. exists filtered_now. repeat split; try assumption.
    + apply incl_appl, incl_refl.
    + intros k Hk _. exact Hk.
  - destruct (ordered_filters e now (r0 :: rest)) as [fd | ] eqn:Eo;
      [ | discriminate].
    cbn [bind]. intros [= <-]. cbn [filtered daily_scrapped].
    eexists. split; [reflexivity | ]. split; [ | split; [ | reflexivity]].
    + unfold write_json. cbn [as_list]. intros k Hk.
      apply write_links_incl in Hk. apply in_app_or in Hk as [Hk | Hk];
        [apply in_or_app; left; exact Hk | ].
      apply in_or_app. right.
      apply in_map_iff in Hk as (r' & <- & Hr').
      destruct (derived_stages e now _ _ Eo) as [[_ F] _].
      rewrite Forall_forall in F.
      destruct (F r' Hr') as (r & Hr & K & _). rewrite K.
      apply in_map.
      unfold clean_empty_image, clean_empty_titles in Hr.
      apply filter_In in Hr as [Hr _]. apply filter_In in Hr as [Hr _].
      rewrite <- En in Hr. unfold new_records in Hr.
      apply filter_In in Hr as [Hr _]. exact Hr.
    + intros k Hk Ht. unfold write_json. cbn [as_list].
      apply write_keeps_link; assumption.
Qed.

Lemma compare_pair_not_similar (e : env) (data : list record) (i j : nat)
    (st : dedup_state) :
  fuzz_ratio e (title_of data i) (title_of data j) < 99 ->
  compare_pair e data i j st = st.
Proof.
  intros H. unfold compare_pair.
  fold (title_of data i) (title_of data j).
  destruct (Z.leb_spec 99 (fuzz_ratio e (title_of data i) (title_of data j)));
    [lia | reflexivity].
Qed.

Lemma compare_all_not_similar (e : env) (data : list record)
    (ps : list (nat * nat)) :
  forall st,
    (forall p, In p ps ->
               fuzz_ratio e (title_of data (fst p)) (title_of data (snd p))
               < 99) ->
    compare_all e data ps st = st.
Proof.
  induction ps as [ | p ps IH]; intros st H; [reflexivity | ].
  cbn [compare_all fold_left].
  rewrite compare_pair_not_similar by (apply H; left; reflexivity).
  apply IH. intros q Hq. apply H. right. exact Hq.
Qed.

Lemma select_all (data : list record) :
  select (repeat true (List.length data)) data = data.
Proof.
  induction data as [ | r data IH]; cbn; [reflexivity | ].
  rewrite IH. reflexivity.
Qed.

(** When no two titles of the batch have similarity 99 or more,
    [clean_duplicates] returns the batch as it is. *)
Theorem clean_duplicates_no_similar (e : env) (data : list record) :
  (forall i j, (i < j < List.length data)%nat ->
               fuzz_ratio e (title_of data i) (title_of data j) < 99) ->
  clean_duplicates e data = data.
Proof.
  intros H. unfold clean_duplicates.
  rewrite dedup_pass_pairs, compare_all_not_similar.
  - apply select_all.
  - intros [i j] Hp. apply H. apply in_index_pairs. exact Hp.
Qed.

End FilteredStore.

Section PromoLinks.

Import Filters.







End PromoLinks.


(** * Properties of [sites_to_run] *)

Section SitesToRun.

Import Distribution.

Lemma weekday_range (now : Z) : 0 <= weekday now < 7.
Proof. unfold weekday. apply Z.mod_pos_bound. lia. Qed.

Lemma today_is_listed (now : Z) :
  exists today,
    day_mapping (weekday now) = Some today
    /\ Forall (fun entry => PyDict.mem String.eqb today (snd entry) = true)
              site_lists.
Proof.
  pose proof (weekday_range now) as H.
  assert (E : weekday now = 0 \/ weekday now = 1 \/ weekday now = 2
              \/ weekday now = 3 \/ weekday now = 4 \/ weekday now = 5
              \/ weekday now = 6) by lia.
  repeat (destruct E as [E | E];
          [rewrite E; eexists; split;
           [reflexivity | repeat constructor] | ]).
  rewrite E. eexists. split; [reflexivity | repeat constructor].
Qed.


Lemma unique_schedule (schedules : list Sched.JobData) (sch : Sched.JobData) :
  NoDup (map Sched.d_id schedules) ->
  In sch schedules ->
  PyDict.get Sched.id_eqb (Sched.d_id sch)
    (PyDict.of_items Sched.id_eqb (Sched.by_id schedules)) = Some sch.
Proof.
  intros Hn Hin.
  assert (Hk : In (Sched.d_id sch) (map fst (Sched.by_id schedules)))
    by (rewrite by_id_keys; apply in_map; exact Hin).
  destruct (get_update_present Sched.id_eqb id_eqb_eq _ _ [] Hk)
    as (v & Hv & Hg).
  unfold PyDict.of_items. rewrite Hg. f_equal.
  apply (nodup_fst_functional (Sched.by_id schedules) (Sched.d_id sch)).
  - rewrite by_id_keys. exact Hn.
  - exact Hv.
  - apply in_by_id. tauto.
Qed.

(** The loop over the two lists when the job's list is to be used:
    only the list called [job_id] gives sites. *)
Lemma lists_of_job (job_id today : string)
    (visit : string * PyDict.dict (K := string) (V := list string)
             -> list string -> result (list string)) :
  (forall entry acc,
      In entry site_lists ->
      visit entry acc
      = if String.eqb (fst entry) job_id
        then Ok (extended acc today (snd entry)) else Ok acc) ->
  Filters.for_each visit site_lists []
  = Ok (match PyDict.get String.eqb job_id site_lists with
        | Some day_list =>
            day_sites "Daily" day_list ++ day_sites today day_list
        | None => []
        end).
Proof.
  intros H. unfold site_lists at 1. cbn [Filters.for_each].
  rewrite H by (left; reflexivity). cbn [fst snd].
  unfold site_lists. cbn [PyDict.get].
  destruct (String.eqb_spec "Sites at 12:00" job_id) as [<- | Hne].
  - cbn [bind]. rewrite H by (right; left; reflexivity). reflexivity.
  - cbn [bind]. rewrite H by (right; left; reflexivity). cbn [fst snd].
    destruct (String.eqb "Not sorted" job_id); reflexivity.
Qed.

Lemma lists_skipped (visit : string * PyDict.dict (K := string)
                                      (V := list string)
                             -> list string -> result (list string)) :
  (forall entry acc, In entry site_lists -> visit entry acc = Ok acc) ->
  Filters.for_each visit site_lists [] = Ok [].
Proof.
  intros H. unfold site_lists at 1. cbn [Filters.for_each].
  rewrite H by (left; reflexivity). cbn [bind].
  rewrite H by (right; left; reflexivity). reflexivity.
Qed.


(** For a job whose record in the state file (ids distinct) has an
    [at_time] and a [next_run], [sites_to_run] returns the sites of the
    job's list only when the time of day is past [at_time] and the
    persisted [next_run] is dated today, and nothing otherwise. *)
Theorem sites_to_run_with_at_time (schedules : list Sched.JobData)
    (now : Z) (job_id : string) (sch : Sched.JobData) (s : string)
    (rt t : Z) :
  NoDup (map Sched.d_id schedules) ->
  In sch schedules ->
  Sched.d_id sch = Sched.IdStr job_id ->
  Sched.d_at_time sch = Some s ->
  strptime_HM s = Some rt ->
  Sched.d_next_run sch = Some t ->
  sites_to_run (Sched.StateDoc schedules) now job_id
  = Ok (if (rt <? time_of now) && (date_of t =? date_of now)
        then job_sites job_id now else []).
Proof.
  intros Hn Hin Hid Ha Hp Ht. unfold sites_to_run, job_sites.
  rewrite current_time_HMS.
  destruct (today_is_listed now) as (today & -> & Hm).
  rewrite Forall_forall in Hm.
  rewrite <- Hid, (unique_schedule schedules sch Hn Hin).
  unfold schedule_time_of. rewrite Ha, Hp.
  assert (Hs : String.eqb s "" = false)
    by (destruct s; [discriminate Hp | reflexivity]).
  rewrite Hs. cbn [negb].
  destruct ((rt <? time_of now) && (date_of t =? date_of now)) eqn:E.
  - apply lists_of_job. intros entry acc He.
    unfold visit_list, should_run_today. rewrite (Hm entry He), Ht.
    cbn [bind]. rewrite E.
    apply andb_true_iff in E as [E1 _]. rewrite E1, andb_true_r.
    reflexivity.
  - apply lists_skipped. intros entry acc He.
    unfold visit_list, should_run_today. rewrite (Hm entry He), Ht.
    cbn [bind]. rewrite E. reflexivity.
Qed.

End SitesToRun.


(** * Further properties of the sweep *)

Section SweepCompleted.

Import Sched.

Variable e : env.
Variable now : Z.

Lemma sweep_runs_due (todo : list Job) :
  forall done later w tr s',
    sweep e now done todo later w tr = Swept s' ->
    exists todo',
      jobs s' = done ++ todo' ++ later
      /\ Forall2 (visited e now) todo todo'
      /\ ran s' = tr ++ map job_id (filter (due now) todo).
Proof.
  induction todo as [ | job rest IH]; intros done later w tr s'; cbn [sweep].
  - intros [= <-]. exists []. cbn. rewrite app_nil_r.
    repeat split. constructor.
  - destruct (due now job) eqn:Hd.
    + destruct (run e now job) as [job' [err | ]] eqn:Er; [discriminate | ].
      destruct (save_data _ w) as [w' | | ]; try discriminate.
      intros H. apply IH in H as (todo' & Hj & Hf & Hr).
      exists (job' :: todo'). repeat split.
      * rewrite Hj, <- app_assoc. reflexivity.
      * constructor; [ | exact Hf]. unfold visited. rewrite Hd. exact Er.
      * rewrite Hr. cbn [filter]. rewrite Hd. cbn [map].
        rewrite <- app_assoc. reflexivity.
    + intros H. apply IH in H as (todo' & Hj & Hf & Hr).
      exists (job :: todo'). repeat split.
      * rewrite Hj, <- app_assoc. reflexivity.
      * constructor; [ | exact Hf]. unfold visited. rewrite Hd. reflexivity.
      * rewrite Hr. cbn [filter]. rewrite Hd. reflexivity.
Qed.

(** A sweep that completes has run exactly the jobs that were due, each
    once and in the order of the list, and has left the others as they
    were. *)
Theorem run_pending_runs_due_jobs (s s' : sched_state) :
  run_pending e now s = Swept s' ->
  Forall2 (visited e now) (jobs s) (jobs s')
  /\ ran s' = ran s ++ map job_id (filter (due now) (jobs s)).
Proof.
  intros H. unfold run_pending in H.
  apply sweep_runs_due in H as (todo' & Hj & Hf & Hr).
  cbn [app] in Hj. rewrite app_nil_r in Hj. rewrite Hj.
  split; assumption.
Qed.

Lemma sweep_last_save (todo : list Job) :
  forall done later w tr s',
    sweep e now done todo later w tr = Swept s' ->
    (disk s' = w /\ Forall (fun job => due now job = false) todo)
    \/ exists w0, save_data (jobs s') w0 = Saved (disk s').
Proof.
  induction todo as [ | job rest IH]; intros done later w tr s'; cbn [sweep].
  - intros [= <-]. left. split; [reflexivity | constructor].
  - destruct (due now job) eqn:Hd.
    + destruct (run e now job) as [job' [err | ]] eqn:Er; [discriminate | ].
      destruct (save_data _ w) as [w' | | ] eqn:Es; try discriminate.
      intros H. right.
      destruct (IH _ _ _ _ _ H) as [[Hw Hn] | Hs]; [ | exact Hs].
      rewrite sweep_nothing_due in H by exact Hn. injection H as <-.
      cbn [jobs disk]. exists w. rewrite <- app_assoc. exact Es.
    + intros H. destruct (IH _ _ _ _ _ H) as [[Hw Hn] | Hs].
      * left. split; [exact Hw | constructor; assumption].
      * right. exact Hs.
Qed.

(** After a sweep that completes and in which some job was due, the state
    file is up to date: under the id of every job of the scheduler,
    [load_job_data] finds the dictionary of a job of the scheduler with
    that id, as it is after the sweep. *)
Theorem run_pending_leaves_state_saved (s s' : sched_state) (j : Job)
    (jid : string) :
  run_pending e now s = Swept s' ->
  existsb (due now) (jobs s) = true ->
  In j (jobs s') ->
  job_id j = IdStr jid ->
  exists j' d,
    In j' (jobs s') /\ job_id j' = IdStr jid /\ to_dict j' = Ok d
    /\ load_job_data jid (file (disk s')) = Some d.
Proof.
  intros H Hex Hj Hid. unfold run_pending in H.
  destruct (sweep_last_save _ _ _ _ _ _ H) as [[_ Hn] | [w0 Hs]].
  - apply existsb_exists in Hex as (x & Hx & Hdx).
    rewrite Forall_forall in Hn. rewrite (Hn x Hx) in Hdx. discriminate.
  - destruct w0 as [f attempts].
    exact (save_then_find (jobs s') f attempts (disk s') j jid Hs Hj Hid).
Qed.

End SweepCompleted.


(** * Further properties of the title filters *)

Section Utf8.

Import Unicode.

Lemma byte_chr (b : Z) : 0 <= b < 256 -> byte (chr b) = b.
Proof.
  intros H. unfold byte, chr.
  rewrite nat_ascii_embedding by lia. lia.
Qed.

Lemma chr_byte (a : ascii) : chr (byte a) = a.
Proof.
  unfold byte, chr. rewrite Nat2Z.id. apply ascii_nat_embedding.
Qed.

Lemma byte_range (a : ascii) : 0 <= byte a < 256.
Proof.
  unfold byte. pose proof (nat_ascii_bounded a). lia.
Qed.

Lemma decode_cons (a : ascii) (r : string) :
  decode (String a r)
  = let x := byte a in
    if x <? 128 then x :: decode r
    else
      match r with
      | EmptyString => [escape x]
      | String b r1 =>
          let y := byte b in
          if (194 <=? x) && (x <=? 223) && is_cont y
          then ((x - 192) * 64 + (y - 128)) :: decode r1
          else
            match r1 with
            | EmptyString => escape x :: decode r
            | String c r2 =>
                let z := byte c in
                let p3 := (x - 224) * 4096 + (y - 128) * 64 + (z - 128) in
                if (224 <=? x) && (x <=? 239) && is_cont y && is_cont z
                   && (2048 <=? p3) && negb (is_surrogate p3)
                then p3 :: decode r2
                else
                  match r2 with
                  | EmptyString => escape x :: decode r
                  | String d r3 =>
                      let w := byte d in
                      let p4 := (x - 240) * 262144 + (y - 128) * 4096
                                + (z - 128) * 64 + (w - 128) in
                      if (240 <=? x) && (x <=? 244) && is_cont y
                         && is_cont z && is_cont w
                         && (65536 <=? p4) && (p4 <=? 1114111)
                      then p4 :: decode r3
                      else escape x :: decode r
                  end
            end
      end.
Proof. destruct r as [ | b [ | c [ | d r3]]]; reflexivity. Qed.

Ltac settle_tests :=
  repeat match goal with
         | |- context [?a <=? ?b] =>
             destruct (Z.leb_spec a b);
             try (exfalso; Z.div_mod_to_equations; lia)
         | |- context [?a <? ?b] =>
             destruct (Z.ltb_spec a b);
             try (exfalso; Z.div_mod_to_equations; lia)
         end.

(** Decoding gives back a code point that was encoded, whatever follows. *)
Lemma decode_encode_point (c : Z) (rest : string) :
  scalar c = true ->
  decode (encode_point c ++ rest) = c :: decode rest.
Proof.
  unfold scalar, is_surrogate. intros H.
  apply andb_true_iff in H as [H Hs]. apply andb_true_iff in H as [H0 H1].
  apply Z.leb_le in H0. apply Z.leb_le in H1.
  apply negb_true_iff, andb_false_iff in Hs.
  assert (Hsur : c < 55296 \/ 57343 < c).
  { destruct Hs as [Hs | Hs]; [left | right].
    - apply Z.leb_gt in Hs. exact Hs.
    - apply Z.leb_gt in Hs. exact Hs. }
  clear Hs. unfold encode_point.
  destruct (Z.ltb_spec c 128) as [L1 | L1].
  { cbn [append]. rewrite decode_cons. cbv beta iota zeta.
    rewrite byte_chr by lia.
    destruct (Z.ltb_spec c 128); [reflexivity | lia]. }
  destruct (Z.ltb_spec c 2048) as [L2 | L2].
  { cbn [append]. rewrite decode_cons. cbv beta iota zeta.
    rewrite !byte_chr by (Z.div_mod_to_equations; lia).
    unfold is_cont.
    replace ((192 + c / 64 - 192) * 64 + (128 + c mod 64 - 128)) with c
      by (Z.div_mod_to_equations; lia).
    settle_tests; reflexivity. }
  destruct ((56448 <=? c) && (c <=? 56575)) eqn:Eesc.
  { apply andb_true_iff in Eesc as [E1 E2].
    apply Z.leb_le in E1. apply Z.leb_le in E2. lia. }
  destruct (Z.ltb_spec c 65536) as [L3 | L3].
  { cbn [append]. rewrite decode_cons. cbv beta iota zeta.
    rewrite !byte_chr by (Z.div_mod_to_equations; lia).
    unfold is_cont, is_surrogate.
    replace ((224 + c / 4096 - 224) * 4096 + (128 + c / 64 mod 64 - 128) * 64
             + (128 + c mod 64 - 128)) with c
      by (Z.div_mod_to_equations; lia).
    settle_tests; reflexivity. }
  cbn [append]. rewrite decode_cons. cbv beta iota zeta.
  rewrite !byte_chr by (Z.div_mod_to_equations; lia).
  unfold is_cont, is_surrogate.
  replace ((240 + c / 262144 - 240) * 262144
           + (128 + c / 4096 mod 64 - 128) * 4096
           + (128 + c / 64 mod 64 - 128) * 64 + (128 + c mod 64 - 128))
    with c by (Z.div_mod_to_equations; lia).
  settle_tests; reflexivity.
Qed.

(** A well-formed text is read back as it was written. *)
Lemma decode_encode (l : list Z) :
  forallb scalar l = true -> decode (encode l) = l.
Proof.
  induction l as [ | c l IH]; intros H; [reflexivity | ].
  cbn [forallb] in H. apply andb_true_iff in H as [Hc Hl].
  cbn [encode]. rewrite decode_encode_point by exact Hc.
  rewrite IH by exact Hl. reflexivity.
Qed.

Ltac split_tests H :=
  repeat match type of H with
         | _ && _ = true =>
             let H' := fresh H in apply andb_true_iff in H as [H H']
         end;
  repeat match goal with
         | T : (_ <=? _) = true |- _ => apply Z.leb_le in T
         | T : is_cont _ = true |- _ =>
             unfold is_cont in T;
             let T' := fresh T in
             apply andb_true_iff in T as [T T']
         | T : negb (is_surrogate _) = true |- _ =>
             unfold is_surrogate in T; apply negb_true_iff in T;
             apply andb_false_iff in T;
             destruct T as [T | T]; apply Z.leb_gt in T
         end.

Lemma encode_escape (a : ascii) :
  128 <= byte a -> encode_point (escape (byte a)) = String a EmptyString.
Proof.
  intros H. pose proof (byte_range a) as R. unfold encode_point, escape.
  settle_tests; cbn [andb].
  replace (56320 + byte a - 56320) with (byte a) by lia.
  rewrite chr_byte. reflexivity.
Qed.

(** Encoding gives back the bytes that were decoded, whatever they are. *)
Lemma encode_decode (s : string) : encode (decode s) = s.
Proof.
  assert (G : forall n s, (String.length s <= n)%nat ->
                          encode (decode s) = s).
  { clear s. induction n as [ | n IH]; intros s Hn.
    - destruct s; [reflexivity | cbn in Hn; lia].
    - destruct s as [ | a r]; [reflexivity | ].
      cbn [String.length] in Hn.
      pose proof (byte_range a) as Ra.
      assert (Hr : encode (decode r) = r) by (apply IH; lia).
      assert (Esc : 128 <= byte a ->
                    encode (escape (byte a) :: decode r) = String a r).
      { intros Ha. cbn [encode]. rewrite encode_escape by exact Ha.
        rewrite Hr. reflexivity. }
      rewrite decode_cons. cbv beta zeta.
      destruct (Z.ltb_spec (byte a) 128) as [L | L].
      { cbn [encode]. rewrite Hr. unfold encode_point.
        destruct (Z.ltb_spec (byte a) 128); [ | lia].
        rewrite chr_byte. reflexivity. }
      destruct r as [ | b r1].
      { cbn [encode]. rewrite encode_escape by exact L. reflexivity. }
      cbn [String.length] in Hn. pose proof (byte_range b) as Rb.
      destruct ((194 <=? byte a) && (byte a <=? 223) && is_cont (byte b))
        eqn:T2.
      { split_tests T2. cbn [encode]. rewrite (IH r1) by lia.
        unfold encode_point. settle_tests; cbn [andb].
        replace (192 + ((byte a - 192) * 64 + (byte b - 128)) / 64)
          with (byte a) by (Z.div_mod_to_equations; lia).
        replace (128 + ((byte a - 192) * 64 + (byte b - 128)) mod 64)
          with (byte b) by (Z.div_mod_to_equations; lia).
        rewrite !chr_byte. reflexivity. }
      destruct r1 as [ | c r2]; [apply Esc, L | ].
      cbn [String.length] in Hn. pose proof (byte_range c) as Rc.
      set (p3 := (byte a - 224) * 4096 + (byte b - 128) * 64
                 + (byte c - 128)).
      destruct ((224 <=? byte a) && (byte a <=? 239) && is_cont (byte b)
                && is_cont (byte c) && (2048 <=? p3)
                && negb (is_surrogate p3)) eqn:T3.
      { split_tests T3; cbn [encode]; rewrite (IH r2) by lia;
          unfold encode_point;
          (replace (224 + p3 / 4096) with (byte a)
            by (subst p3; Z.div_mod_to_equations; lia));
          (replace (128 + p3 / 64 mod 64) with (byte b)
            by (subst p3; Z.div_mod_to_equations; lia));
          (replace (128 + p3 mod 64) with (byte c)
            by (subst p3; Z.div_mod_to_equations; lia));
          assert (P : 2048 <= p3 < 65536) by (subst p3; lia);
          settle_tests; cbn [andb]; rewrite !chr_byte; reflexivity. }
      destruct r2 as [ | d r3]; [apply Esc, L | ].
      cbn [String.length] in Hn. pose proof (byte_range d) as Rd.
      set (p4 := (byte a - 240) * 262144 + (byte b - 128) * 4096
                 + (byte c - 128) * 64 + (byte d - 128)).
      destruct ((240 <=? byte a) && (byte a <=? 244) && is_cont (byte b)
                && is_cont (byte c) && is_cont (byte d) && (65536 <=? p4)
                && (p4 <=? 1114111)) eqn:T4; [ | apply Esc, L].
      split_tests T4. cbn [encode]. rewrite (IH r3) by lia.
      unfold encode_point.
      replace (240 + p4 / 262144) with (byte a)
        by (subst p4; Z.div_mod_to_equations; lia).
      replace (128 + p4 / 4096 mod 64) with (byte b)
        by (subst p4; Z.div_mod_to_equations; lia).
      replace (128 + p4 / 64 mod 64) with (byte c)
        by (subst p4; Z.div_mod_to_equations; lia).
      replace (128 + p4 mod 64) with (byte d)
        by (subst p4; Z.div_mod_to_equations; lia).
      settle_tests; cbn [andb]; rewrite !chr_byte; reflexivity. }
  exact (G (String.length s) s (Nat.le_refl _)).
Qed.

End Utf8.

Section Symbols.

Import Unicode.

Variable P : Z -> Prop.

(** What holds of every code point of a text and of what is written into
    it holds of every code point of the result. *)
Lemma replace_points_from_all (old new : list Z) :
  Forall P new ->
  forall (l : list Z) (skip : nat),
    Forall P l -> Forall P (replace_points_from old new skip l).
Proof.
  intros Hn. induction l as [ | c l IH]; intros skip Hl; [constructor | ].
  apply Forall_cons_iff in Hl as [Hc Hl]. cbn [replace_points_from].
  destruct skip as [ | k]; [ | apply IH, Hl].
  destruct (starts_with old (c :: l)).
  - apply Forall_app. split; [exact Hn | apply IH, Hl].
  - constructor; [exact Hc | apply IH, Hl].
Qed.

Lemma replace_points_all (old new l : list Z) :
  Forall P l -> Forall P new -> Forall P (replace_points old new l).
Proof. intros Hl Hn. apply replace_points_from_all; assumption. Qed.

Lemma collapse_spaces_all (l : list Z) :
  P 32 -> forall in_run, Forall P l -> Forall P (collapse_spaces in_run l).
Proof.
  intros Hb. induction l as [ | c l IH]; intros in_run Hl; [constructor | ].
  apply Forall_cons_iff in Hl as [Hc Hl]. cbn [collapse_spaces].
  destruct (is_space c); [destruct in_run | ];
    repeat constructor; try assumption; apply IH, Hl.
Qed.

Lemma skip_spaces_all (l : list Z) :
  Forall P l -> Forall P (skip_spaces l).
Proof.
  induction l as [ | c l IH]; intros Hl; [constructor | ].
  cbn [skip_spaces]. destruct (is_space c); [ | exact Hl].
  apply Forall_cons_iff in Hl as [_ Hl]. apply IH, Hl.
Qed.

Lemma rstrip_all (l : list Z) : Forall P l -> Forall P (rstrip l).
Proof.
  induction l as [ | c l IH]; intros Hl; [constructor | ].
  apply Forall_cons_iff in Hl as [Hc Hl]. specialize (IH Hl).
  cbn [rstrip]. destruct (rstrip l) as [ | d r'].
  - destruct (is_space c); repeat constructor. exact Hc.
  - constructor; assumption.
Qed.

Lemma strip_points_all (l : list Z) :
  Forall P l -> Forall P (strip_points l).
Proof. intros H. apply rstrip_all, skip_spaces_all, H. Qed.

End Symbols.

Section SymbolsGone.

Import Unicode Filters.

(** A replacement of the single code point [c] leaves no [c], when what
    is written in its place has none. *)
Lemma replace_points_removes (c : Z) (new l : list Z) :
  Forall (fun x => x <> c) new ->
  Forall (fun x => x <> c) (replace_points [c] new l).
Proof.
  intros Hn. unfold replace_points.
  induction l as [ | a l IH]; [constructor | ].
  cbn [replace_points_from starts_with List.length Nat.sub].
  destruct (Z.eqb_spec c a) as [E | E]; cbn [andb].
  - apply Forall_app. split; [exact Hn | exact IH].
  - constructor; [congruence | exact IH].
Qed.

Lemma forallb_Forall (f : Z -> bool) (l : list Z) :
  forallb f l = true <-> Forall (fun x => f x = true) l.
Proof. rewrite forallb_forall, Forall_forall. reflexivity. Qed.

Ltac literal_points :=
  repeat match goal with
         | |- context [decode (String ?a ?r)] =>
             let t := eval vm_compute in (decode (String a r)) in
             change (decode (String a r)) with t
         end.

Ltac differ := repeat constructor; discriminate.

Ltac symbol_gone :=
  repeat first
    [ apply replace_points_removes; differ
    | apply replace_points_all; [ | differ] ].

(** The symbol stage writes well-formed text when it reads some. *)
Lemma symbols_replaced_scalar (l : list Z) :
  forallb scalar l = true -> forallb scalar (symbols_replaced l) = true.
Proof.
  intros H. apply forallb_Forall. apply forallb_Forall in H.
  unfold symbols_replaced. literal_points.
  apply strip_points_all. apply collapse_spaces_all; [reflexivity | ].
  repeat (apply replace_points_all; [ | repeat constructor]).
  exact H.
Qed.

Lemma replace_symbols_points (title : string) :
  well_formed title = true ->
  decode (replace_symbols title) = symbols_replaced (decode title).
Proof.
  intros Hw. unfold replace_symbols.
  apply decode_encode, symbols_replaced_scalar, Hw.
Qed.

(** After the replacements a text has none of the fifteen characters: each
    is taken out by its own replacement, and no later replacement nor the
    white-space clean-up brings one back. *)
Lemma symbols_gone (l : list Z) :
  Forall (fun c => ~ In c (symbols_replaced l)) removed_symbols.
Proof.
  assert (G : forall (c : Z) (l' : list Z),
             Forall (fun x => x <> c) l' -> ~ In c l').
  { intros c l' H Hin. rewrite Forall_forall in H.
    exact (H c Hin eq_refl). }
  unfold removed_symbols, symbols_replaced. literal_points.
  repeat (apply Forall_cons;
          [apply G; apply strip_points_all;
           apply collapse_spaces_all; [discriminate | ]; symbol_gone | ]).
  apply Forall_nil.
Qed.

(** [replace_symb_title] rewrites the title of every record that has a
    string as its title, leaving every other field and every other record
    as it is; a title that is well-formed text comes out as well-formed
    text without any of the fifteen characters the stage takes out or
    writes otherwise. *)
Theorem replace_symb_title_titles (data : list record) :
  Forall2
    (fun r r' =>
       match PyDict.get String.eqb "Title" r with
       | Some (PStr title) =>
           (exists title',
               rget "Title" r' = PStr title'
               /\ (well_formed title = true ->
                   well_formed title' = true
                   /\ Forall (fun c => ~ In c (decode title'))
                             removed_symbols))
           /\ (forall k, k <> "Title" -> rget k r' = rget k r)
       | _ => r' = r
       end) data (replace_symb_title data).
Proof.
  unfold replace_symb_title. induction data as [ | r data IH]; cbn [map];
    constructor; [ | exact IH].
  destruct (PyDict.get String.eqb "Title" r) as [[ | title] | ];
    try reflexivity.
  split.
  - exists (replace_symbols title). split; [apply rget_rset_same | ].
    intros Hw. unfold well_formed.
    rewrite (replace_symbols_points title Hw).
    split; [apply symbols_replaced_scalar, Hw | apply symbols_gone].
  - intros k Hk. apply rget_rset_other. exact Hk.
Qed.

Example well_formed_run :
  well_formed (bytes [99; 97; 102; 195; 169; 226; 128; 148]%nat) = true
  /\ well_formed (bytes [99; 195]%nat) = false.
Proof. split; vm_compute; reflexivity. Qed.

(** A title with the fifteen characters and white space of several
    kinds (no-break space, em space, next line), and what is left of it. *)
Example replace_symbols_run :
  replace_symbols
    (bytes [194; 160; 227; 128; 144; 65; 227; 128; 145; 32; 66; 45; 67; 124;
            68; 58; 32; 69; 44; 32; 70; 46; 32; 40; 71; 41; 32; 35; 72; 32;
            226; 128; 153; 115; 32; 38; 32; 105; 43; 106; 32; 226; 128; 148;
            32; 111; 107; 63; 226; 128; 131; 194; 133; 32]%nat)
  = "A BCD E F G H 's and iandj ok".
Proof. vm_compute. reflexivity. Qed.

(** Letters that are not ASCII pass through; the ideographic space
    U+3000 becomes a blank. *)
Example replace_symbols_letters :
  replace_symbols
    (bytes [99; 97; 102; 195; 169; 227; 128; 128; 228; 184; 173; 32;
            226; 128; 148; 32; 120]%nat)
  = bytes [99; 97; 102; 195; 169; 32; 228; 184; 173; 32; 120]%nat.
Proof. vm_compute. reflexivity. Qed.

End SymbolsGone.



(** * The further properties on the scenarios *)

Section MoreOnScenarios.

Import Scenarios MoreScenarios.

Lemma from_dict_to_dict_witness :
  exists d,
    Sched.to_dict sound_job = Ok d
    /\ Sched.from_dict quiet_env 0 d
       = Ok (Sched.mkJob (Sched.job_id sound_job) (Sched.interval sound_job)
               (Sched.job_unit sound_job) (Some plain_action)
               (if Sched.str_truthy (Sched.at_time sound_job)
                then Sched.at_time sound_job else None)
               (Sched.day_of_week sound_job) (Sched.last_run sound_job)
               (Some 3600) false).
Proof.
  apply (from_dict_to_dict quiet_env 0 sound_job plain_action 3600);
    reflexivity.
Defined.

Lemma to_dict_from_dict_witness :
  Sched.to_dict job_unsorted_restored = Ok entry_unsorted.
Proof.
  apply (to_dict_from_dict quiet_env 0 entry_unsorted job_unsorted_restored
           4600); [reflexivity | discriminate | reflexivity].
Defined.

Lemma do_registers_runnable_witness :
  exists job,
    [Sched.set_next_run (Some 3600)
       (Sched.set_job_func (Some plain_action) unsorted_builder)]
    = [] ++ [job]
    /\ Sched.is_str (Sched.job_id job) = true
    /\ Sched.job_func job <> None
    /\ Sched.next_run job <> None.
Proof.
  apply (do_registers_runnable quiet_env 0 Sched.Missing [] _
           unsorted_builder plain_action).
  reflexivity.
Defined.

Lemma run_pending_nothing_due_witness :
  Sched.run_pending quiet_env 0 one_due = Sched.Swept one_due.
Proof.
  apply (run_pending_nothing_due quiet_env 0 one_due).
  repeat constructor.
Defined.

Lemma run_pending_keeps_ids_witness :
  map Sched.job_id [broken_job; sound_job]
  = map Sched.job_id
      (Sched.jobs (Sched.mkState [broken_job; sound_job]
                     (Sched.mkWorld Sched.Missing []) [])).
Proof.
  apply (run_pending_keeps_ids failing_env 7200
           (Sched.mkState [broken_job; sound_job]
              (Sched.mkWorld Sched.Missing []) [])).
  reflexivity.
Defined.

Lemma run_hours_reschedules_witness :
  Sched.run quiet_env 7200 sound_job
  = (Sched.set_next_run (Some (7200 + Sched.interval sound_job * 3600))
       (Sched.set_last_run (Some 7200) sound_job), None)
  /\ (forall now', now' < 7200 + Sched.interval sound_job * 3600 ->
                   Sched.due now'
                     (Sched.set_next_run
                        (Some (7200 + Sched.interval sound_job * 3600))
                        (Sched.set_last_run (Some 7200) sound_job))
                   = false).
Proof.
  apply (run_hours_reschedules quiet_env 7200 sound_job plain_action);
    try reflexivity; cbn; lia.
Defined.

Lemma run_weeks_same_day_due_again_witness :
  Sched.run quiet_env noon weekly_job
  = (Sched.set_next_run (Some noon)
       (Sched.set_last_run (Some noon) weekly_job), None)
  /\ (forall now', noon <= now' ->
                   Sched.due now'
                     (Sched.set_next_run (Some noon)
                        (Sched.set_last_run (Some noon) weekly_job))
                   = true).
Proof.
  apply (run_weeks_same_day_due_again quiet_env noon weekly_job
           plain_action 6); reflexivity.
Defined.

Lemma next_run_weeks_weekday_witness :
  exists t,
    Sched.next_run_weeks tuesday_noon weekly_job = Ok t
    /\ weekday t = 6 mod 7
    /\ time_of t = time_of tuesday_noon
    /\ tuesday_noon <= t <= tuesday_noon + 6 * 86400.
Proof.
  apply (next_run_weeks_weekday tuesday_noon weekly_job 6). reflexivity.
Defined.

(** From Tuesday noon, the job set for Sunday is due on Sunday noon. *)
Example next_run_weeks_run :
  Sched.next_run_weeks tuesday_noon weekly_job = Ok (noon + 7 * 86400).
Proof. vm_compute. reflexivity. Qed.

Lemma run_days_reschedules_witness :
  Sched.run quiet_env (19792 * 86400 + 13 * 3600) daily_job
  = (Sched.set_next_run
       (Some (combine (date_of (19792 * 86400 + 13 * 3600)
                       + Sched.interval daily_job) 43800))
       (Sched.set_last_run (Some (19792 * 86400 + 13 * 3600)) daily_job),
     None)
  /\ date_of (combine (date_of (19792 * 86400 + 13 * 3600)
                       + Sched.interval daily_job) 43800)
     = date_of (19792 * 86400 + 13 * 3600) + Sched.interval daily_job
  /\ time_of (combine (date_of (19792 * 86400 + 13 * 3600)
                       + Sched.interval daily_job) 43800) = 43800.
Proof.
  apply (run_days_reschedules quiet_env (19792 * 86400 + 13 * 3600)
           daily_job (scrape_upload "Sites at 12:00") "12:10" 43800);
    try reflexivity.
Defined.

Lemma save_data_then_load_job_data_witness :
  exists j' d,
    In j' [job_unsorted] /\ Sched.job_id j' = Sched.IdStr "Not sorted"
    /\ Sched.to_dict j' = Ok d
    /\ Sched.load_job_data "Not sorted"
         (Sched.file
            (Sched.mkWorld
               (Sched.StateDoc [entry_sites; entry_unsorted_new]) []))
       = Some d.
Proof.
  apply (save_data_then_load_job_data [job_unsorted]
           (Sched.StateDoc [entry_sites; entry_unsorted]) [Sched.WriteOk]
           (Sched.mkWorld (Sched.StateDoc [entry_sites; entry_unsorted_new])
                          [])
           job_unsorted "Not sorted");
    [reflexivity | left; reflexivity | reflexivity].
Defined.

Lemma restart_restores_saved_job_witness :
  exists j',
    In j' [job_unsorted] /\ Sched.job_id j' = Sched.IdStr "Not sorted"
    /\ Sched.do quiet_env 500000
         (Sched.file
            (Sched.mkWorld
               (Sched.StateDoc [entry_sites; entry_unsorted_new]) []))
         [] unsorted_builder (scrape_upload "Not sorted")
       = Ok ([] ++ [restored j']).
Proof.
  apply (restart_restores_saved_job quiet_env 500000 [job_unsorted]
           (Sched.StateDoc [entry_sites; entry_unsorted]) [Sched.WriteOk]
           (Sched.mkWorld (Sched.StateDoc [entry_sites; entry_unsorted_new])
                          [])
           job_unsorted "Not sorted" [] unsorted_builder
           (Sched.set_next_run (Some 503600)
              (Sched.set_job_func (Some (scrape_upload "Not sorted"))
                 unsorted_builder))
           (scrape_upload "Not sorted"));
    try reflexivity.
  - left. reflexivity.
  - apply Forall_cons; [ | apply Forall_nil].
    split; [discriminate | intros a _; reflexivity].
Defined.

Lemma run_pending_runs_due_jobs_witness :
  Forall2 (visited quiet_env 7200) (Sched.jobs one_due)
          (Sched.jobs one_due_swept)
  /\ Sched.ran one_due_swept
     = Sched.ran one_due
       ++ map Sched.job_id (filter (Sched.due 7200) (Sched.jobs one_due)).
Proof.
  apply (run_pending_runs_due_jobs quiet_env 7200 one_due one_due_swept).
  reflexivity.
Defined.

Lemma run_pending_leaves_state_saved_witness :
  exists j' d,
    In j' (Sched.jobs one_due_swept)
    /\ Sched.job_id j' = Sched.IdStr "second"
    /\ Sched.to_dict j' = Ok d
    /\ Sched.load_job_data "second" (Sched.file (Sched.disk one_due_swept))
       = Some d.
Proof.
  apply (run_pending_leaves_state_saved quiet_env 7200 one_due one_due_swept
           sound_job_ran "second");
    [reflexivity | reflexivity | left; reflexivity | reflexivity].
Defined.

End MoreOnScenarios.

Section MoreOnStores.

Import Store Filters Distribution Scenarios MoreScenarios.

Lemma write_json_keeps_unmatched_witness :
  In record_a (write_json (Records [record_b]) [record_a]).
Proof.
  apply (write_json_keeps_unmatched [record_b] [record_a] record_a).
  - left. reflexivity.
  - intros n [<- | []]. reflexivity.
Defined.

Lemma write_json_twice_witness :
  write_json (Records [record_b; record_c])
             (write_json (Records [record_b; record_c]) [record_a; record_b])
  = write_json (Records [record_b; record_c]) [record_a; record_b].
Proof.
  apply (write_json_twice [record_b; record_c] [record_a; record_b]).
  - repeat (apply Forall_cons; [reflexivity | ]). apply Forall_nil.
  - repeat (apply NoDup_cons; [cbn; intuition discriminate | ]).
    apply NoDup_nil.
  - repeat (apply Forall_cons; [reflexivity | ]). apply Forall_nil.
  - repeat (apply NoDup_cons; [cbn; intuition discriminate | ]).
    apply NoDup_nil.
Defined.

Lemma ordered_filters_provenance_witness :
  (List.length [with_promo record_a]
   <= List.length [record_a; record_b])%nat
  /\ Forall
       (fun r' =>
          (exists r,
              In r [record_a; record_b]
              /\ rget "Title" r <> PNone
              /\ rget link_key r' = rget link_key r
              /\ rget "Site" r' = rget "Site" r
              /\ rget "Path image" r' = rget "Path image" r
              /\ rget "Date" r' = rget "Date" r)
          /\ (exists t, rget "Title" r' = PStr t)
          /\ rget "Path image" r' <> PNone
          /\ PyDict.mem String.eqb "Link for promo" r' = true)
       [with_promo record_a].
Proof.
  apply (ordered_filters_provenance plain_env noon [record_a; record_b]
           [with_promo record_a]).
  reflexivity.
Defined.

Lemma apply_filters_links_witness :
  exists filtered_after,
    filtered (mkStores (Some [record_a; record_b])
                       (Some [with_promo record_a; with_promo record_c]) 1)
    = Some filtered_after
    /\ incl (links filtered_after)
            (links [with_promo record_c] ++ links [record_a; record_b])
    /\ (forall k, In k (links [with_promo record_c]) -> truthy k = true ->
                  In k (links filtered_after))
    /\ daily_scrapped
         (mkStores (Some [record_a; record_b])
                   (Some [with_promo record_a; with_promo record_c]) 1)
       = Some [record_a; record_b].
Proof.
  apply (apply_filters_links plain_env noon
           (mkStores (Some [record_a; record_b])
                     (Some [with_promo record_c]) 0)
           (mkStores (Some [record_a; record_b])
                     (Some [with_promo record_a; with_promo record_c]) 1)
           [record_a; record_b] [with_promo record_c]);
    reflexivity.
Defined.

Lemma clean_duplicates_no_similar_witness :
  clean_duplicates plain_env [record_old; record_recent]
  = [record_old; record_recent].
Proof.
  apply (clean_duplicates_no_similar plain_env [record_old; record_recent]).
  intros i j H. cbn [List.length] in H.
  assert (Hi : i = 0%nat) by lia. assert (Hj : j = 1%nat) by lia.
  subst i j. reflexivity.
Defined.




(** On a Tuesday the job 'Not sorted' visits its two daily sites and the
    site of the day. *)
Example sites_to_run_tuesday :
  sites_to_run (Sched.StateDoc [entry_sites; entry_unsorted]) tuesday_noon
               "Not sorted"
  = Ok ["site1"; "site2"; "site3"].
Proof. vm_compute. reflexivity. Qed.

Lemma sites_to_run_with_at_time_witness :
  sites_to_run (Sched.StateDoc [entry_sites; entry_unsorted])
               quarter_past_noon "Sites at 12:00"
  = Ok (if (43800 <? time_of quarter_past_noon)
           && (date_of (19792 * 86400 + 43800) =? date_of quarter_past_noon)
        then job_sites "Sites at 12:00" quarter_past_noon else []).
Proof.
  apply (sites_to_run_with_at_time [entry_sites; entry_unsorted]
           quarter_past_noon "Sites at 12:00" entry_sites "12:10" 43800
           (19792 * 86400 + 43800)); try reflexivity.
  - repeat (apply NoDup_cons; [cbn; intuition discriminate | ]).
    apply NoDup_nil.
  - left. reflexivity.
Defined.

(** At noon, before 12:10, the job 'Sites at 12:00' has nothing to visit;
    at 12:15 it visits its daily sites. *)
Example sites_to_run_before_and_after :
  sites_to_run (Sched.StateDoc [entry_sites; entry_unsorted]) noon
               "Sites at 12:00" = Ok []
  /\ sites_to_run (Sched.StateDoc [entry_sites; entry_unsorted])
                  quarter_past_noon "Sites at 12:00"
     = Ok ["site2412"; "testy1233"; "site32121"; "site0120";
           "somethingsomethin291"].
Proof. split; vm_compute; reflexivity. Qed.

Lemma clean_older_than_3_days_missing_file_witness :
  (exists path,
      clean_older_than_3_days fresh_env noon [record_old; record_recent]
      = Raise (FileNotFoundError path))
  /\ clean_older_than_3_days fresh_env noon [record_old] = Ok [].
Proof.
  split.
  - apply (clean_older_than_3_days_missing_file fresh_env noon
             [record_old; record_recent]).
    + exists 1. split; [lia | reflexivity].
    + exists record_recent. split; [right; left; reflexivity | ].
      intros (s & d & Hs & Hd & Hlt). injection Hs as <-.
      vm_compute in Hd. injection Hd as <-. vm_compute in Hlt.
      discriminate Hlt.
  - apply (clean_older_than_3_days_missing_file fresh_env noon [record_old]).
    + exists 1. split; [lia | reflexivity].
    + intros r [<- | []]. exists "Mar 06, 2024", (date_of noon - 4).
      split; [reflexivity | ]. split; vm_compute; reflexivity.
Defined.

End MoreOnStores.
